(** * The MCP tool-calling clients: a shallow embedding and its properties

    The repository holds two command-line clients, [client-bedrock.py]
    (called Variant A below) and [client-openai.py] (Variant B).  Each one
    connects to a tool server, reads queries from the terminal and, for
    every query, runs [MCPClient.process_query]: it sends the conversation
    to a language-model backend, dispatches the tool requests of the reply
    to the tool session and feeds the results back.

    The embedding follows the Python text statement by statement.  The
    backend and the tool session are external: they are oracles over an
    abstract world state, and every call to one of them is logged in a
    trace together with what was sent and what came back.  Python's
    [eval], which Variant B applies to the arguments of a tool call, is an
    oracle too; it runs inside [process_query], so it is given the
    variables of the client and hands them back as it leaves them.
    Signals (an interrupt from the keyboard, a cancelled task) are left
    out: what is not an [Exception] can come from [eval] only. *)

From stdpp Require Import base list strings pretty.
From Stdlib Require Import ZArith Lia Ascii.

Set Warnings "-register-all".

Local Open Scope string_scope.
Local Open Scope list_scope.

(** ** Python values and the built-ins the clients rely on *)

Module Py.

(** JSON-like Python values: what [json.loads] produces and what the
    tool schemas and arguments are made of.  Floating-point numbers are
    left out.  A [dict] keeps its insertion order, hence the association
    list.  A [str] is read as a sequence of code points below 256. *)
Inductive value : Type :=
| VNone
| VBool (b : bool)
| VInt (z : Z)
| VStr (s : string)
| VList (l : list value)
| VDict (d : list (string * value)).

(** Lookup in the association list of a dict whose keys are distinct. *)
Fixpoint assoc (key : string) (d : list (string * value)) : option value :=
  match d with
  | [] => None
  | (k, v) :: d' => if String.eqb k key then Some v else assoc key d'
  end.

(** [v[key]]; [None] stands for the [KeyError] / [TypeError]. *)
Definition getitem (key : string) (v : value) : option value :=
  match v with
  | VDict d => assoc key d
  | _ => None
  end.

Definition keys (v : value) : list string :=
  match v with
  | VDict d => map fst d
  | _ => []
  end.

Definition code (c : ascii) : N := Ascii.N_of_ascii c.

(** [str.isspace] on one character (code points below 256). *)
Definition isspace (c : ascii) : bool :=
  let n := code c in
  ((9 <=? n) && (n <=? 13) || (28 <=? n) && (n <=? 32)
   || (n =? 133) || (n =? 160))%N.

Fixpoint lstrip (s : string) : string :=
  match s with
  | EmptyString => EmptyString
  | String c s' => if isspace c then lstrip s' else s
  end.

Fixpoint rev_onto (s acc : string) : string :=
  match s with
  | EmptyString => acc
  | String c s' => rev_onto s' (String c acc)
  end.

Definition rstrip (s : string) : string :=
  rev_onto (lstrip (rev_onto s EmptyString)) EmptyString.

(** [s.strip()] *)
Definition strip (s : string) : string := rstrip (lstrip s).

(** [str.lower] on one character: A-Z and the upper-case letters of
    Latin-1 (U+00C0 - U+00DE without the multiplication sign). *)
Definition lower_char (c : ascii) : ascii :=
  let n := code c in
  if ((65 <=? n) && (n <=? 90)
      || (192 <=? n) && (n <=? 222) && negb (n =? 215))%N
  then Ascii.ascii_of_N (n + 32) else c.

(** [s.lower()] *)
Fixpoint lower (s : string) : string :=
  match s with
  | EmptyString => EmptyString
  | String c s' => String (lower_char c) (lower s')
  end.

(** The newline character and [sep.join(l)]. *)
Definition nl : string := String "010"%char EmptyString.

Definition join (sep : string) (l : list string) : string :=
  String.concat sep l.

Fixpoint contains (c : ascii) (s : string) : bool :=
  match s with
  | EmptyString => false
  | String c' s' => Ascii.eqb c c' || contains c s'
  end.

Definition hex_digit (n : N) : ascii :=
  if (n <? 10)%N then Ascii.ascii_of_N (48 + n) else Ascii.ascii_of_N (87 + n).

(** One character inside [repr] of a [str] quoted with [q]. *)
Definition repr_char (q c : ascii) : string :=
  let n := code c in
  if Ascii.eqb c "\"%char then "\\"
  else if Ascii.eqb c q then String "\"%char (String q EmptyString)
  else if (n =? 9)%N then "\t"
  else if (n =? 10)%N then "\n"
  else if (n =? 13)%N then "\r"
  else if ((n <? 32) || (127 <=? n) && (n <=? 160) || (n =? 173))%N
  then String "\"%char (String "x"%char
         (String (hex_digit (n / 16)) (String (hex_digit (n mod 16)) EmptyString)))
  else String c EmptyString.

Fixpoint repr_chars (q : ascii) (s : string) : string :=
  match s with
  | EmptyString => EmptyString
  | String c s' => repr_char q c +:+ repr_chars q s'
  end.

Definition dquote : ascii := Ascii.ascii_of_N 34.

(** [repr] of a [str]: single quotes, unless the text has a single quote
    and no double quote. *)
Definition repr_str (s : string) : string :=
  let q := if contains "'"%char s && negb (contains dquote s)
           then dquote else "'"%char in
  String q (repr_chars q s +:+ String q EmptyString).

(** [repr(v)], which is also [str(v)] for every value but a [str]. *)
Fixpoint repr (v : value) : string :=
  match v with
  | VNone => "None"
  | VBool true => "True"
  | VBool false => "False"
  | VInt z => pretty z
  | VStr s => repr_str s
  | VList l => "[" +:+ join ", " (map repr l) +:+ "]"
  | VDict d =>
      "{" +:+ join ", "
               (map (fun kv => let '(k, x) := kv in repr_str k +:+ ": " +:+ repr x) d)
          +:+ "}"
  end.

(** [str(v)], the conversion an f-string applies. *)
Definition str (v : value) : string :=
  match v with
  | VStr s => s
  | _ => repr v
  end.

End Py.

(** ** Exceptions, outcomes and the monad of a run *)

Module Exec.

(** The exceptions a run can end with.  The first two come from the
    collaborators (backend, tool session); [KeyError], [IndexError] and
    [TypeError] are raised by the clients' own subscripts and by
    [str.join].  The text Variant B hands to [eval] can raise anything:
    [NameError] and [SyntaxError] are the usual ones.  The last three
    classes are not subclasses of [Exception]; [SysExit] is Python's
    [SystemExit].  Each constructor carries what [str(e)] shows. *)
Inductive exn : Type :=
| BackendError (msg : string)
| ToolExecutionError (msg : string)
| NameError (msg : string)
| SyntaxError (msg : string)
| KeyError (key : string)
| IndexError
| TypeError (msg : string)
| KeyboardInterrupt
| CancelledError
| SysExit (code : Z).

(** [isinstance(e, Exception)] *)
Definition is_exception (e : exn) : bool :=
  match e with
  | KeyboardInterrupt | CancelledError | SysExit _ => false
  | _ => true
  end.

(** [str(e)] *)
Definition exn_str (e : exn) : string :=
  match e with
  | BackendError msg | ToolExecutionError msg | NameError msg | SyntaxError msg
  | TypeError msg => msg
  | KeyError key => Py.repr_str key
  | IndexError => "list index out of range"
  | KeyboardInterrupt | CancelledError => EmptyString
  | SysExit code => pretty code
  end.

(** How a computation ends: with a value, with an exception, or not
    within the steps the model was given ([Timeout]). *)
Inductive outcome (A : Type) : Type :=
| Ok (a : A)
| Raise (e : exn)
| Timeout.
Arguments Ok {A} a.
Arguments Raise {A} e.
Arguments Timeout {A}.

(** A tool descriptor as [session.list_tools()] returns it. *)
Record tool : Type := Tool {
  name : string;
  description : option string;
  inputSchema : Py.value
}.

(** What a run does to the outside, in order.  [EvEval] is a call of
    Python's [eval] on a text, with the way it ended; [EvQuery] marks the
    start of a query in the chat loop. *)
Inductive event (Req Resp Content : Type) : Type :=
| EvListTools (res : string + list tool)
| EvBackend (req : Req) (res : string + Resp)
| EvTool (tool_name : string) (tool_args : Py.value) (res : string + Content)
| EvQuery (query : string)
| EvPrint (text : string)
| EvEval (text : string) (res : outcome Py.value).
Arguments EvListTools {Req Resp Content} res.
Arguments EvBackend {Req Resp Content} req res.
Arguments EvTool {Req Resp Content} tool_name tool_args res.
Arguments EvQuery {Req Resp Content} query.
Arguments EvPrint {Req Resp Content} text.
Arguments EvEval {Req Resp Content} text res.

(** The state a run threads: the outside world and the log. *)
Record env (W Ev : Type) : Type := Env { world : W; trace : list Ev }.
Arguments Env {W Ev} world trace.
Arguments world {W Ev} e.
Arguments trace {W Ev} e.

Definition M (St A : Type) : Type := St -> outcome A * St.

Definition ret {St A} (a : A) : M St A := fun s => (Ok a, s).

Definition bind {St A B} (m : M St A) (k : A -> M St B) : M St B :=
  fun s =>
    match m s with
    | (Ok a, s') => k a s'
    | (Raise e, s') => (Raise e, s')
    | (Timeout, s') => (Timeout, s')
    end.

Definition raise {St A} (e : exn) : M St A := fun s => (Raise e, s).

Definition timeout {St A} : M St A := fun s => (Timeout, s).

(** [try: m  except Exception as e: h e]; what is not an [Exception]
    is not caught. *)
Definition try_except {St A} (m : M St A) (h : exn -> M St A) : M St A :=
  fun s =>
    match m s with
    | (Raise e, s') => if is_exception e then h e s' else (Raise e, s')
    | r => r
    end.

Definition lift {St A} (o : outcome A) : M St A := fun s => (o, s).

Section Oracles.
Context {W Req Resp Content : Type}.

Abbreviation Ev := (event Req Resp Content).
Abbreviation St := (env W Ev).

Definition log (ev : Ev) : M St unit :=
  fun s => (Ok tt, Env (world s) (trace s ++ [ev])).

(** An oracle call: run it on the world, log it, raise on failure. *)
Definition ask {A} (oracle : W -> (string + A) * W)
    (record : string + A -> Ev) (failure : string -> exn) : M St A :=
  fun s =>
    let '(res, w) := oracle (world s) in
    let s' := Env w (trace s ++ [record res]) in
    match res with
    | inl msg => (Raise (failure msg), s')
    | inr a => (Ok a, s')
    end.

Definition is_backend (ev : Ev) : bool :=
  match ev with EvBackend _ _ => true | _ => false end.

Definition is_tool (ev : Ev) : bool :=
  match ev with EvTool _ _ _ => true | _ => false end.

(** How many backend calls, and how many tool calls, a log holds. *)
Definition backend_calls (tr : list Ev) : nat :=
  length (List.filter is_backend tr).

Definition tool_calls_made (tr : list Ev) : nat :=
  length (List.filter is_tool tr).

End Oracles.

End Exec.

Declare Scope run_scope.
Delimit Scope run_scope with run.
Notation "x <- c ;; k" := (Exec.bind c (fun x => k))
  (at level 100, c at next level, right associativity) : run_scope.

(** ** The interactive loop, the same text in both files *)

Module Chat.
Import Exec.

Section Loop.
Context {W Req Resp Content : Type}.
Variable process_query : string -> M (env W (event Req Resp Content)) string.

Definition is_quit (query : string) : bool := String.eqb (Py.lower query) "quit".

(** The body of [while True] once per line of the terminal.  When the
    input is used up, [input] raises [EOFError] at every turn and the
    handler prints it: the loop does not end. *)
Fixpoint while_true (stdin : list string) : M (env W (event Req Resp Content)) unit :=
  match stdin with
  | [] => timeout
  | line :: stdin' =>
      (_ <- log (EvPrint (Py.nl +:+ "Query: ")) ;;
       let query := Py.strip line in
       if is_quit query then ret tt
       else
         _ <- try_except
                (_ <- log (EvQuery query) ;;
                 response <- process_query query ;;
                 log (EvPrint (Py.nl +:+ response)))
                (fun e => log (EvPrint (Py.nl +:+ "Error: " +:+ exn_str e))) ;;
         while_true stdin')%run
  end.

(** [MCPClient.chat_loop] *)
Definition chat_loop (stdin : list string) : M (env W (event Req Resp Content)) unit :=
  (_ <- log (EvPrint (Py.nl +:+ "MCP Client Started!")) ;;
   _ <- log (EvPrint "Type your queries or 'quit' to exit.") ;;
   while_true stdin)%run.

(** The queries a log shows as dispatched, in order. *)
Fixpoint queries (tr : list (event Req Resp Content)) : list string :=
  match tr with
  | [] => []
  | EvQuery q :: tr' => q :: queries tr'
  | _ :: tr' => queries tr'
  end.

(** What the loop prints after a query that ended with [o], when it
    goes on: the answer, or the error of an [Exception]. *)
Definition reported (o : outcome string) : option string :=
  match o with
  | Ok response => Some (Py.nl +:+ response)
  | Raise e =>
      if is_exception e then Some (Py.nl +:+ "Error: " +:+ exn_str e) else None
  | Timeout => None
  end.

(** The state in which the first line is read: the two lines of the
    banner have been shown. *)
Definition started (s : env W (event Req Resp Content))
    : env W (event Req Resp Content) :=
  Env (world s)
      (trace s ++ [EvPrint (Py.nl +:+ "MCP Client Started!");
                   EvPrint "Type your queries or 'quit' to exit."]).

(** The state in which the query of a line starts: the prompt has been
    shown and the query marked. *)
Definition asked (line : string) (s : env W (event Req Resp Content))
    : env W (event Req Resp Content) :=
  Env (world s) (trace s ++ [EvPrint (Py.nl +:+ "Query: "); EvQuery (Py.strip line)]).

(** [turns lines s s']: [process_query] has been run on each of the
    [lines] in turn, on the stripped line and from the state the turn
    before has left; every run has ended with an answer or an
    [Exception], and that has been printed. *)
Inductive turns : list string -> env W (event Req Resp Content)
                  -> env W (event Req Resp Content) -> Prop :=
| turns_done s :
    turns [] s s
| turns_next line lines s o s1 text s' :
    process_query (Py.strip line) (asked line s) = (o, s1) ->
    reported o = Some text ->
    turns lines (Env (world s1) (trace s1 ++ [EvPrint text])) s' ->
    turns (line :: lines) s s'.

End Loop.

End Chat.

(** ** Variant A: [client-bedrock.py] *)

Module Bedrock.
Import Exec.

(** One item of the ["content"] list of a reply, told apart by its
    ["type"] tag.  Only a ["text"] item has a ["text"] key. *)
Inductive content_item : Type :=
| Text (text : string)
| ToolUse (id tool_name : string) (input : Py.value)
| OtherItem (type : string).

(** [response_json]: the decoded reply; its ["content"] key may be absent. *)
Record response : Type := Response { content : option (list content_item) }.

(** A message object held by the Python list [messages].  The assistant
    message does not own its content: it refers to the one list object
    [assistant_message_content], which the loop keeps appending to. *)
Inductive message : Type :=
| UserQuery (query : string)
| AssistantShared
| ToolResult (tool_use_id : string) (result : string).

(** A message as [json.dumps] writes it at the time of a backend call. *)
Inductive wire_message : Type :=
| WUser (query : string)
| WAssistant (items : list content_item)
| WToolResult (tool_use_id : string) (result : string).

Record request : Type := Request {
  body_messages : list wire_message;
  max_tokens : Z;
  anthropic_version : string;
  body_tools : list Py.value
}.

(** The local variables of [process_query] that the loop updates. *)
Record locals : Type := Locals {
  messages : list message;
  assistant_message_content : list content_item;
  final_text : list string
}.

Definition dump_message (amc : list content_item) (m : message) : wire_message :=
  match m with
  | UserQuery q => WUser q
  | AssistantShared => WAssistant amc
  | ToolResult i r => WToolResult i r
  end.

(** The conversation as it reads at a given moment. *)
Definition history (l : locals) : list wire_message :=
  map (dump_message (assistant_message_content l)) (messages l).

Definition opt_str (o : option string) : Py.value :=
  match o with Some s => Py.VStr s | None => Py.VNone end.

(** Lines 48-52: the tool catalog in the provider's shape. *)
Definition available_tools (tools : list tool) : list Py.value :=
  map (fun tool => Py.VDict [("name", Py.VStr (name tool));
                             ("description", opt_str (description tool));
                             ("input_schema", inputSchema tool)]) tools.

(** [json.dumps(request_body)]; [request_body["messages"]] is the list
    [messages] itself, so the body always shows its current state. *)
Definition request_body (tools : list Py.value) (l : locals) : request :=
  Request (history l) 1000 "bedrock-2023-05-31" tools.

(** [response_json["content"][0]["text"]] *)
Definition first_text (response_json : response) : outcome string :=
  match content response_json with
  | None => Raise (KeyError "content")
  | Some [] => Raise IndexError
  | Some (Text text :: _) => Ok text
  | Some (_ :: _) => Raise (KeyError "text")
  end.

(** [f"[Calling tool {tool_name} with args {tool_args}]"] *)
Definition calling (tool_name : string) (tool_args : Py.value) : string :=
  "[Calling tool " +:+ tool_name +:+ " with args " +:+ Py.str tool_args +:+ "]".

(** The three updates of the local variables: a text item (lines 75-76),
    a dispatched tool request (lines 83-94), the follow-up reply (line 105). *)
Definition on_text (l : locals) (text : string) : locals :=
  Locals (messages l)
         (assistant_message_content l ++ [Text text])
         (final_text l ++ [text]).

Definition on_tool_result (l : locals) (id tool_name : string) (tool_args : Py.value)
    (result : string) : locals :=
  Locals (messages l ++ [AssistantShared; ToolResult id result])
         (assistant_message_content l ++ [ToolUse id tool_name tool_args])
         (final_text l ++ [calling tool_name tool_args]).

Definition on_follow_up (l : locals) (text : string) : locals :=
  Locals (messages l) (assistant_message_content l) (final_text l ++ [text]).

Section Client.
Context {W Content : Type}.
(** [str(result.content)], the session and the model endpoint. *)
Variable str_content : Content -> string.
Variable list_tools : W -> (string + list tool) * W.
Variable call_tool : string -> Py.value -> W -> (string + Content) * W.
Variable invoke_model : request -> W -> (string + response) * W.

Abbreviation Ev := (event request response Content).
Abbreviation St := (env W Ev).

Definition invoke (tools : list Py.value) (l : locals) : M St response :=
  ask (invoke_model (request_body tools l))
      (EvBackend (request_body tools l)) BackendError.

Definition dispatch (tool_name : string) (tool_args : Py.value) : M St Content :=
  ask (call_tool tool_name tool_args) (EvTool tool_name tool_args) ToolExecutionError.

(** Lines 73-105: the [for] loop over the items of the first reply. *)
Fixpoint for_content (tools : list Py.value) (items : list content_item)
    (l : locals) : M St locals :=
  match items with
  | [] => ret l
  | Text text :: rest => for_content tools rest (on_text l text)
  | ToolUse id tool_name tool_args :: rest =>
      (result <- dispatch tool_name tool_args ;;
       let l1 := on_tool_result l id tool_name tool_args (str_content result) in
       response_json <- invoke tools l1 ;;
       text <- lift (first_text response_json) ;;
       for_content tools rest (on_follow_up l1 text))%run
  | OtherItem _ :: rest => for_content tools rest l
  end.

(** Lines 45-105: everything before the [return]. *)
Definition run_query (query : string) : M St locals :=
  (let l0 := Locals [UserQuery query] [] [] in
   response <- ask list_tools EvListTools ToolExecutionError ;;
   let tools := available_tools response in
   response_json <- invoke tools l0 ;;
   for_content tools (default [] (content response_json)) l0)%run.

(** [MCPClient.process_query] *)
Definition process_query (query : string) : M St string :=
  (l <- run_query query ;; ret (Py.join Py.nl (final_text l)))%run.

(** [MCPClient.chat_loop] *)
Definition chat_loop (stdin : list string) : M St unit :=
  Chat.chat_loop process_query stdin.

End Client.

End Bedrock.

(** ** Variant B: [client-openai.py] *)

Module OpenAI.
Import Exec.

Record function_call : Type := FunctionCall { fn_name : string; arguments : string }.

Record tool_call : Type := ToolCall { id : string; function : function_call }.

(** [chat_response.choices[i].message] *)
Record chat_message : Type := ChatMessage {
  content : option string;
  tool_calls : option (list tool_call)
}.

(** [chat_response], reduced to the messages of its choices. *)
Definition chat_response : Type := list chat_message.

Definition opt_str (o : option string) : Py.value :=
  match o with Some s => Py.VStr s | None => Py.VNone end.

(** Lines 54-64: the tool catalog in the provider's shape. *)
Definition available_tools (tools : list tool) : list Py.value :=
  map (fun tool =>
         Py.VDict [("type", Py.VStr "function");
                   ("function",
                    Py.VDict [("name", Py.VStr (name tool));
                              ("description", opt_str (description tool));
                              ("parameters", inputSchema tool)])]) tools.

(** [sep.join] over items that may be [None]: the first item that is
    not a [str] raises the [TypeError] that names its position. *)
Fixpoint str_items (i : nat) (l : list (option string)) : nat + list string :=
  match l with
  | [] => inr []
  | None :: _ => inl i
  | Some s :: l' =>
      match str_items (S i) l' with
      | inr r => inr (s :: r)
      | inl j => inl j
      end
  end.

Definition join (sep : string) (l : list (option string)) : outcome string :=
  match str_items 0 l with
  | inr r => Ok (Py.join sep r)
  | inl i =>
      Raise (TypeError ("sequence item " +:+ pretty i
                        +:+ ": expected str instance, NoneType found"))
  end.

Section Client.
Context {W Content : Type}.

(** The entries of [messages]: the query, the reply objects as they
    came, and the tool messages. *)
Inductive message : Type :=
| UserQuery (query : string)
| Assistant (reply : chat_message)
| ToolMessage (tool_call_id tool_name : string) (result : Content).

Record request : Type := Request {
  model : string;
  req_messages : list message;
  req_tools : list Py.value;
  tool_choice : string
}.

(** The variables of [process_query] that live across the loop, each
    with what it holds now: [messages], [available_tools] (the field
    [tools]) and [final_text]. *)
Record locals : Type := Locals {
  messages : list message;
  tools : list Py.value;
  final_text : list (option string)
}.

(** What the text of line 81 finds when it is evaluated.  Python's
    [eval] runs it in the frame of [process_query]: it can read the
    variables of the loop and change the objects they hold, the list the
    [for] loop walks included.  [f_rest] is what that loop has still to
    yield.  The reply object is held by [messages] and by the loop at
    once; a frame holds the two views side by side, and a text that
    changes the object changes both. *)
Record frame : Type := Frame {
  f_vars : locals;
  f_tool_name : string;
  f_tool_call : tool_call;
  f_rest : list tool_call
}.

(** [eval], the session and the model endpoint.  [eval] gives a value,
    raises, or does not return; it leaves a frame and a world behind. *)
Variable eval : string -> frame -> W -> outcome Py.value * frame * W.
Variable list_tools : W -> (string + list tool) * W.
Variable call_tool : string -> Py.value -> W -> (string + Content) * W.
Variable create : request -> W -> (string + chat_response) * W.

Abbreviation Ev := (event request chat_response Content).
Abbreviation St := (env W Ev).

(** [messages.append(m)] and [final_text.append(t)] *)
Definition append (l : locals) (m : message) : locals :=
  Locals (messages l ++ [m]) (tools l) (final_text l).

Definition append_text (l : locals) (t : option string) : locals :=
  Locals (messages l) (tools l) (final_text l ++ [t]).

(** Lines 69-72 and 91-94: the call of the model endpoint. *)
Definition completions (l : locals) : M St chat_response :=
  let req := Request "gpt-4" (messages l) (tools l) "auto" in
  ask (create req) (EvBackend req) BackendError.

Definition dispatch (tool_name : string) (tool_args : Py.value) : M St Content :=
  ask (call_tool tool_name tool_args) (EvTool tool_name tool_args) ToolExecutionError.

(** Line 81: [eval(text)] in the frame [f]. *)
Definition eval_arguments (text : string) (f : frame) : M St (Py.value * frame) :=
  fun s =>
    let '(o, f', w) := eval text f (world s) in
    let s' := Env w (trace s ++ [EvEval text o]) in
    match o with
    | Ok v => (Ok (v, f'), s')
    | Raise e => (Raise e, s')
    | Timeout => (Timeout, s')
    end.

(** [chat_response.choices[0].message] *)
Definition first_choice (r : chat_response) : M St chat_message :=
  match r with
  | [] => raise IndexError
  | m :: _ => ret m
  end.

(** Lines 79-89: the [for] loop over [message.tool_calls], [calls] being
    what it has still to yield.  A text that keeps adding to the list
    keeps the loop going: the model stops after [bound] calls. *)
Fixpoint for_tool_calls (bound : nat) (calls : list tool_call) (l : locals)
    {struct bound} : M St locals :=
  match calls with
  | [] => ret l
  | tc :: rest =>
      match bound with
      | O => timeout
      | S bound' =>
          (let tool_name := fn_name (function tc) in
           r <- eval_arguments (arguments (function tc)) (Frame l tool_name tc rest) ;;
           let tool_args := fst r in
           let f := snd r in
           result <- dispatch (f_tool_name f) tool_args ;;
           for_tool_calls bound' (f_rest f)
             (append (f_vars f)
                (ToolMessage (id (f_tool_call f)) (f_tool_name f) result)))%run
      end
  end.

(** Lines 74-97: the [while True] loop, unrolled at most [fuel] times. *)
Fixpoint while_true (bound fuel : nat) (response : chat_response) (l : locals)
    {struct fuel} : M St locals :=
  match fuel with
  | O => timeout
  | S fuel' =>
      (msg <- first_choice response ;;
       let l := append l (Assistant msg) in
       match tool_calls msg with
       | Some (tc :: tcs) =>
           l <- for_tool_calls bound (tc :: tcs) l ;;
           response <- completions l ;;
           while_true bound fuel' response l
       | _ => ret (append_text l (content msg))
       end)%run
  end.

(** Lines 48-97: everything before the [return].  [fuel] bounds the
    rounds of the [while] loop and the calls of each [for] loop. *)
Definition run_query (fuel : nat) (query : string) : M St locals :=
  (response <- ask list_tools EvListTools ToolExecutionError ;;
   let l := Locals [UserQuery query] (available_tools response) [] in
   chat <- completions l ;;
   while_true fuel fuel chat l)%run.

(** [MCPClient.process_query] *)
Definition process_query (fuel : nat) (query : string) : M St string :=
  (l <- run_query fuel query ;; lift (join Py.nl (final_text l)))%run.

(** [MCPClient.chat_loop]; every query gets the same bound. *)
Definition chat_loop (fuel : nat) (stdin : list string) : M St unit :=
  Chat.chat_loop (process_query fuel) stdin.

End Client.

Arguments message : clear implicits.
Arguments request : clear implicits.
Arguments locals : clear implicits.
Arguments frame : clear implicits.

End OpenAI.


(** ** Reading a log *)

Module Log.
Import Exec.

Section Log.
Context {Req Resp Content : Type}.
Abbreviation Ev := (event Req Resp Content).

(** The requests of the backend calls, in order. *)
Fixpoint requests (tr : list Ev) : list Req :=
  match tr with
  | [] => []
  | EvBackend req _ :: tr' => req :: requests tr'
  | _ :: tr' => requests tr'
  end.

(** The replies the backend gave, in order. *)
Fixpoint replies (tr : list Ev) : list Resp :=
  match tr with
  | [] => []
  | EvBackend _ (inr r) :: tr' => r :: replies tr'
  | _ :: tr' => replies tr'
  end.

(** The tool calls made, in order: name and arguments. *)
Fixpoint dispatched (tr : list Ev) : list (string * Py.value) :=
  match tr with
  | [] => []
  | EvTool n a _ :: tr' => (n, a) :: dispatched tr'
  | _ :: tr' => dispatched tr'
  end.

(** The texts handed to [eval], in order. *)
Fixpoint evaluated (tr : list Ev) : list string :=
  match tr with
  | [] => []
  | EvEval text _ :: tr' => text :: evaluated tr'
  | _ :: tr' => evaluated tr'
  end.

End Log.

(** Each list of a sequence of observations extends the one before. *)
Fixpoint growing {A} (obs : list (list A)) : Prop :=
  match obs with
  | [] => True
  | h :: obs' =>
      match obs' with
      | [] => True
      | h' :: _ => h `prefix_of` h'
      end /\ growing obs'
  end.
Arguments growing {A} obs : simpl never.

End Log.

(** ** The conversation invariant of the specification *)

Module Conversation.

(** What the invariant looks at in a message. *)
Inductive shape : Type :=
| SUser
| SAssistant (request_ids : list string)
| SResult (request_id : string).

Definition no_pending (pending : list string) : bool :=
  match pending with [] => true | _ => false end.

(** [answered pending conv]: the requests still [pending] get their
    results first, one message each and in request order; after that
    every assistant message is followed at once by one result per
    request of its own; no result stands without its request. *)
Fixpoint answered (pending : list string) (conv : list shape) : bool :=
  match conv with
  | [] => no_pending pending
  | SUser :: conv' => no_pending pending && answered [] conv'
  | SAssistant ids :: conv' => no_pending pending && answered ids conv'
  | SResult i :: conv' =>
      match pending with
      | [] => false
      | p :: pending' => String.eqb i p && answered pending' conv'
      end
  end.

Definition well_formed (conv : list shape) : bool := answered [] conv.

End Conversation.

(** ** The steps of the two loops as relations on logs

    [for_content] and [while_true] thread the world through oracle calls.
    The relations below keep what the loops do and forget the world: they
    relate the local state at a loop head to the events the rest of the
    run logs and to the way it ends.  In Variant B they keep the frame
    each evaluation leaves, which is any frame unless the text is known
    to change nothing. *)

Module BedrockSem.
Import Exec Bedrock.

Fixpoint tool_uses (items : list content_item) : list (string * string * Py.value) :=
  match items with
  | [] => []
  | ToolUse i n a :: rest => (i, n, a) :: tool_uses rest
  | _ :: rest => tool_uses rest
  end.

Fixpoint texts (items : list content_item) : list string :=
  match items with
  | [] => []
  | Text t :: rest => t :: texts rest
  | _ :: rest => texts rest
  end.

Definition items (r : response) : list content_item := default [] (content r).

(** Name and arguments of the tool requests among the items. *)
Definition calls_of (its : list content_item) : list (string * Py.value) :=
  map (fun u => (snd (fst u), snd u)) (tool_uses its).

Definition shape_of (m : wire_message) : Conversation.shape :=
  match m with
  | WUser _ => Conversation.SUser
  | WAssistant its => Conversation.SAssistant (map (fun u => fst (fst u)) (tool_uses its))
  | WToolResult i _ => Conversation.SResult i
  end.

Definition well_formed (req : request) : bool :=
  Conversation.well_formed (map shape_of (body_messages req)).

(** A message without the content of an assistant message. *)
Definition envelope (m : wire_message) : wire_message :=
  match m with
  | WAssistant _ => WAssistant []
  | _ => m
  end.

(** What the answer is made of: the text items of the first reply, and
    for each tool request of the first reply the marker line and the
    leading text of the follow-up reply. *)
Fixpoint answer_lines (its : list content_item) (follow_ups : list response)
    : list string :=
  match its with
  | [] => []
  | Text t :: rest => t :: answer_lines rest follow_ups
  | OtherItem _ :: rest => answer_lines rest follow_ups
  | ToolUse _ n a :: rest =>
      match follow_ups with
      | [] => [calling n a]
      | r :: follow_ups' =>
          calling n a
            :: match first_text r with Ok t => t | _ => EmptyString end
            :: answer_lines rest follow_ups'
      end
  end.

(** No text item and no tool request among the items. *)
Fixpoint inert (its : list content_item) : bool :=
  match its with
  | [] => true
  | OtherItem _ :: rest => inert rest
  | _ => false
  end.

(** A message that owns its content. *)
Definition unshared (m : message) : Prop := m <> AssistantShared.

(** The first tool request, if any, has only inert items after it. *)
Fixpoint ends_at_first_tool_use (its : list content_item) : bool :=
  match its with
  | [] => true
  | ToolUse _ _ _ :: rest => inert rest
  | _ :: rest => ends_at_first_tool_use rest
  end.

Section Runs.
Context {Content : Type}.
Variable str_content : Content -> string.
Variable tools : list Py.value.

Abbreviation Ev := (event request response Content).

Inductive run : list content_item -> locals -> list Ev -> outcome locals -> Prop :=
| run_done l :
    run [] l [] (Ok l)
| run_text t rest l tr o :
    run rest (on_text l t) tr o ->
    run (Text t :: rest) l tr o
| run_other ty rest l tr o :
    run rest l tr o ->
    run (OtherItem ty :: rest) l tr o
| run_tool_raises i n a rest l msg :
    run (ToolUse i n a :: rest) l
        [EvTool n a (inl msg)] (Raise (ToolExecutionError msg))
| run_backend_raises i n a rest l res msg :
    run (ToolUse i n a :: rest) l
        [EvTool n a (inr res);
         EvBackend (request_body tools (on_tool_result l i n a (str_content res))) (inl msg)]
        (Raise (BackendError msg))
| run_reply_raises i n a rest l res reply e :
    first_text reply = Raise e ->
    run (ToolUse i n a :: rest) l
        [EvTool n a (inr res);
         EvBackend (request_body tools (on_tool_result l i n a (str_content res))) (inr reply)]
        (Raise e)
| run_tool i n a rest l res reply t tr o :
    first_text reply = Ok t ->
    run rest (on_follow_up (on_tool_result l i n a (str_content res)) t) tr o ->
    run (ToolUse i n a :: rest) l
        (EvTool n a (inr res)
         :: EvBackend (request_body tools (on_tool_result l i n a (str_content res))) (inr reply)
         :: tr) o.

End Runs.

Section Queries.
Context {Content : Type}.
Variable str_content : Content -> string.

Definition start (query : string) : locals := Locals [UserQuery query] [] [].

Definition first_request (tl : list tool) (query : string) : request :=
  request_body (available_tools tl) (start query).

(** The events of [run_query] and the way it ends. *)
Inductive query_run (query : string)
    : list (event request response Content) -> outcome locals -> Prop :=
| query_no_catalog msg :
    query_run query [EvListTools (inl msg)] (Raise (ToolExecutionError msg))
| query_no_reply tl msg :
    query_run query
              [EvListTools (inr tl); EvBackend (first_request tl query) (inl msg)]
              (Raise (BackendError msg))
| query_reply tl reply tr o :
    run str_content (available_tools tl) (items reply) (start query) tr o ->
    query_run query
              (EvListTools (inr tl) :: EvBackend (first_request tl query) (inr reply) :: tr)
              o.

(** The items of the first reply a log shows. *)
Definition first_items (tr : list (event request response Content))
    : list content_item :=
  match Log.replies tr with
  | r :: _ => items r
  | [] => []
  end.

(** Every text item of every reply, in the order the backend gave them. *)
Definition emitted_text (tr : list (event request response Content)) : list string :=
  flat_map (fun r => texts (items r)) (Log.replies tr).

(** The final state of the conversation, when the run ends well. *)
Definition final_history (o : outcome locals) : list (list wire_message) :=
  match o with
  | Ok l => [history l]
  | _ => []
  end.

(** The conversation at each backend call and at the end. *)
Definition observations (tr : list (event request response Content))
    (o : outcome locals) : list (list wire_message) :=
  map body_messages (Log.requests tr) ++ final_history o.

End Queries.

End BedrockSem.

Module OpenAISem.
Import Exec OpenAI.

(** [message.tool_calls] when it is truthy. *)
Definition requested (m : chat_message) : list tool_call := default [] (tool_calls m).

Section Runs.
Context {W Content : Type}.
Variable eval : string -> frame Content -> W -> outcome Py.value * frame Content * W.

Abbreviation Msg := (message Content).
Abbreviation Req := (request Content).
Abbreviation Ev := (event Req chat_response Content).

(** A text whose evaluation leaves the variables of the client as they
    are, whatever they hold: a dict display of literals is one. *)
Definition harmless (text : string) : Prop :=
  forall f w, snd (fst (eval text f w)) = f.

(** In some world, [eval] ends on [text] in the frame [f] with [o] and
    leaves the frame [f']. *)
Definition evaluates (text : string) (f : frame Content) (o : outcome Py.value)
    (f' : frame Content) : Prop :=
  exists w, fst (eval text f w) = (o, f').

Definition shape_of (m : Msg) : Conversation.shape :=
  match m with
  | UserQuery _ => Conversation.SUser
  | Assistant reply => Conversation.SAssistant (map id (requested reply))
  | ToolMessage i _ _ => Conversation.SResult i
  end.

Definition well_formed (req : Req) : bool :=
  Conversation.well_formed (map shape_of (req_messages req)).

(** The tool message and the log entries of one tool call whose
    arguments gave the value [fst out] and whose call gave [snd out],
    when the evaluation has changed nothing. *)
Definition tool_message (tc : tool_call) (out : Py.value * Content) : Msg :=
  ToolMessage (id tc) (fn_name (function tc)) (snd out).

Definition tool_events (tc : tool_call) (out : Py.value * Content) : list Ev :=
  [EvEval (arguments (function tc)) (Ok (fst out));
   EvTool (fn_name (function tc)) (fst out) (inr (snd out))].

(** The frame in which the arguments of [tc] are evaluated. *)
Definition frame_at (l : locals Content) (tc : tool_call) (rest : list tool_call)
    : frame Content :=
  Frame l (fn_name (function tc)) tc rest.

(** The variables after the tool call that followed a frame [f]. *)
Definition after_call (f : frame Content) (res : Content) : locals Content :=
  append (f_vars f) (ToolMessage (id (f_tool_call f)) (f_tool_name f) res).

Inductive dispatching
    : nat -> list tool_call -> locals Content -> list Ev -> outcome (locals Content)
      -> Prop :=
| disp_done n l :
    dispatching n [] l [] (Ok l)
| disp_bound tc rest l :
    dispatching 0 (tc :: rest) l [] Timeout
| disp_eval_raises n tc rest l e f :
    evaluates (arguments (function tc)) (frame_at l tc rest) (Raise e) f ->
    dispatching (S n) (tc :: rest) l
                [EvEval (arguments (function tc)) (Raise e)] (Raise e)
| disp_eval_hangs n tc rest l f :
    evaluates (arguments (function tc)) (frame_at l tc rest) Timeout f ->
    dispatching (S n) (tc :: rest) l
                [EvEval (arguments (function tc)) Timeout] Timeout
| disp_tool_raises n tc rest l v f msg :
    evaluates (arguments (function tc)) (frame_at l tc rest) (Ok v) f ->
    dispatching (S n) (tc :: rest) l
                [EvEval (arguments (function tc)) (Ok v);
                 EvTool (f_tool_name f) v (inl msg)]
                (Raise (ToolExecutionError msg))
| disp_tool n tc rest l v f res tr o :
    evaluates (arguments (function tc)) (frame_at l tc rest) (Ok v) f ->
    dispatching n (f_rest f) (after_call f res) tr o ->
    dispatching (S n) (tc :: rest) l
                (EvEval (arguments (function tc)) (Ok v)
                 :: EvTool (f_tool_name f) v (inr res) :: tr) o.

Definition ask_again (l : locals Content) : Req :=
  Request "gpt-4" (messages l) (tools l) "auto".

Inductive run (bound : nat)
    : nat -> chat_response -> locals Content -> list Ev -> outcome (locals Content)
      -> Prop :=
| run_timeout r l :
    run bound 0 r l [] Timeout
| run_no_choice n l :
    run bound (S n) [] l [] (Raise IndexError)
| run_final n m others l :
    requested m = [] ->
    run bound (S n) (m :: others) l []
        (Ok (append_text (append l (Assistant m)) (content m)))
| run_dispatch_raises n m others l tr e :
    requested m <> [] ->
    dispatching bound (requested m) (append l (Assistant m)) tr (Raise e) ->
    run bound (S n) (m :: others) l tr (Raise e)
| run_dispatch_hangs n m others l tr :
    requested m <> [] ->
    dispatching bound (requested m) (append l (Assistant m)) tr Timeout ->
    run bound (S n) (m :: others) l tr Timeout
| run_backend_raises n m others l tr l' msg :
    requested m <> [] ->
    dispatching bound (requested m) (append l (Assistant m)) tr (Ok l') ->
    run bound (S n) (m :: others) l (tr ++ [EvBackend (ask_again l') (inl msg)])
        (Raise (BackendError msg))
| run_round n m others l tr l' r' tr' o :
    requested m <> [] ->
    dispatching bound (requested m) (append l (Assistant m)) tr (Ok l') ->
    run bound n r' l' tr' o ->
    run bound (S n) (m :: others) l (tr ++ EvBackend (ask_again l') (inr r') :: tr') o.

(** The variables before the first backend call. *)
Definition start (tl : list tool) (query : string) : locals Content :=
  Locals [UserQuery query] (available_tools tl) [].

Definition first_request (tl : list tool) (query : string) : Req :=
  ask_again (start tl query).

(** The events of [run_query] and the way it ends. *)
Inductive query_run (fuel : nat) (query : string)
    : list Ev -> outcome (locals Content) -> Prop :=
| query_no_catalog msg :
    query_run fuel query [EvListTools (inl msg)] (Raise (ToolExecutionError msg))
| query_no_reply tl msg :
    query_run fuel query
              [EvListTools (inr tl); EvBackend (first_request tl query) (inl msg)]
              (Raise (BackendError msg))
| query_reply tl r tr o :
    run fuel fuel r (start tl query) tr o ->
    query_run fuel query
              (EvListTools (inr tl) :: EvBackend (first_request tl query) (inr r) :: tr)
              o.

End Runs.

Section Queries.
Context {Content : Type}.

(** The text of every reply, in the order the backend gave them. *)
Definition emitted_text (tr : list (event (request Content) chat_response Content))
    : list string :=
  flat_map (fun r => match r with
                     | m :: _ => match content m with Some t => [t] | None => [] end
                     | [] => []
                     end) (Log.replies tr).

(** The conversation at each backend call and at the end. *)
Definition observations (tr : list (event (request Content) chat_response Content))
    (o : outcome (locals Content)) : list (list (message Content)) :=
  map req_messages (Log.requests tr)
  ++ match o with Ok l => [messages l] | _ => [] end.

End Queries.

End OpenAISem.

(** ** Reading a shaped catalog back *)

Module Catalog.
Import Exec.

Definition as_name (v : Py.value) : option string :=
  match v with Py.VStr s => Some s | _ => None end.

Definition as_description (v : Py.value) : option (option string) :=
  match v with
  | Py.VStr s => Some (Some s)
  | Py.VNone => Some None
  | _ => None
  end.

(** The name and the description of a dict that has both keys. *)
Definition name_and_description (entry : Py.value) : option (string * option string) :=
  match Py.getitem "name" entry, Py.getitem "description" entry with
  | Some n, Some d =>
      match as_name n, as_description d with
      | Some n', Some d' => Some (n', d')
      | _, _ => None
      end
  | _, _ => None
  end.

(** A reader of Variant A entries: [{name, description, input_schema}]. *)
Definition read_bedrock (entry : Py.value) : option (string * option string) :=
  name_and_description entry.

(** A reader of Variant B entries:
    [{type: "function", function: {name, description, parameters}}]. *)
Definition read_openai (entry : Py.value) : option (string * option string) :=
  match Py.getitem "type" entry, Py.getitem "function" entry with
  | Some (Py.VStr "function"), Some f => name_and_description f
  | _, _ => None
  end.

Definition descriptor (t : tool) : string * option string := (name t, description t).

End Catalog.

(** ** Scripted collaborators and the scenarios used below *)

Module Stub.
Import Exec.

(** A backend that gives its scripted replies one after the other; the
    world is what is left of the script. *)
Definition scripted {Req Resp : Type} (req : Req) (w : list (string + Resp))
    : (string + Resp) * list (string + Resp) :=
  match w with
  | [] => (inl "no reply left", [])
  | r :: w' => (r, w')
  end.

(** A session with a fixed catalog and a tool behaviour that does not
    depend on the world. *)
Definition catalog {W : Type} (tl : list tool) (w : W) : (string + list tool) * W :=
  (inr tl, w).

Definition tool_stub {W Content : Type} (f : string -> Py.value -> string + Content)
    (n : string) (a : Py.value) (w : W) : (string + Content) * W :=
  (f n a, w).

End Stub.

Module Scenario.
Import Exec.

Definition add_tool : tool :=
  Tool "add" (Some "Add two numbers") (Py.VDict [("type", Py.VStr "object")]).

Definition add_args : Py.value := Py.VDict [("a", Py.VInt 2); ("b", Py.VInt 3)].

(** The tool stub: [add] returns 5, any other name is unknown. *)
Definition add_stub (n : string) (a : Py.value) : string + Py.value :=
  if String.eqb n "add" then inr (Py.VInt 5) else inl "unknown tool".

(** A tool stub that always fails. *)
Definition failing_stub (n : string) (a : Py.value) : string + Py.value :=
  inl "unknown tool".

(** [message.tool_calls.clear()] seen from [messages]: the reply the
    loop is at is the last reply appended, and its list of tool calls is
    now empty. *)
Fixpoint clear_first_reply (msgs : list (OpenAI.message Py.value))
    : list (OpenAI.message Py.value) :=
  match msgs with
  | [] => []
  | OpenAI.Assistant r :: rest =>
      OpenAI.Assistant (OpenAI.ChatMessage (OpenAI.content r) (Some [])) :: rest
  | m :: rest => m :: clear_first_reply rest
  end.

(** The frame after [message.tool_calls.clear()]: the loop has nothing
    left to yield. *)
Definition tool_calls_cleared (f : OpenAI.frame Py.value) : OpenAI.frame Py.value :=
  let l := OpenAI.f_vars f in
  OpenAI.Frame
    (OpenAI.Locals (rev (clear_first_reply (rev (OpenAI.messages l))))
       (OpenAI.tools l) (OpenAI.final_text l))
    (OpenAI.f_tool_name f) (OpenAI.f_tool_call f) [].

(** The frame after [final_text.append('injected')]. *)
Definition text_injected (f : OpenAI.frame Py.value) : OpenAI.frame Py.value :=
  OpenAI.Frame (OpenAI.append_text (OpenAI.f_vars f) (Some "injected"))
    (OpenAI.f_tool_name f) (OpenAI.f_tool_call f) (OpenAI.f_rest f).

(** An [eval] that knows the texts of the scenarios, with what Python
    does on each of them inside [process_query]; it leaves the world
    alone.  Any other text stands for one that does not parse. *)
Definition eval_stub {W : Type} (text : string) (f : OpenAI.frame Py.value) (w : W)
    : outcome Py.value * OpenAI.frame Py.value * W :=
  if String.eqb text "{'a': 2, 'b': 3}" then (Ok add_args, f, w)
  else if String.eqb text "{a: 2}"
  then (Raise (NameError "name 'a' is not defined"), f, w)
  else if String.eqb text "message.tool_calls.clear() or {'a': 2, 'b': 3}"
  then (Ok add_args, tool_calls_cleared f, w)
  else if String.eqb text "final_text.append('injected') or {'a': 2, 'b': 3}"
  then (Ok add_args, text_injected f, w)
  else if String.eqb text "sys.exit(2)" then (Raise (SysExit 2), f, w)
  else (Raise (SyntaxError "invalid syntax (<string>, line 1)"), f, w).

Definition start {Ev : Type} (script : list Ev) {E : Type} : env (list Ev) E :=
  Env script [].

(** Variant A against a script of replies. *)
Definition bedrock (stub : string -> Py.value -> string + Py.value)
    (script : list (list Bedrock.content_item)) (query : string) :=
  Bedrock.process_query Py.str (Stub.catalog [add_tool]) (Stub.tool_stub stub)
    Stub.scripted query
    (start (map (fun its => inr (Bedrock.Response (Some its))) script)).

Definition bedrock_run (stub : string -> Py.value -> string + Py.value)
    (script : list (list Bedrock.content_item)) (query : string) :=
  Bedrock.run_query Py.str (Stub.catalog [add_tool]) (Stub.tool_stub stub)
    Stub.scripted query
    (start (map (fun its => inr (Bedrock.Response (Some its))) script)).

(** Variant B against a script of reply messages. *)
Definition openai (stub : string -> Py.value -> string + Py.value)
    (script : list OpenAI.chat_message) (fuel : nat) (query : string) :=
  OpenAI.process_query eval_stub (Stub.catalog [add_tool]) (Stub.tool_stub stub)
    Stub.scripted fuel query
    (start (map (fun m => inr [m]) script)).

Definition openai_run (stub : string -> Py.value -> string + Py.value)
    (script : list OpenAI.chat_message) (fuel : nat) (query : string) :=
  OpenAI.run_query eval_stub (Stub.catalog [add_tool]) (Stub.tool_stub stub)
    Stub.scripted fuel query
    (start (map (fun m => inr [m]) script)).

Definition use_add (id : string) : Bedrock.content_item :=
  Bedrock.ToolUse id "add" add_args.

Definition call_add (id : string) : OpenAI.tool_call :=
  OpenAI.ToolCall id (OpenAI.FunctionCall "add" "{'a': 2, 'b': 3}").

(** A call of [add] with another arguments text. *)
Definition call_add_with (id text : string) : OpenAI.tool_call :=
  OpenAI.ToolCall id (OpenAI.FunctionCall "add" text).

(** The multi-round scenario of the specification. *)
Definition add_2_and_3_bedrock :=
  bedrock add_stub [[use_add "call_1"]; [Bedrock.Text "5"]] "add 2 and 3".

Definition add_2_and_3_openai (fuel : nat) :=
  openai add_stub
    [OpenAI.ChatMessage None (Some [call_add "call_1"]);
     OpenAI.ChatMessage (Some "5") None] fuel "add 2 and 3".

(** A first reply with two tool requests, Variant A: the whole query,
    and its part before the [return]. *)
Definition two_requests_script : list (list Bedrock.content_item) :=
  [[use_add "call_1"; use_add "call_2"]; [Bedrock.Text "5"]; [Bedrock.Text "five"]].

Definition two_requests_bedrock := bedrock add_stub two_requests_script "add twice".

Definition two_requests_bedrock_run := bedrock_run add_stub two_requests_script "add twice".

(** A backend that asks for tools in every reply, Variant A. *)
Definition always_requests_bedrock :=
  let reply := [use_add "call_1"; use_add "call_2"] in
  bedrock add_stub [reply; reply; reply; reply] "add forever".

(** The failure scenario of the specification, both variants. *)
Definition unknown_tool_bedrock :=
  bedrock failing_stub [[use_add "call_1"]; [Bedrock.Text "sorry"]] "add 2 and 3".

Definition unknown_tool_openai :=
  openai failing_stub
    [OpenAI.ChatMessage None (Some [call_add "call_1"]);
     OpenAI.ChatMessage (Some "sorry") None] 5 "add 2 and 3".

(** A reply that carries text next to its tool call, Variant B. *)
Definition text_and_call_openai :=
  openai add_stub
    [OpenAI.ChatMessage (Some "Let me add them.") (Some [call_add "call_1"]);
     OpenAI.ChatMessage (Some "5") None] 5 "add 2 and 3".

(** A reply with two simultaneous tool calls, Variant B. *)
Definition two_calls_openai :=
  openai add_stub
    [OpenAI.ChatMessage None (Some [call_add "call_1"; call_add "call_2"]);
     OpenAI.ChatMessage (Some "5 and 5") None] 5 "add twice".

(** Two simultaneous tool calls, the first with arguments that empty
    the list of tool calls of the reply, Variant B. *)
Definition cleared_calls_openai :=
  openai add_stub
    [OpenAI.ChatMessage None
       (Some [call_add_with "call_1" "message.tool_calls.clear() or {'a': 2, 'b': 3}";
              call_add "call_2"]);
     OpenAI.ChatMessage (Some "5") None] 5 "add twice".

(** A tool call with arguments that write into the answer, Variant B. *)
Definition injected_text_openai :=
  openai add_stub
    [OpenAI.ChatMessage None
       (Some [call_add_with "call_1"
                "final_text.append('injected') or {'a': 2, 'b': 3}"]);
     OpenAI.ChatMessage (Some "5") None] 5 "add 2 and 3".

(** A tool call, then one whose arguments name an unknown variable,
    Variant B. *)
Definition unknown_name_openai :=
  openai add_stub
    [OpenAI.ChatMessage None
       (Some [call_add "call_1"; call_add_with "call_2" "{a: 2}";
              call_add "call_3"]);
     OpenAI.ChatMessage (Some "5") None] 5 "add".

(** A last reply with neither tool calls nor text, Variant B. *)
Definition silent_reply_openai :=
  openai add_stub
    [OpenAI.ChatMessage None (Some [call_add "call_1"]);
     OpenAI.ChatMessage None None] 5 "add 2 and 3".

(** A terminal session: one query, then the sentinel, then a line that
    is never read. *)
Definition terminal : list string := ["add 2 and 3"; "  Quit "; "never read"].

Definition chat_bedrock :=
  Bedrock.chat_loop Py.str (Stub.catalog [add_tool]) (Stub.tool_stub add_stub)
    Stub.scripted terminal
    (start [inr (Bedrock.Response (Some [use_add "call_1"]));
            inr (Bedrock.Response (Some [Bedrock.Text "5"]))]).

(** A backend that answers every request with the same plain text. *)
Definition always_plain {Content : Type} (req : OpenAI.request Content) (w : unit)
    : (string + OpenAI.chat_response) * unit :=
  (inr [OpenAI.ChatMessage (Some "Hello.") None], w).

Definition process_query_plain (fuel : nat) (query : string) :=
  OpenAI.process_query (Content:=Py.value) eval_stub
    (Stub.catalog [add_tool]) (Stub.tool_stub add_stub) always_plain fuel query.

Definition chat_openai :=
  OpenAI.chat_loop (Content:=Py.value) eval_stub
    (Stub.catalog [add_tool]) (Stub.tool_stub add_stub) always_plain 1 terminal
    (Env tt []).

(** A terminal session of Variant B in which the arguments of the first
    tool call leave the interpreter. *)
Definition chat_exit_openai :=
  OpenAI.chat_loop eval_stub (Stub.catalog [add_tool]) (Stub.tool_stub add_stub)
    Stub.scripted 5 ["add 2 and 3"; "never read"; "quit"]
    (start [inr [OpenAI.ChatMessage None
                   (Some [call_add_with "call_1" "sys.exit(2)"])]]).

End Scenario.

(** ** Reading more out of a log *)

Module Trail.
Import Exec.

Section Trail.
Context {Req Resp Content : Type}.

(** The texts printed, in order. *)
Fixpoint printed (tr : list (event Req Resp Content)) : list string :=
  match tr with
  | [] => []
  | EvPrint text :: tr' => text :: printed tr'
  | _ :: tr' => printed tr'
  end.

Definition is_list_tools (ev : event Req Resp Content) : bool :=
  match ev with EvListTools _ => true | _ => false end.

(** How many times the catalog was fetched. *)
Definition catalog_fetches (tr : list (event Req Resp Content)) : nat :=
  length (List.filter is_list_tools tr).

(** The results the tool calls gave, in order. *)
Fixpoint tool_results (tr : list (event Req Resp Content)) : list Content :=
  match tr with
  | [] => []
  | EvTool _ _ (inr r) :: tr' => r :: tool_results tr'
  | _ :: tr' => tool_results tr'
  end.

End Trail.

End Trail.

(** ** What the two loops leave behind *)

Module BedrockEnd.
Import Exec Bedrock BedrockSem.

(** The items the loop keeps: text items and tool requests. *)
Fixpoint kept (its : list content_item) : list content_item :=
  match its with
  | [] => []
  | OtherItem _ :: rest => kept rest
  | c :: rest => c :: kept rest
  end.

(** The conversation after a first reply [its] whose tool requests gave
    [results]: the query, then for each tool request an assistant message
    and its result.  Every assistant message reads as the whole of what
    the loop kept of the first reply. *)
Definition final_conversation (query : string) (its : list content_item)
    (results : list string) : list wire_message :=
  WUser query
  :: concat (zip_with (fun u r => [WAssistant (kept its); WToolResult (fst (fst u)) r])
                      (tool_uses its) results).

End BedrockEnd.

Module OpenAIEnd.
Import Exec OpenAI OpenAISem.

(** The names of the tools a reply asks for, in order. *)
Definition called_names (r : chat_response) : list string :=
  match r with
  | m :: _ => map (fun tc => fn_name (function tc)) (requested m)
  | [] => []
  end.

End OpenAIEnd.

(** ** Starting and stopping: [connect_to_server], [cleanup], [main]

    The text is the same in both files but for [MCPClient.__init__], which
    builds the Bedrock runtime client in Variant A only. *)

Module Startup.
Import Exec.

(** [s.endswith(suffix)]: some tail of [s] is [suffix]. *)
Fixpoint endswith (s suffix : string) : bool :=
  String.eqb s suffix
  || match s with
     | EmptyString => false
     | String _ s' => endswith s' suffix
     end.

(** What the exit stack holds: the stdio transport and the session. *)
Inductive context : Type := Transport | Session.

(** [StdioServerParameters(command=..., args=..., env=None)] *)
Record server_params : Type := ServerParams { command : string; args : list string }.

(** The ways the program can end badly: the [ValueError] of
    [connect_to_server], [sys.exit], a failure of a collaborator while
    starting or stopping, an exception of the session layer. *)
Inductive crash : Type :=
| ValueError (msg : string)
| SystemExit (code : Z)
| Failure (msg : string)
| Uncaught (e : exn).

Inductive ending (A : Type) : Type :=
| Done (a : A)
| Crash (c : crash)
| Hang.
Arguments Done {A} a.
Arguments Crash {A} c.
Arguments Hang {A}.

(** What the program does to the outside, in order: the calls that start
    and stop the collaborators, and everything the session layer logs. *)
Inductive boot_event (Ev : Type) : Type :=
| NewClient (res : string + unit)
| Spawn (params : server_params) (res : string + unit)
| OpenSession (res : string + unit)
| Initialize (res : string + unit)
| Close (c : context) (res : string + bool)
| InSession (ev : Ev).
Arguments NewClient {Ev} res.
Arguments Spawn {Ev} params res.
Arguments OpenSession {Ev} res.
Arguments Initialize {Ev} res.
Arguments Close {Ev} c res.
Arguments InSession {Ev} ev.

(** The state of the process: the world, the log and [self.exit_stack],
    most recent context first. *)
Record proc (W Ev : Type) : Type := Proc {
  pworld : W;
  plog : list (boot_event Ev);
  pstack : list context
}.
Arguments Proc {W Ev} pworld plog pstack.
Arguments pworld {W Ev} p.
Arguments plog {W Ev} p.
Arguments pstack {W Ev} p.

Definition failure_message : string := "Server script must be a .py or .js file".

Definition usage : string := "Usage: python client.py <path_to_server_script>".

(** The contexts a log shows as entered, and as exited, in order. *)
Fixpoint opened {Ev : Type} (log : list (boot_event Ev)) : list context :=
  match log with
  | [] => []
  | Spawn _ (inr _) :: log' => Transport :: opened log'
  | OpenSession (inr _) :: log' => Session :: opened log'
  | _ :: log' => opened log'
  end.

Fixpoint closed {Ev : Type} (log : list (boot_event Ev)) : list context :=
  match log with
  | [] => []
  | Close c _ :: log' => c :: closed log'
  | _ :: log' => closed log'
  end.

Section Process.
Context {W Req Resp Content : Type}.
Abbreviation Ev := (event Req Resp Content).
Abbreviation P := (proc W Ev).

(** The collaborators: the Bedrock client constructor (Variant A only),
    [stdio_client(...).__aenter__], [ClientSession(...).__aenter__],
    [session.initialize], the [__aexit__] of a context (it raises, or
    returns whether it swallows the exception it was given),
    [session.list_tools], and the variant's [process_query]. *)
Variable boto3_client : option (W -> (string + unit) * W).
Variable stdio_client : server_params -> W -> (string + unit) * W.
Variable client_session : W -> (string + unit) * W.
Variable initialize : W -> (string + unit) * W.
Variable aexit : context -> W -> (string + bool) * W.
Variable list_tools : W -> (string + list tool) * W.
Variable process_query : string -> M (env W Ev) string.

(** An oracle call, logged. *)
Definition call {A : Type} (oracle : W -> (string + A) * W)
    (record : string + A -> boot_event Ev) (p : P) : (string + A) * P :=
  let '(res, w) := oracle (pworld p) in
  (res, Proc w (plog p ++ [record res]) (pstack p)).

Definition push (c : context) (p : P) : P :=
  Proc (pworld p) (plog p) (c :: pstack p).

Definition say (text : string) (p : P) : P :=
  Proc (pworld p) (plog p ++ [InSession (EvPrint text)]) (pstack p).

(** [MCPClient.__init__]: a fresh exit stack and, in Variant A, the
    Bedrock client. *)
Definition new_client (p : P) : ending unit * P :=
  let p0 := Proc (pworld p) (plog p) [] in
  match boto3_client with
  | None => (Done tt, p0)
  | Some make =>
      match call make NewClient p0 with
      | (inl msg, p1) => (Crash (Failure msg), p1)
      | (inr _, p1) => (Done tt, p1)
      end
  end.

(** [MCPClient.connect_to_server] *)
Definition connect_to_server (server_script_path : string) (p : P) : ending unit * P :=
  let is_python := endswith server_script_path ".py" in
  let is_js := endswith server_script_path ".js" in
  if negb (is_python || is_js) then (Crash (ValueError failure_message), p)
  else
    let command := if is_python then "python" else "node" in
    let server_params := ServerParams command [server_script_path] in
    match call (stdio_client server_params) (Spawn server_params) p with
    | (inl msg, p1) => (Crash (Failure msg), p1)
    | (inr _, p1) =>
        match call client_session OpenSession (push Transport p1) with
        | (inl msg, p2) => (Crash (Failure msg), p2)
        | (inr _, p2) =>
            match call initialize Initialize (push Session p2) with
            | (inl msg, p3) => (Crash (Failure msg), p3)
            | (inr _, p3) =>
                match call list_tools (fun res => InSession (EvListTools res)) p3 with
                | (inl msg, p4) => (Crash (Uncaught (ToolExecutionError msg)), p4)
                | (inr tools, p4) =>
                    (Done tt,
                     say (Py.nl +:+ "Connected to server with tools: "
                          +:+ Py.repr (Py.VList (map (fun t => Py.VStr (name t)) tools)))
                         p4)
                end
            end
        end
    end.

(** [AsyncExitStack.aclose]: every context is exited, the most recent
    first, also after one of them failed.  An exit that raises makes its
    failure the pending one; an exit that returns true swallows the
    pending one; what is pending in the end is raised. *)
Fixpoint aclose (stack : list context) (pending : option string) (p : P)
    : option string * P :=
  match stack with
  | [] => (pending, Proc (pworld p) (plog p) [])
  | c :: rest =>
      let '(res, p') := call (aexit c) (Close c) p in
      aclose rest
             (match res with
              | inl msg => Some msg
              | inr true => None
              | inr false => pending
              end)
             (Proc (pworld p') (plog p') rest)
  end.

(** [MCPClient.cleanup] *)
Definition cleanup (p : P) : option string * P := aclose (pstack p) None p.

(** A computation of the session layer inside the process: it runs on
    the world and its log is appended. *)
Definition in_session {A : Type} (m : M (env W Ev) A) (p : P) : ending A * P :=
  let '(o, s) := m (Env (pworld p) []) in
  let p' := Proc (world s) (plog p ++ map InSession (trace s)) (pstack p) in
  match o with
  | Ok a => (Done a, p')
  | Raise e => (Crash (Uncaught e), p')
  | Timeout => (Hang, p')
  end.

(** The body of the [try] of [main]. *)
Definition serve (path : string) (stdin : list string) (p : P) : ending unit * P :=
  match connect_to_server path p with
  | (Done _, p1) => in_session (Chat.chat_loop process_query stdin) p1
  | r => r
  end.

(** [main], on [sys.argv] and the lines of the terminal. *)
Definition main (argv : list string) (stdin : list string) (p : P) : ending unit * P :=
  if (length argv <? 2)%nat then (Crash (SystemExit 1), say usage p)
  else
    match new_client p with
    | (Done _, p0) =>
        match serve (default EmptyString (argv !! 1%nat)) stdin p0 with
        | (Hang, p1) => (Hang, p1)
        | (r, p1) =>
            match cleanup p1 with
            | (Some msg, p2) => (Crash (Failure msg), p2)
            | (None, p2) => (r, p2)
            end
        end
    | r => r
    end.

End Process.

End Startup.

(** ** A scripted start *)

Module Boot.
Import Exec.

(** Collaborators that always succeed, or always fail, and leave the
    world alone. *)
Definition fine {W A : Type} (a : A) (w : W) : (string + A) * W := (inr a, w).

Definition broken {W A : Type} (msg : string) (w : W) : (string + A) * W := (inl msg, w).

(** Exits where the transport cannot be shut down. *)
Definition stuck {W : Type} (c : Startup.context) : W -> (string + bool) * W :=
  match c with
  | Startup.Transport => broken "pipe is stuck"
  | Startup.Session => fine false
  end.

Definition fresh {W Ev : Type} (w : W) : Startup.proc W Ev := Startup.Proc w [] [].

(** Variant A started on a script of two replies, with the given
    [initialize] and exits and every other collaborator working. *)
Definition bedrock_boot initialize aexit (argv stdin : list string) :=
  Startup.main (Some (fine tt)) (fun _ => fine tt) (fine tt) initialize aexit
    (Stub.catalog [Scenario.add_tool])
    (Bedrock.process_query Py.str (Stub.catalog [Scenario.add_tool])
       (Stub.tool_stub Scenario.add_stub) Stub.scripted)
    argv stdin
    (fresh [inr (Bedrock.Response (Some [Scenario.use_add "call_1"]));
            inr (Bedrock.Response (Some [Bedrock.Text "5"]))]).

Definition bedrock_main := bedrock_boot (fine tt) (fun _ => fine false).

(** The same with a transport that cannot be shut down. *)
Definition bedrock_main_stuck := bedrock_boot (fine tt) stuck.

(** Variant B started against a backend that answers in plain text. *)
Definition openai_main (argv stdin : list string) :=
  Startup.main None (fun _ => fine tt) (fine tt) (fine tt) (fun _ => fine false)
    (Stub.catalog [Scenario.add_tool]) (Scenario.process_query_plain 1)
    argv stdin (fresh tt).

End Boot.

(** * Properties *)

Import Exec.

(** ** Facts about logs *)

Section LogFacts.
Context {Req Resp Content : Type}.
Implicit Types tr : list (event Req Resp Content).

Lemma requests_app tr1 tr2 :
  Log.requests (tr1 ++ tr2) = Log.requests tr1 ++ Log.requests tr2.
Proof.
  induction tr1 as [|[] tr1 IH]; simpl; rewrite ?IH; reflexivity.
Qed.

Lemma replies_app tr1 tr2 :
  Log.replies (tr1 ++ tr2) = Log.replies tr1 ++ Log.replies tr2.
Proof.
  induction tr1 as [|[| ? [] | | | |] tr1 IH]; simpl; rewrite ?IH; reflexivity.
Qed.

Lemma dispatched_app tr1 tr2 :
  Log.dispatched (tr1 ++ tr2) = Log.dispatched tr1 ++ Log.dispatched tr2.
Proof.
  induction tr1 as [|[] tr1 IH]; simpl; rewrite ?IH; reflexivity.
Qed.

Lemma evaluated_app tr1 tr2 :
  Log.evaluated (tr1 ++ tr2) = Log.evaluated tr1 ++ Log.evaluated tr2.
Proof.
  induction tr1 as [|[] tr1 IH]; simpl; rewrite ?IH; reflexivity.
Qed.

Lemma backend_calls_app tr1 tr2 :
  backend_calls (tr1 ++ tr2) = backend_calls tr1 + backend_calls tr2.
Proof.
  unfold backend_calls. rewrite List.filter_app, length_app. reflexivity.
Qed.

Lemma tool_calls_made_app tr1 tr2 :
  tool_calls_made (tr1 ++ tr2) = tool_calls_made tr1 + tool_calls_made tr2.
Proof.
  unfold tool_calls_made. rewrite List.filter_app, length_app. reflexivity.
Qed.

Lemma backend_calls_requests tr : backend_calls tr = length (Log.requests tr).
Proof.
  unfold backend_calls.
  induction tr as [|[] tr IH]; simpl; rewrite ?IH; reflexivity.
Qed.

Lemma tool_calls_made_dispatched tr : tool_calls_made tr = length (Log.dispatched tr).
Proof.
  unfold tool_calls_made.
  induction tr as [|[] tr IH]; simpl; rewrite ?IH; reflexivity.
Qed.

(** Where a backend call sits in a log that starts with other events. *)
Lemma split_after_quiet (quiet t pre post : list (event Req Resp Content)) x :
  Forall (fun e => is_backend e = false) quiet ->
  is_backend x = true ->
  quiet ++ t = pre ++ x :: post ->
  exists p, pre = quiet ++ p /\ t = p ++ x :: post.
Proof.
  intros Hq Hx. revert pre.
  induction Hq as [|e quiet He Hq IH]; intros pre Heq; simpl in *.
  - exists pre. split; [reflexivity | exact Heq].
  - destruct pre as [|e' pre]; simpl in Heq.
    + injection Heq as -> _. congruence.
    + injection Heq as -> Heq. destruct (IH _ Heq) as (p & -> & ->).
      exists p. split; reflexivity.
Qed.

End LogFacts.

(** ** The loops of Variant A satisfy their relations *)

Section AdequacyA.
Context {W Content : Type}.
Variable str_content : Content -> string.
Variable list_tools : W -> (string + list tool) * W.
Variable call_tool : string -> Py.value -> W -> (string + Content) * W.
Variable invoke_model : Bedrock.request -> W -> (string + Bedrock.response) * W.

Lemma for_content_run tools items : forall l s,
  let r := Bedrock.for_content str_content call_tool invoke_model tools items l s in
  exists tr, trace (snd r) = trace s ++ tr
             /\ BedrockSem.run str_content tools items l tr (fst r).
Proof.
  induction items as [|c rest IH]; intros l s; simpl.
  - exists []. rewrite app_nil_r. split; [reflexivity | constructor].
  - destruct c as [t | i n a | ty]; simpl.
    + destruct (IH (Bedrock.on_text l t) s) as (tr & Htr & Hrun).
      exists tr. split; [exact Htr | constructor; exact Hrun].
    + unfold bind, Bedrock.dispatch, Bedrock.invoke, ask, lift.
      destruct (call_tool n a (world s)) as [[msg | res] w] eqn:Hc; simpl.
      * eexists. split; [reflexivity | constructor].
      * destruct (invoke_model _ w) as [[msg | reply] w'] eqn:Hi; simpl.
        -- eexists. rewrite <- app_assoc. split; [reflexivity | constructor].
        -- destruct (Bedrock.first_text reply) as [t | e | ] eqn:Hf; simpl.
           ++ match goal with |- context [Bedrock.for_content _ _ _ _ _ ?l' ?s'] =>
                destruct (IH l' s') as (tr & Htr & Hrun) end.
              eexists. split.
              ** rewrite Htr. simpl. rewrite <- !app_assoc. reflexivity.
              ** simpl. eapply BedrockSem.run_tool; eauto.
           ++ eexists. rewrite <- app_assoc. split; [reflexivity |].
              simpl. eapply BedrockSem.run_reply_raises; eauto.
           ++ exfalso. unfold Bedrock.first_text in Hf.
              destruct (Bedrock.content reply) as [[|[] ?]|]; discriminate.
    + destruct (IH l s) as (tr & Htr & Hrun).
      exists tr. split; [exact Htr | constructor; exact Hrun].
Qed.

Lemma run_query_run query s :
  let r := Bedrock.run_query str_content list_tools call_tool invoke_model query s in
  exists tr, trace (snd r) = trace s ++ tr
             /\ BedrockSem.query_run str_content query tr (fst r).
Proof.
  unfold Bedrock.run_query, bind, ask, Bedrock.invoke.
  destruct (list_tools (world s)) as [[msg | tl] w] eqn:Hl; cbn [fst snd trace world].
  - eexists. split; [reflexivity | constructor].
  - unfold ask; cbn [world trace].
    destruct (invoke_model _ w) as [[msg | reply] w'] eqn:Hi; cbn [fst snd trace world].
    + eexists. rewrite <- app_assoc. split; [reflexivity | constructor].
    + match goal with |- context [Bedrock.for_content _ _ _ ?t ?i ?l ?s'] =>
        destruct (for_content_run t i l s') as (tr & Htr & Hrun) end.
      eexists. split.
      * rewrite Htr. cbn [trace]. rewrite <- !app_assoc. reflexivity.
      * constructor. exact Hrun.
Qed.

Lemma process_query_run_query query s :
  Bedrock.process_query str_content list_tools call_tool invoke_model query s
  = (match fst (Bedrock.run_query str_content list_tools call_tool invoke_model query s) with
     | Ok l => Ok (Py.join Py.nl (Bedrock.final_text l))
     | Raise e => Raise e
     | Timeout => Timeout
     end,
     snd (Bedrock.run_query str_content list_tools call_tool invoke_model query s)).
Proof.
  unfold Bedrock.process_query, bind, ret.
  destruct (Bedrock.run_query _ _ _ _ _ _) as [[l | e |] s']; reflexivity.
Qed.

End AdequacyA.

(** ** The loops of Variant B satisfy their relations *)

Section AdequacyB.
Context {W Content : Type}.
Variable eval : string -> OpenAI.frame Content -> W
                -> outcome Py.value * OpenAI.frame Content * W.
Variable list_tools : W -> (string + list tool) * W.
Variable call_tool : string -> Py.value -> W -> (string + Content) * W.
Variable create : OpenAI.request Content -> W -> (string + OpenAI.chat_response) * W.

Lemma for_tool_calls_dispatching bound : forall calls l s,
  let r := OpenAI.for_tool_calls eval call_tool bound calls l s in
  exists tr, trace (snd r) = trace s ++ tr
             /\ OpenAISem.dispatching eval bound calls l tr (fst r).
Proof.
  induction bound as [|n IH]; intros [|tc rest] l s; cbn [OpenAI.for_tool_calls];
    try (exists []; rewrite app_nil_r; split; [reflexivity | constructor]).
  unfold bind, OpenAI.eval_arguments. fold (OpenAISem.frame_at l tc rest).
  destruct (eval _ (OpenAISem.frame_at l tc rest) (world s)) as [[o f] w] eqn:He.
  assert (Hev : OpenAISem.evaluates eval (OpenAI.arguments (OpenAI.function tc))
                  (OpenAISem.frame_at l tc rest) o f).
  { exists (world s). by rewrite He. }
  destruct o as [v | e |]; cbn [fst snd].
  - unfold OpenAI.dispatch, ask. cbn [world trace].
    destruct (call_tool _ v w) as [[msg | res] w'] eqn:Hc; cbn [fst snd world trace].
    + eexists. rewrite <- app_assoc. split; [reflexivity |].
      eapply OpenAISem.disp_tool_raises; eauto.
    + fold (OpenAISem.after_call f res).
      match goal with |- context [OpenAI.for_tool_calls _ _ _ ?c ?l' ?s'] =>
        destruct (IH c l' s') as (tr & Htr & Hrun) end.
      eexists. split.
      * rewrite Htr. cbn [trace]. rewrite <- !app_assoc. reflexivity.
      * eapply OpenAISem.disp_tool; eauto.
  - eexists. split; [reflexivity |]. eapply OpenAISem.disp_eval_raises; eauto.
  - eexists. split; [reflexivity |]. eapply OpenAISem.disp_eval_hangs; eauto.
Qed.

Lemma while_true_run bound fuel : forall r l s,
  let out := OpenAI.while_true eval call_tool create bound fuel r l s in
  exists tr, trace (snd out) = trace s ++ tr
             /\ OpenAISem.run eval bound fuel r l tr (fst out).
Proof.
  induction fuel as [|fuel IH]; intros r l s; cbn -[OpenAI.for_tool_calls].
  - exists []. rewrite app_nil_r. split; [reflexivity | constructor].
  - unfold bind, OpenAI.first_choice.
    destruct r as [|m others]; cbn -[OpenAI.for_tool_calls].
    + exists []. rewrite app_nil_r. split; [reflexivity | constructor].
    + destruct (OpenAI.tool_calls m) as [[|tc tcs]|] eqn:Htc; cbn -[OpenAI.for_tool_calls].
      * exists []. rewrite app_nil_r. split; [reflexivity |].
        constructor. unfold OpenAISem.requested. by rewrite Htc.
      * assert (Hreq : OpenAISem.requested m = tc :: tcs)
          by (unfold OpenAISem.requested; by rewrite Htc).
        destruct (for_tool_calls_dispatching bound (tc :: tcs)
                    (OpenAI.append l (OpenAI.Assistant m)) s)
          as (tr & Htr & Hd).
        cbn [fst snd] in Htr, Hd.
        destruct (OpenAI.for_tool_calls eval call_tool bound (tc :: tcs) _ s)
          as [[l' | e | ] s1] eqn:Hf; cbn [fst snd] in *.
        -- unfold OpenAI.completions, ask.
           destruct (create _ (world s1)) as [[msg | r'] w] eqn:Hc;
             cbn -[OpenAI.for_tool_calls].
           ++ eexists. split.
              ** rewrite Htr, <- app_assoc. reflexivity.
              ** eapply OpenAISem.run_backend_raises; rewrite ?Hreq; eauto.
           ++ match goal with |- context [OpenAI.while_true _ _ _ _ _ ?a ?b ?c] =>
                destruct (IH a b c) as (tr' & Htr' & Hrun) end.
              eexists. split.
              ** rewrite Htr'. cbn [trace]. rewrite Htr, <- !app_assoc. reflexivity.
              ** eapply OpenAISem.run_round; rewrite ?Hreq; eauto.
        -- exists tr. split; [exact Htr |].
           eapply OpenAISem.run_dispatch_raises; rewrite ?Hreq; eauto.
        -- exists tr. split; [exact Htr |].
           eapply OpenAISem.run_dispatch_hangs; rewrite ?Hreq; eauto.
      * exists []. rewrite app_nil_r. split; [reflexivity |].
        constructor. unfold OpenAISem.requested. by rewrite Htc.
Qed.

Lemma run_query_runB fuel query s :
  let r := OpenAI.run_query eval list_tools call_tool create fuel query s in
  exists tr, trace (snd r) = trace s ++ tr
             /\ OpenAISem.query_run eval fuel query tr (fst r).
Proof.
  unfold OpenAI.run_query, bind, ask, OpenAI.completions.
  destruct (list_tools (world s)) as [[msg | tl] w] eqn:Hl; cbn [fst snd trace world].
  - eexists. split; [reflexivity | constructor].
  - unfold ask; cbn [world trace OpenAI.messages OpenAI.tools].
    destruct (create _ w) as [[msg | r] w'] eqn:Hi; cbn [fst snd trace world].
    + eexists. rewrite <- app_assoc. split; [reflexivity | constructor].
    + match goal with |- context [OpenAI.while_true _ _ _ ?b ?f ?r ?l ?s'] =>
        destruct (while_true_run b f r l s') as (tr & Htr & Hrun) end.
      eexists. split.
      * rewrite Htr. cbn [trace]. rewrite <- !app_assoc. reflexivity.
      * constructor. exact Hrun.
Qed.

Lemma process_query_run_queryB fuel query s :
  OpenAI.process_query eval list_tools call_tool create fuel query s
  = (match fst (OpenAI.run_query eval list_tools call_tool create fuel query s) with
     | Ok l => OpenAI.join Py.nl (OpenAI.final_text l)
     | Raise e => Raise e
     | Timeout => Timeout
     end,
     snd (OpenAI.run_query eval list_tools call_tool create fuel query s)).
Proof.
  unfold OpenAI.process_query, bind, lift.
  destruct (OpenAI.run_query _ _ _ _ _ _ _) as [[l | e |] s']; reflexivity.
Qed.

End AdequacyB.

Ltac count_calls :=
  unfold backend_calls, tool_calls_made in *; simpl in *; lia.

(** ** Variant A: what a run of the loop looks like *)

Section BedrockRuns.
Context {Content : Type}.
Variable str_content : Content -> string.
Variable tools : list Py.value.
Import Bedrock BedrockSem.

Implicit Types (its : list content_item) (l : locals)
  (tr : list (event request response Content)) (o : outcome locals).

Lemma run_ends its l tr o :
  run str_content tools its l tr o -> o <> Timeout.
Proof. induction 1; congruence. Qed.

(** One backend call and one tool call per tool request, at most. *)
Lemma run_bounds its l tr o :
  run str_content tools its l tr o ->
  backend_calls tr <= length (tool_uses its)
  /\ tool_calls_made tr <= length (tool_uses its)
  /\ Log.dispatched tr `prefix_of` calls_of its.
Proof.
  unfold calls_of.
  induction 1 as [l | t rest l tr o _ IH | ty rest l tr o _ IH
                  | i n a rest l msg | i n a rest l res msg
                  | i n a rest l res reply e Hf
                  | i n a rest l res reply t tr o Hf _ IH]; simpl;
    try exact IH.
  - split_and!; [count_calls | count_calls | apply prefix_nil].
  - split_and!; [count_calls | count_calls | apply prefix_cons, prefix_nil].
  - split_and!; [count_calls | count_calls | apply prefix_cons, prefix_nil].
  - split_and!; [count_calls | count_calls | apply prefix_cons, prefix_nil].
  - destruct IH as (Hb & Ht & Hp).
    split_and!; [count_calls | count_calls | apply prefix_cons, Hp].
Qed.

(** A run that ends well has made them all. *)
Lemma run_ok_counts its l tr l' :
  run str_content tools its l tr (Ok l') ->
  backend_calls tr = length (tool_uses its)
  /\ tool_calls_made tr = length (tool_uses its)
  /\ Log.dispatched tr = calls_of its.
Proof.
  unfold calls_of. intros H. remember (Ok l') as o eqn:Ho.
  induction H as [l | t rest l tr o _ IH | ty rest l tr o _ IH
                  | | | | i n a rest l res reply t tr o Hf _ IH];
    simpl; try discriminate; auto.
  destruct (IH Ho) as (Hb & Ht & Hp).
  split_and!; [count_calls | count_calls | simpl; f_equal; exact Hp].
Qed.

(** Without a tool request the loop only collects the text items. *)
Lemma run_no_tool_use its l tr o :
  run str_content tools its l tr o ->
  tool_uses its = [] ->
  tr = []
  /\ o = Ok (Locals (messages l)
                    (assistant_message_content l ++ map Text (texts its))
                    (final_text l ++ texts its)).
Proof.
  induction 1 as [l | t rest l tr o _ IH | ty rest l tr o _ IH | | | | ];
    simpl; intros Hn; try discriminate.
  - rewrite !app_nil_r. destruct l; auto.
  - destruct (IH Hn) as (-> & ->). split; [reflexivity |].
    simpl. rewrite <- !app_assoc. reflexivity.
  - exact (IH Hn).
Qed.

(** A failed tool call is the last thing a run does. *)
Lemma run_tool_failure its l tr o :
  run str_content tools its l tr o ->
  forall pre n a msg post,
    tr = pre ++ EvTool n a (inl msg) :: post ->
    post = [] /\ o = Raise (ToolExecutionError msg).
Proof.
  induction 1 as [l | t rest l tr o _ IH | ty rest l tr o _ IH
                  | i n a rest l msg | i n a rest l res msg
                  | i n a rest l res reply e Hf
                  | i n a rest l res reply t tr o Hf _ IH];
    intros pre n' a' msg' post Heq; eauto.
  - destruct pre; discriminate.
  - destruct pre as [|? [|? ?]]; simplify_eq/=. auto.
  - destruct pre as [|? [|? [|? ?]]]; simplify_eq/=.
  - destruct pre as [|? [|? [|? ?]]]; simplify_eq/=.
  - destruct pre as [|? [|? pre]]; simplify_eq/=. eauto.
Qed.

(** The answer buffer of a run that ends well. *)
Lemma run_final_text its l tr l' :
  run str_content tools its l tr (Ok l') ->
  final_text l' = final_text l ++ answer_lines its (Log.replies tr).
Proof.
  intros H. remember (Ok l') as o eqn:Ho.
  induction H as [l | t rest l tr o _ IH | ty rest l tr o _ IH
                  | | | | i n a rest l res reply t tr o Hf _ IH];
    simpl; try discriminate.
  - injection Ho as ->. rewrite app_nil_r. reflexivity.
  - rewrite (IH Ho). simpl. rewrite <- app_assoc. reflexivity.
  - exact (IH Ho).
  - rewrite (IH Ho), Hf. simpl. rewrite <- !app_assoc. reflexivity.
Qed.

End BedrockRuns.

(** ** The invariant and appended messages *)

Section ConversationFacts.
Import Conversation.

Lemma no_pending_nil p : no_pending p = true -> p = [].
Proof. destruct p; [reflexivity | discriminate]. Qed.

Lemma answered_app conv : forall pending rest,
  answered pending conv = true ->
  answered pending (conv ++ rest) = answered [] rest.
Proof.
  induction conv as [|[| ids | i] conv IH]; intros pending rest H; simpl in *.
  - apply no_pending_nil in H. subst. reflexivity.
  - apply andb_true_iff in H as [Hp H]. rewrite Hp. simpl. auto.
  - apply andb_true_iff in H as [Hp H]. rewrite Hp. simpl. auto.
  - destruct pending as [|p pending]; [discriminate |].
    apply andb_true_iff in H as [Hp H]. rewrite Hp. simpl. auto.
Qed.

Lemma answered_results ids : answered ids (map SResult ids) = true.
Proof.
  induction ids as [|i ids IH]; simpl; [reflexivity |].
  rewrite String.eqb_refl. exact IH.
Qed.

(** An assistant message and one result for each of its requests keep a
    well-formed conversation well-formed. *)
Lemma well_formed_round conv ids :
  well_formed conv = true ->
  well_formed (conv ++ SAssistant ids :: map SResult ids) = true.
Proof.
  unfold well_formed. intros H. rewrite (answered_app _ _ _ H). simpl.
  apply answered_results.
Qed.

End ConversationFacts.

Section GrowingFacts.
Context {A : Type}.

Lemma growing_cons (h h' : list A) obs :
  h `prefix_of` h' -> Log.growing (h' :: obs) -> Log.growing (h :: h' :: obs).
Proof. intros Hp Hg. split; [exact Hp | exact Hg]. Qed.

Lemma growing_one (h : list A) : Log.growing [h].
Proof. split; exact I. Qed.

Lemma growing_tail (h : list A) obs : Log.growing (h :: obs) -> Log.growing obs.
Proof. intros [_ H]. exact H. Qed.

(** Replacing the head by something shorter keeps the chain. *)
Lemma growing_head (h h' : list A) obs :
  h `prefix_of` h' -> Log.growing (h' :: obs) -> Log.growing (h :: obs).
Proof.
  intros Hp [Hh Hg]. split; [| exact Hg].
  destruct obs as [|h'' obs]; [exact I |]. by etrans.
Qed.

End GrowingFacts.

(** ** Variant A: the conversation during a run *)

Section BedrockHistory.
Context {Content : Type}.
Variable str_content : Content -> string.
Variable tools : list Py.value.
Import Bedrock BedrockSem.

Implicit Types (its : list content_item) (l : locals)
  (tr : list (event request response Content)) (o : outcome locals).

Lemma tool_uses_app its1 its2 :
  tool_uses (its1 ++ its2) = tool_uses its1 ++ tool_uses its2.
Proof.
  induction its1 as [|[] its1 IH]; simpl; rewrite ?IH; reflexivity.
Qed.

Lemma first_tool_result_well_formed l i n a r query :
  messages l = [UserQuery query] ->
  tool_uses (assistant_message_content l) = [] ->
  well_formed (request_body tools (on_tool_result l i n a r)) = true.
Proof.
  intros Hm Ha. unfold well_formed, request_body, history. simpl.
  rewrite Hm. simpl. rewrite tool_uses_app, Ha. simpl.
  unfold Conversation.well_formed. simpl. rewrite String.eqb_refl. reflexivity.
Qed.

(** The conversation of a run whose first reply has at most one tool
    request is well-formed at every backend call. *)
Lemma run_well_formed its l tr o query :
  run str_content tools its l tr o ->
  messages l = [UserQuery query] ->
  tool_uses (assistant_message_content l) = [] ->
  length (tool_uses its) <= 1 ->
  Forall (fun req => well_formed req = true) (Log.requests tr).
Proof.
  induction 1 as [l | t rest l tr o _ IH | ty rest l tr o _ IH
                  | i n a rest l msg | i n a rest l res msg
                  | i n a rest l res reply e Hf
                  | i n a rest l res reply t tr o Hf Hrun _];
    intros Hm Ha Hk; simpl in *.
  - constructor.
  - apply IH; [exact Hm | | exact Hk]. simpl. rewrite tool_uses_app, Ha. reflexivity.
  - apply IH; assumption.
  - constructor.
  - repeat constructor. by eapply first_tool_result_well_formed.
  - repeat constructor. by eapply first_tool_result_well_formed.
  - apply run_no_tool_use in Hrun as [-> _].
    + repeat constructor. by eapply first_tool_result_well_formed.
    + destruct (tool_uses rest); [reflexivity | simpl in Hk; lia].
Qed.

Lemma history_unshared l l' :
  messages l' = messages l -> Forall unshared (messages l) -> history l' = history l.
Proof.
  unfold history. intros -> H. apply map_ext_Forall.
  eapply Forall_impl; [exact H |]. intros [] Hm; try reflexivity. by destruct Hm.
Qed.

Lemma history_on_tool_result l i n a r :
  Forall unshared (messages l) ->
  history l `prefix_of` history (on_tool_result l i n a r).
Proof.
  intros H. unfold history at 2. simpl. rewrite map_app.
  eexists. f_equal. apply map_ext_Forall.
  eapply Forall_impl; [exact H |]. intros [] Hm; try reflexivity. by destruct Hm.
Qed.

Lemma run_inert its l tr o :
  run str_content tools its l tr o -> inert its = true -> tr = [] /\ o = Ok l.
Proof.
  induction 1; simpl; intros Hi; try discriminate; auto.
Qed.

(** When nothing but inert items follows the first tool request, every
    observation of the conversation extends the one before. *)
Lemma run_growing its l tr o :
  run str_content tools its l tr o ->
  ends_at_first_tool_use its = true ->
  Forall unshared (messages l) ->
  Log.growing (history l :: observations tr o).
Proof.
  unfold observations.
  induction 1 as [l | t rest l tr o _ IH | ty rest l tr o _ IH
                  | i n a rest l msg | i n a rest l res msg
                  | i n a rest l res reply e Hf
                  | i n a rest l res reply t tr o Hf Hrun _];
    intros He Hu; simpl in *.
  - apply growing_cons; [reflexivity | apply growing_one].
  - specialize (IH He Hu).
    rewrite (history_unshared l (on_text l t)) in IH; auto.
  - auto.
  - apply growing_one.
  - apply growing_cons; [by apply history_on_tool_result | apply growing_one].
  - apply growing_cons; [by apply history_on_tool_result | apply growing_one].
  - apply run_inert in Hrun as [-> ->]; [| exact He]. simpl.
    apply growing_cons; [by apply history_on_tool_result |].
    apply growing_cons; [reflexivity | apply growing_one].
Qed.

Lemma envelope_history l l' :
  messages l' = messages l ->
  map envelope (history l') = map envelope (history l).
Proof.
  unfold history. intros ->. rewrite !map_map. apply map_ext. intros []; reflexivity.
Qed.

Lemma envelope_on_tool_result l i n a r :
  map envelope (history l) `prefix_of` map envelope (history (on_tool_result l i n a r)).
Proof.
  unfold history. simpl. rewrite !map_app, !map_map.
  eexists. f_equal. apply map_ext. intros []; reflexivity.
Qed.

(** Whatever the first reply holds, the messages themselves are only
    appended: the conversation without the assistant contents grows. *)
Lemma run_envelopes_growing its l tr o :
  run str_content tools its l tr o ->
  Log.growing (map envelope (history l) :: map (map envelope) (observations tr o)).
Proof.
  unfold observations.
  induction 1 as [l | t rest l tr o _ IH | ty rest l tr o _ IH
                  | i n a rest l msg | i n a rest l res msg
                  | i n a rest l res reply e Hf
                  | i n a rest l res reply t tr o Hf Hrun IH];
    simpl in *.
  - apply growing_cons; [reflexivity | apply growing_one].
  - rewrite (envelope_history l (on_text l t)) in IH; auto.
  - auto.
  - apply growing_one.
  - apply growing_cons; [apply envelope_on_tool_result | apply growing_one].
  - apply growing_cons; [apply envelope_on_tool_result | apply growing_one].
  - apply growing_cons; [apply envelope_on_tool_result |].
    rewrite (envelope_history (on_tool_result l i n a (str_content res))
               (on_follow_up (on_tool_result l i n a (str_content res)) t)) in IH; auto.
Qed.

End BedrockHistory.

(** ** Logs without backend calls *)

Section QuietLogs.
Context {Req Resp Content : Type}.
Implicit Types tr : list (event Req Resp Content).

Lemma quiet_backend_calls tr :
  backend_calls tr = 0 <-> Forall (fun e => is_backend e = false) tr.
Proof.
  unfold backend_calls. induction tr as [|e tr IH]; simpl.
  - split; [constructor | reflexivity].
  - destruct (is_backend e) eqn:He; simpl.
    + split; [discriminate | intros H; inversion H; congruence].
    + rewrite IH. split; [by constructor | by inversion 1].
Qed.

Lemma quiet_requests tr :
  Forall (fun e => is_backend e = false) tr -> Log.requests tr = [].
Proof.
  induction 1 as [|[] tr He _ IH]; simpl; try discriminate; auto.
Qed.

Lemma quiet_replies tr :
  Forall (fun e => is_backend e = false) tr -> Log.replies tr = [].
Proof.
  induction 1 as [|[] tr He _ IH]; simpl; try discriminate; auto.
Qed.

End QuietLogs.

(** ** Variant B: what a run of the loop looks like *)

Section OpenAIRuns.
Context {W Content : Type}.
Variable eval : string -> OpenAI.frame Content -> W
                -> outcome Py.value * OpenAI.frame Content * W.
Variable bound : nat.
Import OpenAI OpenAISem.

Implicit Types (calls : list tool_call) (l : locals Content)
  (tr : list (event (request Content) chat_response Content)).

Lemma harmless_evaluates text f o f' :
  harmless eval text -> evaluates eval text f o f' -> f' = f.
Proof. intros H [w Hw]. specialize (H f w). by rewrite Hw in H. Qed.

(** A [for] loop that ends well, over texts that change nothing, has
    evaluated and dispatched every call and appended the tool messages,
    all in the order of the calls. *)
Lemma dispatching_ok n calls l tr l' :
  dispatching eval n calls l tr (Ok l') ->
  Forall (harmless eval) (Log.evaluated tr) ->
  exists outs,
    length outs = length calls
    /\ l' = Locals (messages l ++ zip_with tool_message calls outs)
                   (tools l) (final_text l)
    /\ tr = concat (zip_with tool_events calls outs).
Proof.
  intros H. remember (Ok l') as o eqn:Ho.
  induction H as [n l | | | | | n tc rest l v f res tr o Hev _ IH];
    try discriminate; intros Hh.
  - injection Ho as <-. exists []. destruct l. simpl. by rewrite app_nil_r.
  - simpl in Hh. inversion Hh as [|? ? Htext Hrest]; subst.
    apply (harmless_evaluates _ _ _ _ Htext) in Hev. subst f.
    destruct (IH eq_refl Hrest) as (outs & Hlen & -> & ->).
    exists ((v, res) :: outs). unfold after_call, frame_at, append. simpl.
    rewrite <- app_assoc. split_and!; [by f_equal | reflexivity | reflexivity].
Qed.

Lemma dispatching_quiet n calls l tr o :
  dispatching eval n calls l tr o -> Forall (fun e => is_backend e = false) tr.
Proof. induction 1; repeat constructor; auto. Qed.

Lemma dispatching_tool_failure n calls l tr o :
  dispatching eval n calls l tr o ->
  forall pre name a msg post,
    tr = pre ++ EvTool name a (inl msg) :: post ->
    post = [] /\ o = Raise (ToolExecutionError msg).
Proof.
  induction 1 as [n l | tc rest l | n tc rest l e f Hev | n tc rest l f Hev
                  | n tc rest l v f msg Hev
                  | n tc rest l v f res tr o Hev _ IH];
    intros pre name a msg' post Heq.
  - destruct pre; discriminate.
  - destruct pre; discriminate.
  - destruct pre as [|? [|? ?]]; simplify_eq/=.
  - destruct pre as [|? [|? ?]]; simplify_eq/=.
  - destruct pre as [|? [|? [|? ?]]]; simplify_eq/=. auto.
  - destruct pre as [|? [|? pre]]; simplify_eq/=. eauto.
Qed.

Lemma shape_of_tool_messages calls : forall (outs : list (Py.value * Content)),
  length outs = length calls ->
  map shape_of (zip_with (tool_message (Content:=Content)) calls outs)
  = map Conversation.SResult (map id calls).
Proof.
  induction calls as [|tc calls IH]; intros [|out outs] Hlen; simpl in *;
    try discriminate; [reflexivity |].
  f_equal. apply IH. lia.
Qed.

Lemma dispatching_well_formed n m l tr l' :
  dispatching eval n (requested m) (append l (Assistant m)) tr (Ok l') ->
  Forall (harmless eval) (Log.evaluated tr) ->
  Conversation.well_formed (map shape_of (messages l)) = true ->
  Conversation.well_formed (map shape_of (messages l')) = true.
Proof.
  intros Hd Hh Hw. apply dispatching_ok in Hd as (outs & Hlen & -> & _); [| exact Hh].
  cbn [messages append]. rewrite <- app_assoc, map_app. simpl.
  rewrite (shape_of_tool_messages _ _ Hlen). by apply well_formed_round.
Qed.

(** The conversation is well-formed at every backend call, when the
    texts evaluated change nothing. *)
Lemma run_well_formedB n r l tr o :
  run eval bound n r l tr o ->
  Forall (harmless eval) (Log.evaluated tr) ->
  Conversation.well_formed (map shape_of (messages l)) = true ->
  Forall (fun req => well_formed req = true) (Log.requests tr).
Proof.
  induction 1 as [r l | n l | n m others l Hm
                  | n m others l tr e Hm Hd
                  | n m others l tr Hm Hd
                  | n m others l tr l' msg Hm Hd
                  | n m others l tr l' r' tr' o Hm Hd _ IH];
    intros Hh Hw; simpl; try constructor.
  - rewrite (quiet_requests tr); [constructor | by eapply dispatching_quiet].
  - rewrite (quiet_requests tr); [constructor | by eapply dispatching_quiet].
  - rewrite evaluated_app in Hh. apply Forall_app in Hh as [Hh _].
    rewrite requests_app, (quiet_requests tr); [| by eapply dispatching_quiet].
    simpl. repeat constructor. by eapply dispatching_well_formed.
  - rewrite evaluated_app in Hh. apply Forall_app in Hh as [Hh Hh'].
    rewrite requests_app, (quiet_requests tr); [| by eapply dispatching_quiet].
    simpl. constructor.
    + by eapply dispatching_well_formed.
    + apply IH; [exact Hh' |]. by eapply dispatching_well_formed.
Qed.

(** A failed tool call is the last thing a run does. *)
Lemma run_tool_failureB n r l tr o :
  run eval bound n r l tr o ->
  forall pre name a msg post,
    tr = pre ++ EvTool name a (inl msg) :: post ->
    post = [] /\ o = Raise (ToolExecutionError msg).
Proof.
  assert (Hok : forall n calls l tr l' pre name a msg post,
             dispatching eval n calls l tr (Ok l') ->
             tr <> pre ++ EvTool name a (inl msg) :: post).
  { intros k calls l0 tr0 l' pre name a msg post Hd ->.
    destruct (dispatching_tool_failure _ _ _ _ _ Hd _ _ _ _ _ eq_refl) as [_ ?].
    discriminate. }
  induction 1 as [r l | n l | n m others l Hm
                  | n m others l tr e Hm Hd
                  | n m others l tr Hm Hd
                  | n m others l tr l' msg Hm Hd
                  | n m others l tr l' r' tr' o Hm Hd _ IH];
    intros pre name a msg' post Heq.
  - destruct pre; discriminate.
  - destruct pre; discriminate.
  - destruct pre; discriminate.
  - destruct (dispatching_tool_failure _ _ _ _ _ Hd _ _ _ _ _ Heq) as [-> [= ->]]. auto.
  - destruct (dispatching_tool_failure _ _ _ _ _ Hd _ _ _ _ _ Heq) as [_ ?].
    discriminate.
  - exfalso. apply app_eq_inv in Heq as [(k & -> & Hk) | (k & -> & Hk)].
    + destruct k as [|? k]; simplify_eq/=. by eapply Hok.
    + destruct k as [|? [|? ?]]; simplify_eq/=.
  - apply app_eq_inv in Heq as [(k & -> & Hk) | (k & -> & Hk)].
    + exfalso. destruct k as [|? k]; simplify_eq/=. by eapply Hok.
    + destruct k as [|? k]; simplify_eq/=. eauto.
Qed.

End OpenAIRuns.

Ltac split_quiet p :=
  match goal with
  | H : _ ++ _ = _ ++ _ :: _ |- _ =>
      apply split_after_quiet in H as (p & -> & H);
      [| first [assumption | by eapply dispatching_quiet] | reflexivity]
  end.

Ltac run_cases H :=
  induction H as [r l | n l | n m others l Hm
                  | n m others l tr e Hm Hd
                  | n m others l tr Hm Hd
                  | n m others l tr l1 msg Hm Hd
                  | n m others l tr l1 r' tr' o Hm Hd _ IH].

Section OpenAIRounds.
Context {W Content : Type}.
Variable eval : string -> OpenAI.frame Content -> W
                -> outcome Py.value * OpenAI.frame Content * W.
Variable bound : nat.
Import OpenAI OpenAISem.

Implicit Types (calls : list tool_call) (l : locals Content)
  (tr pre mid post : list (event (request Content) chat_response Content)).

Lemma quiet_has_no_backend_call tr pre post req res :
  Forall (fun e => is_backend e = false) tr ->
  tr <> pre ++ EvBackend req res :: post.
Proof.
  intros Hq ->. apply Forall_app in Hq as [_ Hq]. by inversion Hq.
Qed.

Lemma dispatching_prefix n m l tr l' :
  dispatching eval n (requested m) (append l (Assistant m)) tr (Ok l') ->
  Forall (harmless eval) (Log.evaluated tr) ->
  messages l `prefix_of` messages l'.
Proof.
  intros Hd Hh. apply dispatching_ok in Hd as (outs & _ & -> & _); [| exact Hh].
  cbn [messages append]. rewrite <- app_assoc. by eexists.
Qed.

(** A reply without tool calls is the last event of the run. *)
Lemma run_stops n r l tr o :
  run eval bound n r l tr o ->
  forall req0 pre req m others post,
    EvBackend req0 (inr r) :: tr = pre ++ EvBackend req (inr (m :: others)) :: post ->
    requested m = [] ->
    post = [].
Proof.
  intros H. run_cases H; intros req0 pre req m' others' post Heq Hm'.
  - destruct pre as [|? [|? ?]]; by simplify_eq/=.
  - destruct pre as [|? [|? ?]]; by simplify_eq/=.
  - destruct pre as [|? [|? ?]]; by simplify_eq/=.
  - destruct pre as [|? pre]; simplify_eq/=.
    exfalso. apply dispatching_quiet in Hd.
    by eapply quiet_has_no_backend_call.
  - destruct pre as [|? pre]; simplify_eq/=.
    exfalso. apply dispatching_quiet in Hd.
    by eapply quiet_has_no_backend_call.
  - destruct pre as [|? pre]; simplify_eq/=.
    split_quiet p.
    destruct p as [|? [|? ?]]; simplify_eq/=.
  - destruct pre as [|? pre]; simplify_eq/=.
    split_quiet p.
    eauto.
Qed.

(** Between a reply and the next backend call, when the texts evaluated
    there change nothing: the tool calls of the reply, all of them and in
    order, and the conversation sent next is the one sent before, the
    reply and one tool message per call. *)
Lemma run_rounds n r l tr o :
  run eval bound n r l tr o ->
  forall req0 pre req m others mid req' res' post,
    req_messages req0 = messages l ->
    EvBackend req0 (inr r) :: tr
    = pre ++ EvBackend req (inr (m :: others)) :: mid ++ EvBackend req' res' :: post ->
    Forall (fun e => is_backend e = false) mid ->
    Forall (harmless eval) (Log.evaluated mid) ->
    exists outs,
      length outs = length (requested m)
      /\ mid = concat (zip_with tool_events (requested m) outs)
      /\ req_messages req'
         = req_messages req ++ Assistant m :: zip_with tool_message (requested m) outs.
Proof.
  intros H. run_cases H;
    intros req0 pre req m' others' mid req' res' post Hreq Heq Hq Hh.
  - destruct pre as [|? [|? ?]]; simplify_eq/=; destruct mid; discriminate.
  - destruct pre as [|? [|? ?]]; simplify_eq/=; destruct mid; discriminate.
  - destruct pre as [|? [|? ?]]; simplify_eq/=; destruct mid; discriminate.
  - exfalso. apply dispatching_quiet in Hd.
    destruct pre as [|? pre]; simplify_eq/=;
      by eapply (quiet_has_no_backend_call _ _ _ _ _ Hd).
  - exfalso. apply dispatching_quiet in Hd.
    destruct pre as [|? pre]; simplify_eq/=;
      by eapply (quiet_has_no_backend_call _ _ _ _ _ Hd).
  - pose proof (dispatching_quiet _ _ _ _ _ _ Hd) as Hquiet.
    destruct pre as [|? pre]; simplify_eq/=.
    + split_quiet p.
      destruct p as [|? [|? ?]]; simplify_eq/=.
      rewrite app_nil_r in Hh.
      apply dispatching_ok in Hd as (outs & Hlen & -> & ->); [| exact Hh].
      exists outs. rewrite app_nil_r. cbn [ask_again req_messages messages append].
      rewrite Hreq, <- app_assoc. auto.
    + split_quiet p.
      destruct p as [|? [|? ?]]; simplify_eq/=; destruct mid; discriminate.
  - pose proof (dispatching_quiet _ _ _ _ _ _ Hd) as Hquiet.
    destruct pre as [|? pre]; simplify_eq/=.
    + split_quiet p.
      destruct p as [|? p]; simplify_eq/=.
      * rewrite app_nil_r in Hh.
        apply dispatching_ok in Hd as (outs & Hlen & -> & ->); [| exact Hh].
        exists outs. rewrite app_nil_r. cbn [ask_again req_messages messages append].
        rewrite Hreq, <- app_assoc. auto.
      * apply Forall_app in Hq as [_ Hq]. by inversion Hq.
    + split_quiet p.
      eapply (IH (ask_again l1)); eauto.
Qed.

(** A run that ends well ends on a reply that asks for no tool; when
    the texts evaluated change nothing, that reply gives the one text
    added to the answer. *)
Lemma run_final_reply n r l tr l' :
  run eval bound n r l tr (Ok l') ->
  forall req0, exists pre req m others,
    EvBackend req0 (inr r) :: tr = pre ++ [EvBackend req (inr (m :: others))]
    /\ requested m = []
    /\ (Forall (harmless eval) (Log.evaluated tr) ->
        final_text l' = final_text l ++ [content m]).
Proof.
  intros H. remember (Ok l') as o eqn:Ho.
  run_cases H; try discriminate; intros req0.
  - injection Ho as <-. exists [], req0, m, others. auto.
  - destruct (IH Ho (ask_again l1)) as (pre & req & m' & others' & Heq & Hm' & Hft).
    exists (EvBackend req0 (inr (m :: others)) :: tr ++ pre), req, m', others'.
    split_and!; [| exact Hm' |].
    + simpl. rewrite Heq, <- app_assoc. reflexivity.
    + intros Hh. rewrite evaluated_app in Hh. apply Forall_app in Hh as [Hh Hh'].
      rewrite (Hft Hh').
      apply dispatching_ok in Hd as (outs & _ & -> & _); [| exact Hh]. reflexivity.
Qed.

(** Every observation of the conversation extends the one before, when
    the texts evaluated change nothing. *)
Lemma run_growingB n r l tr o :
  run eval bound n r l tr o ->
  Forall (harmless eval) (Log.evaluated tr) ->
  Log.growing (messages l :: observations tr o).
Proof.
  unfold observations.
  intros H. run_cases H; intros Hh; simpl.
  - apply growing_one.
  - apply growing_one.
  - apply growing_cons; [by eexists | apply growing_one].
  - rewrite (quiet_requests tr); [apply growing_one | by eapply dispatching_quiet].
  - rewrite (quiet_requests tr); [apply growing_one | by eapply dispatching_quiet].
  - rewrite evaluated_app in Hh. apply Forall_app in Hh as [Hh _].
    rewrite requests_app, (quiet_requests tr); [| by eapply dispatching_quiet].
    simpl. apply growing_cons; [by eapply dispatching_prefix | apply growing_one].
  - rewrite evaluated_app in Hh. apply Forall_app in Hh as [Hh Hh'].
    rewrite requests_app, (quiet_requests tr); [| by eapply dispatching_quiet].
    simpl. apply growing_cons; [by eapply dispatching_prefix | by apply IH].
Qed.

End OpenAIRounds.

(** ** From the loops to [process_query] *)

Section BedrockQueries.
Context {Content : Type}.
Variable str_content : Content -> string.
Import Bedrock BedrockSem.

Implicit Types (tr : list (event request response Content)) (o : outcome locals).

Lemma query_run_ends query tr o :
  query_run str_content query tr o -> o <> Timeout.
Proof. destruct 1; try discriminate. by eapply run_ends. Qed.

Lemma query_run_tool_failure query tr o pre n a msg post :
  query_run str_content query tr o ->
  tr = pre ++ EvTool n a (inl msg) :: post ->
  post = [] /\ o = Raise (ToolExecutionError msg).
Proof.
  destruct 1 as [msg' | tl msg' | tl reply tr o Hrun]; intros Heq.
  - destruct pre as [|? [|? ?]]; simplify_eq/=.
  - destruct pre as [|? [|? [|? ?]]]; simplify_eq/=.
  - destruct pre as [|? [|? pre]]; simplify_eq/=.
    by eapply run_tool_failure.
Qed.

Lemma query_run_bounds query tr o :
  query_run str_content query tr o ->
  backend_calls tr <= 1 + length (tool_uses (first_items tr))
  /\ tool_calls_made tr <= length (tool_uses (first_items tr))
  /\ Log.dispatched tr `prefix_of` calls_of (first_items tr).
Proof.
  destruct 1 as [msg | tl msg | tl reply tr o Hrun]; unfold first_items; simpl.
  - split_and!; [count_calls | count_calls | apply prefix_nil].
  - split_and!; [count_calls | count_calls | apply prefix_nil].
  - destruct (run_bounds _ _ _ _ _ _ Hrun) as (Hb & Ht & Hp).
    split_and!; [count_calls | count_calls | exact Hp].
Qed.

Lemma query_run_ok_counts query tr l :
  query_run str_content query tr (Ok l) ->
  backend_calls tr = 1 + length (tool_uses (first_items tr))
  /\ tool_calls_made tr = length (tool_uses (first_items tr))
  /\ Log.dispatched tr = calls_of (first_items tr).
Proof.
  inversion 1 as [| | tl reply tr' o Hrun]; subst. unfold first_items; simpl.
  destruct (run_ok_counts _ _ _ _ _ _ Hrun) as (Hb & Ht & Hp).
  split_and!; [count_calls | count_calls | exact Hp].
Qed.

Lemma query_run_answer query tr l :
  query_run str_content query tr (Ok l) ->
  exists first follow_ups,
    Log.replies tr = first :: follow_ups
    /\ final_text l = answer_lines (items first) follow_ups.
Proof.
  inversion 1 as [| | tl reply tr' o Hrun]; subst.
  exists reply, (Log.replies tr'). split; [reflexivity |].
  by rewrite (run_final_text _ _ _ _ _ _ Hrun).
Qed.

Lemma query_run_well_formed query tr o :
  query_run str_content query tr o ->
  length (tool_uses (first_items tr)) <= 1 ->
  Forall (fun req => well_formed req = true) (Log.requests tr).
Proof.
  destruct 1 as [msg | tl msg | tl reply tr o Hrun]; unfold first_items; simpl; intros Hk.
  - constructor.
  - repeat constructor.
  - constructor; [reflexivity |].
    eapply run_well_formed; eauto; reflexivity.
Qed.

Lemma query_run_growing query tr o :
  query_run str_content query tr o ->
  Log.growing (map (map envelope) (observations tr o))
  /\ (ends_at_first_tool_use (first_items tr) = true ->
      Log.growing (observations tr o)).
Proof.
  destruct 1 as [msg | tl msg | tl reply tr o Hrun]; unfold first_items; simpl.
  - split; [exact I | intros _; exact I].
  - split; [apply growing_one | intros _; apply growing_one].
  - split.
    + apply (run_envelopes_growing _ _ _ _ _ _ Hrun).
    + intros He. apply (run_growing _ _ _ _ _ _ Hrun He).
      repeat constructor. discriminate.
Qed.

End BedrockQueries.

Section OpenAIQueries.
Context {W Content : Type}.
Variable eval : string -> OpenAI.frame Content -> W
                -> outcome Py.value * OpenAI.frame Content * W.
Variable fuel : nat.
Import OpenAI OpenAISem.

Implicit Types (tr : list (event (request Content) chat_response Content)).

Lemma query_run_tool_failureB query tr o pre n a msg post :
  query_run eval fuel query tr o ->
  tr = pre ++ EvTool n a (inl msg) :: post ->
  post = [] /\ o = Raise (ToolExecutionError msg).
Proof.
  destruct 1 as [msg' | tl msg' | tl r tr o Hrun]; intros Heq.
  - destruct pre as [|? [|? ?]]; simplify_eq/=.
  - destruct pre as [|? [|? [|? ?]]]; simplify_eq/=.
  - destruct pre as [|? [|? pre]]; simplify_eq/=.
    by eapply run_tool_failureB.
Qed.

Lemma query_run_well_formedB query tr o :
  query_run eval fuel query tr o ->
  Forall (harmless eval) (Log.evaluated tr) ->
  Forall (fun req => well_formed req = true) (Log.requests tr).
Proof.
  destruct 1 as [msg | tl msg | tl r tr o Hrun]; intros Hh; simpl.
  - constructor.
  - repeat constructor.
  - constructor; [reflexivity |].
    eapply run_well_formedB; eauto.
Qed.

Lemma query_run_growingB query tr o :
  query_run eval fuel query tr o ->
  Forall (harmless eval) (Log.evaluated tr) ->
  Log.growing (observations tr o).
Proof.
  destruct 1 as [msg | tl msg | tl r tr o Hrun]; intros Hh; simpl.
  - exact I.
  - apply growing_one.
  - apply (run_growingB _ _ _ _ _ _ _ Hrun Hh).
Qed.

Lemma query_run_stops query tr o pre req m others post :
  query_run eval fuel query tr o ->
  tr = pre ++ EvBackend req (inr (m :: others)) :: post ->
  requested m = [] ->
  post = [].
Proof.
  destruct 1 as [msg' | tl msg' | tl r tr o Hrun]; intros Heq Hm.
  - destruct pre as [|? [|? ?]]; simplify_eq/=.
  - destruct pre as [|? [|? [|? ?]]]; simplify_eq/=.
  - destruct pre as [|? pre]; simplify_eq/=.
    by eapply run_stops.
Qed.

Lemma query_run_rounds query tr o pre req m others mid req' res' post :
  query_run eval fuel query tr o ->
  tr = pre ++ EvBackend req (inr (m :: others)) :: mid ++ EvBackend req' res' :: post ->
  Forall (fun e => is_backend e = false) mid ->
  Forall (harmless eval) (Log.evaluated mid) ->
  exists outs,
    length outs = length (requested m)
    /\ mid = concat (zip_with tool_events (requested m) outs)
    /\ req_messages req'
       = req_messages req ++ Assistant m :: zip_with tool_message (requested m) outs.
Proof.
  destruct 1 as [msg' | tl msg' | tl r tr o Hrun]; intros Heq Hq Hh.
  - destruct pre as [|? [|? ?]]; simplify_eq/=.
  - destruct pre as [|? [|? [|? ?]]]; simplify_eq/=; destruct mid; simplify_eq/=.
  - destruct pre as [|? pre]; simplify_eq/=.
    eapply run_rounds; eauto. reflexivity.
Qed.

Lemma query_run_final_reply query tr l' :
  query_run eval fuel query tr (Ok l') ->
  exists pre req m others,
    tr = pre ++ [EvBackend req (inr (m :: others))]
    /\ requested m = []
    /\ (Forall (harmless eval) (Log.evaluated tr) -> final_text l' = [content m]).
Proof.
  inversion 1 as [| | tl r tr' o Hrun]; subst.
  destruct (run_final_reply _ _ _ _ _ _ _ Hrun (first_request tl query))
    as (pre & req & m & others & Heq & Hm & Hft).
  exists (EvListTools (inr tl) :: pre), req, m, others.
  split_and!; [simpl; by rewrite Heq | exact Hm | exact Hft].
Qed.

End OpenAIQueries.

(** ** The log of a whole query *)

Section QueryLogs.
Context {W Content : Type}.

Lemma bedrock_run_query_log str_content list_tools call_tool invoke_model query
    (s : env W (event Bedrock.request Bedrock.response Content)) tr :
  trace (snd (Bedrock.run_query str_content list_tools call_tool invoke_model query s))
  = trace s ++ tr ->
  BedrockSem.query_run str_content query tr
    (fst (Bedrock.run_query str_content list_tools call_tool invoke_model query s)).
Proof.
  intros H.
  destruct (run_query_run str_content list_tools call_tool invoke_model query s)
    as (tr' & Htr & Hrun).
  cbn zeta in Htr, Hrun. rewrite Htr in H. apply app_inv_head in H. by subst.
Qed.

Lemma bedrock_query_log str_content list_tools call_tool invoke_model query
    (s : env W (event Bedrock.request Bedrock.response Content)) tr :
  trace (snd (Bedrock.process_query str_content list_tools call_tool invoke_model query s))
  = trace s ++ tr ->
  BedrockSem.query_run str_content query tr
    (fst (Bedrock.run_query str_content list_tools call_tool invoke_model query s)).
Proof.
  rewrite process_query_run_query. apply bedrock_run_query_log.
Qed.

Lemma openai_run_query_log eval list_tools call_tool create fuel query
    (s : env W (event (OpenAI.request Content) OpenAI.chat_response Content)) tr :
  trace (snd (OpenAI.run_query eval list_tools call_tool create fuel query s))
  = trace s ++ tr ->
  OpenAISem.query_run eval fuel query tr
    (fst (OpenAI.run_query eval list_tools call_tool create fuel query s)).
Proof.
  intros H.
  destruct (run_query_runB eval list_tools call_tool create fuel query s)
    as (tr' & Htr & Hrun).
  cbn zeta in Htr, Hrun. rewrite Htr in H. apply app_inv_head in H. by subst.
Qed.

Lemma openai_query_log eval list_tools call_tool create fuel query
    (s : env W (event (OpenAI.request Content) OpenAI.chat_response Content)) tr :
  trace (snd (OpenAI.process_query eval list_tools call_tool create fuel query s))
  = trace s ++ tr ->
  OpenAISem.query_run eval fuel query tr
    (fst (OpenAI.run_query eval list_tools call_tool create fuel query s)).
Proof.
  rewrite process_query_run_queryB. apply openai_run_query_log.
Qed.

Lemma join_one (o : option string) :
  OpenAI.join Py.nl [o]
  = match o with
    | Some text => Ok text
    | None => Raise (TypeError "sequence item 0: expected str instance, NoneType found")
    end.
Proof. by destruct o. Qed.

End QueryLogs.

(** Applies a statement about [process_query] to the run a scenario names. *)
Ltac at_bedrock H :=
  match goal with
  | |- context [Bedrock.process_query ?str ?lt ?ct ?im ?q ?s] =>
      eapply (H _ _ str lt ct im q s)
  | |- context [Bedrock.run_query ?str ?lt ?ct ?im ?q ?s] =>
      eapply (H _ _ str lt ct im q s)
  end.

Ltac at_openai H :=
  match goal with
  | |- context [OpenAI.process_query ?ev ?lt ?ct ?cr ?f ?q ?s] =>
      eapply (H _ _ ev lt ct cr f q s)
  | |- context [OpenAI.run_query ?ev ?lt ?ct ?cr ?f ?q ?s] =>
      eapply (H _ _ ev lt ct cr f q s)
  end.

(** The texts a scenario evaluates change nothing. *)
Ltac harmless_log :=
  match goal with
  | |- Forall ?P ?l => let l' := eval vm_compute in l in change (Forall P l')
  end;
  repeat constructor; intros f w; reflexivity.

Ltac scenario :=
  unfold Scenario.add_2_and_3_bedrock, Scenario.add_2_and_3_openai,
    Scenario.two_requests_bedrock, Scenario.two_requests_bedrock_run,
    Scenario.always_requests_bedrock, Scenario.unknown_tool_bedrock,
    Scenario.unknown_tool_openai, Scenario.text_and_call_openai,
    Scenario.two_calls_openai, Scenario.cleared_calls_openai,
    Scenario.injected_text_openai, Scenario.unknown_name_openai,
    Scenario.silent_reply_openai, Scenario.bedrock, Scenario.bedrock_run,
    Scenario.openai, Scenario.openai_run.

(** ** C1 *)

(** C1, amended.  In Variant B, when the arguments texts the query
    evaluates leave the variables of the client alone, the conversation
    sent with every backend call is well-formed: each tool request of an
    assistant message is followed at once by one tool message per
    request, with its id and in request order.  In Variant A this holds
    for the runs whose first reply holds at most one tool request. *)
Theorem tool_requests_answered_before_next_call :
  (forall (W Content : Type) eval list_tools call_tool create fuel query
          (s : env W (event (OpenAI.request Content) OpenAI.chat_response Content)) tr,
      trace (snd (OpenAI.process_query eval list_tools call_tool create fuel query s))
      = trace s ++ tr ->
      Forall (OpenAISem.harmless eval) (Log.evaluated tr) ->
      Forall (fun req => OpenAISem.well_formed req = true) (Log.requests tr))
  /\ (forall (W Content : Type) str_content list_tools call_tool invoke_model query
             (s : env W (event Bedrock.request Bedrock.response Content)) tr,
         trace (snd (Bedrock.process_query str_content list_tools call_tool
                       invoke_model query s))
         = trace s ++ tr ->
         length (BedrockSem.tool_uses (BedrockSem.first_items tr)) <= 1 ->
         Forall (fun req => BedrockSem.well_formed req = true) (Log.requests tr)).
Proof.
  split.
  - intros W Content eval list_tools call_tool create fuel query s tr H Hh.
    eapply query_run_well_formedB; [eapply openai_query_log, H | exact Hh].
  - intros W Content str_content list_tools call_tool invoke_model query s tr H Hk.
    eapply query_run_well_formed; [eapply bedrock_query_log, H | exact Hk].
Qed.

Lemma tool_requests_answered_witness :
  Forall (fun req => OpenAISem.well_formed req = true)
         (Log.requests (trace (snd Scenario.two_calls_openai)))
  /\ length (BedrockSem.tool_uses
               (BedrockSem.first_items (trace (snd Scenario.add_2_and_3_bedrock)))) <= 1
  /\ Forall (fun req => BedrockSem.well_formed req = true)
            (Log.requests (trace (snd Scenario.add_2_and_3_bedrock))).
Proof.
  destruct tool_requests_answered_before_next_call as [HB HA].
  split_and!.
  - scenario. at_openai HB; [reflexivity | harmless_log].
  - vm_compute. lia.
  - scenario. at_bedrock HA; [reflexivity | vm_compute; lia].
Defined.

(** C1 as stated fails in Variant A: with two tool requests in the first
    reply, the conversation sent with the third backend call has an
    assistant message with two requests followed by one result only. *)
Lemma second_tool_request_unanswered :
  ~ Forall (fun req => BedrockSem.well_formed req = true)
           (Log.requests (trace (snd Scenario.two_requests_bedrock))).
Proof.
  intros H.
  pose proof (Forall_lookup_1 _ _ 2 _ H eq_refl) as Hw.
  vm_compute in Hw. discriminate.
Qed.

(** ** C2 *)

(** C2, amended.  In both variants a tool call that raises ends
    [process_query] with that very error: the failed call is the last
    event of the run, so no tool result is appended and no further backend
    call is made. *)
Theorem tool_failure_aborts_query :
  (forall (W Content : Type) str_content list_tools call_tool invoke_model query
          (s : env W (event Bedrock.request Bedrock.response Content))
          pre n a msg post,
      trace (snd (Bedrock.process_query str_content list_tools call_tool
                    invoke_model query s))
      = trace s ++ pre ++ EvTool n a (inl msg) :: post ->
      post = []
      /\ fst (Bedrock.process_query str_content list_tools call_tool invoke_model query s)
         = Raise (ToolExecutionError msg))
  /\ (forall (W Content : Type) eval list_tools call_tool create fuel query
             (s : env W (event (OpenAI.request Content) OpenAI.chat_response Content))
             pre n a msg post,
         trace (snd (OpenAI.process_query eval list_tools call_tool create fuel query s))
         = trace s ++ pre ++ EvTool n a (inl msg) :: post ->
         post = []
         /\ fst (OpenAI.process_query eval list_tools call_tool create fuel query s)
            = Raise (ToolExecutionError msg)).
Proof.
  split.
  - intros W Content str_content list_tools call_tool invoke_model query s
           pre n a msg post H.
    apply bedrock_query_log in H.
    destruct (query_run_tool_failure _ _ _ _ _ _ _ _ _ H eq_refl) as [-> Ho].
    split; [reflexivity |]. rewrite process_query_run_query. cbn [fst].
    by rewrite Ho.
  - intros W Content eval list_tools call_tool create fuel query s pre n a msg post H.
    apply openai_query_log in H.
    destruct (query_run_tool_failureB _ _ _ _ _ _ _ _ _ _ H eq_refl) as [-> Ho].
    split; [reflexivity |]. rewrite process_query_run_queryB. cbn [fst].
    by rewrite Ho.
Qed.

Lemma tool_failure_aborts_query_witness :
  fst Scenario.unknown_tool_bedrock = Raise (ToolExecutionError "unknown tool")
  /\ fst Scenario.unknown_tool_openai = Raise (ToolExecutionError "unknown tool").
Proof.
  destruct tool_failure_aborts_query as [HA HB]. split.
  - scenario.
    match goal with
    | |- context [Bedrock.process_query ?str ?lt ?ct ?im ?q ?s] =>
        apply (HA _ _ str lt ct im q s
                 (firstn 2 (trace (snd (Bedrock.process_query str lt ct im q s))))
                 "add" Scenario.add_args "unknown tool" [])
    end.
    reflexivity.
  - scenario.
    match goal with
    | |- context [OpenAI.process_query ?ev ?lt ?ct ?cr ?f ?q ?s] =>
        apply (HB _ _ ev lt ct cr f q s
                 (firstn 3 (trace (snd (OpenAI.process_query ev lt ct cr f q s))))
                 "add" Scenario.add_args "unknown tool" [])
    end.
    reflexivity.
Defined.

(** C2 as stated fails in both variants: with a tool that raises, the
    query ends with the error after its one backend call, although the
    backend had a further reply ready. *)
Lemma tool_failure_not_folded :
  (fst Scenario.unknown_tool_bedrock = Raise (ToolExecutionError "unknown tool")
   /\ backend_calls (trace (snd Scenario.unknown_tool_bedrock)) = 1)
  /\ (fst Scenario.unknown_tool_openai = Raise (ToolExecutionError "unknown tool")
      /\ backend_calls (trace (snd Scenario.unknown_tool_openai)) = 1).
Proof. vm_compute. auto. Qed.

(** ** C3 *)

(** C3, amended.  In Variant A the answer is the newline-join of, for the
    items of the first reply in order, the text of a text item and, for a
    tool request, the line [[Calling tool <name> with args <args>]]
    followed by the leading text of the follow-up reply.  In Variant B,
    when the arguments texts the query evaluates leave the variables of
    the client alone, the answer is the text of the last reply, the one
    that asks for no tool. *)
Theorem answer_composition :
  (forall (W Content : Type) str_content list_tools call_tool invoke_model query
          (s : env W (event Bedrock.request Bedrock.response Content)) tr text,
      fst (Bedrock.process_query str_content list_tools call_tool invoke_model query s)
      = Ok text ->
      trace (snd (Bedrock.process_query str_content list_tools call_tool
                    invoke_model query s))
      = trace s ++ tr ->
      exists first follow_ups,
        Log.replies tr = first :: follow_ups
        /\ text = Py.join Py.nl
                    (BedrockSem.answer_lines (BedrockSem.items first) follow_ups))
  /\ (forall (W Content : Type) eval list_tools call_tool create fuel query
             (s : env W (event (OpenAI.request Content) OpenAI.chat_response Content))
             tr text,
         fst (OpenAI.process_query eval list_tools call_tool create fuel query s)
         = Ok text ->
         trace (snd (OpenAI.process_query eval list_tools call_tool create fuel query s))
         = trace s ++ tr ->
         Forall (OpenAISem.harmless eval) (Log.evaluated tr) ->
         exists pre req m others,
           tr = pre ++ [EvBackend req (inr (m :: others))]
           /\ OpenAISem.requested m = []
           /\ OpenAI.content m = Some text).
Proof.
  split.
  - intros W Content str_content list_tools call_tool invoke_model query s tr text Ho H.
    apply bedrock_query_log in H.
    rewrite process_query_run_query in Ho. cbn [fst] in Ho.
    destruct (fst (Bedrock.run_query _ _ _ _ _ _)) as [l | e |]; try discriminate.
    injection Ho as <-.
    destruct (query_run_answer _ _ _ _ H) as (first & follow_ups & Hr & Hf).
    exists first, follow_ups. by rewrite Hf.
  - intros W Content eval list_tools call_tool create fuel query s tr text Ho H Hh.
    apply openai_query_log in H.
    rewrite process_query_run_queryB in Ho. cbn [fst] in Ho.
    destruct (fst (OpenAI.run_query _ _ _ _ _ _ _)) as [res | e |]; try discriminate.
    destruct (query_run_final_reply _ _ _ _ _ H) as (pre & req & m & others & -> & Hm & Hft).
    exists pre, req, m, others. split_and!; [reflexivity | exact Hm |].
    rewrite (Hft Hh), join_one in Ho. destruct (OpenAI.content m); congruence.
Qed.

Lemma answer_composition_witness :
  (exists first follow_ups,
      Log.replies (trace (snd Scenario.add_2_and_3_bedrock)) = first :: follow_ups
      /\ "[Calling tool add with args {'a': 2, 'b': 3}]" +:+ Py.nl +:+ "5"
         = Py.join Py.nl (BedrockSem.answer_lines (BedrockSem.items first) follow_ups))
  /\ (exists pre req m others,
         trace (snd Scenario.text_and_call_openai)
         = pre ++ [EvBackend req (inr (m :: others))]
         /\ OpenAISem.requested m = []
         /\ OpenAI.content m = Some "5").
Proof.
  destruct answer_composition as [HA HB]. split.
  - scenario. at_bedrock HA; reflexivity.
  - scenario. at_openai HB; [reflexivity | reflexivity | harmless_log].
Defined.

(** C3 as stated fails in both variants.  Variant A adds the marker line
    of a tool request to the answer; Variant B leaves out the text that a
    reply carries next to its tool calls. *)
Lemma answer_is_not_emitted_text :
  fst Scenario.add_2_and_3_bedrock
  <> Ok (Py.join Py.nl (BedrockSem.emitted_text (trace (snd Scenario.add_2_and_3_bedrock))))
  /\ fst Scenario.text_and_call_openai
     <> Ok (Py.join Py.nl (OpenAISem.emitted_text (trace (snd Scenario.text_and_call_openai)))).
Proof. vm_compute. split; discriminate. Qed.

(** ** C9 *)

(** C9, amended.  A [process_query] of Variant A always ends.  It makes at
    most [1 + k] backend calls and at most [k] tool calls, [k] being the
    number of tool requests in the first reply, and exactly that many when
    it returns an answer.  The tool calls it makes are those of the first
    reply, in order; what a later reply asks for is never dispatched. *)
Theorem bedrock_backend_calls_bounded :
  forall (W Content : Type) str_content list_tools call_tool invoke_model query
         (s : env W (event Bedrock.request Bedrock.response Content)) tr,
    trace (snd (Bedrock.process_query str_content list_tools call_tool
                  invoke_model query s))
    = trace s ++ tr ->
    let r := Bedrock.process_query str_content list_tools call_tool invoke_model query s in
    let k := length (BedrockSem.tool_uses (BedrockSem.first_items tr)) in
    fst r <> Timeout
    /\ backend_calls tr <= 1 + k
    /\ tool_calls_made tr <= k
    /\ Log.dispatched tr `prefix_of` BedrockSem.calls_of (BedrockSem.first_items tr)
    /\ (forall text, fst r = Ok text ->
        backend_calls tr = 1 + k
        /\ tool_calls_made tr = k
        /\ Log.dispatched tr = BedrockSem.calls_of (BedrockSem.first_items tr)).
Proof.
  intros W Content str_content list_tools call_tool invoke_model query s tr H r k.
  subst r k. apply bedrock_query_log in H.
  rewrite process_query_run_query. cbn [fst].
  destruct (query_run_bounds _ _ _ _ H) as (Hb & Ht & Hp).
  split_and!; try assumption.
  - apply query_run_ends in H.
    destruct (fst (Bedrock.run_query _ _ _ _ _ _)); congruence.
  - intros text Ho.
    destruct (fst (Bedrock.run_query _ _ _ _ _ _)) as [l | e |]; try discriminate.
    by apply (query_run_ok_counts _ _ _ _ H).
Qed.

Lemma bedrock_backend_calls_bounded_witness :
  backend_calls (trace (snd Scenario.two_requests_bedrock)) = 3
  /\ tool_calls_made (trace (snd Scenario.two_requests_bedrock)) = 2.
Proof.
  assert (H : fst Scenario.two_requests_bedrock
              = Ok ("[Calling tool add with args {'a': 2, 'b': 3}]" +:+ Py.nl +:+ "5"
                    +:+ Py.nl +:+ "[Calling tool add with args {'a': 2, 'b': 3}]"
                    +:+ Py.nl +:+ "five")) by reflexivity.
  revert H. scenario. intros H.
  match goal with
  | |- context [Bedrock.process_query ?str ?lt ?ct ?im ?q ?s] =>
      destruct (bedrock_backend_calls_bounded _ _ str lt ct im q s _ eq_refl)
        as (_ & _ & _ & _ & Hok)
  end.
  destruct (Hok _ H) as (Hb & Ht & _). split; [exact Hb | exact Ht].
Defined.

(** C9 as stated fails: against a backend that asks for two tools in every
    reply, the follow-up reply has no leading text, the subscript raises
    and the second tool request of the first reply is never reached: two
    backend calls, not three. *)
Lemma bedrock_fewer_calls_than_requests :
  let tr := trace (snd Scenario.always_requests_bedrock) in
  fst Scenario.always_requests_bedrock = Raise (KeyError "text")
  /\ backend_calls tr = 2
  /\ 1 + length (BedrockSem.tool_uses (BedrockSem.first_items tr)) = 3.
Proof. vm_compute. auto. Qed.

(** ** C4 *)

Section FirstReply.
Context {W Content : Type}.

Lemma ask_ok {Req Resp A : Type} (oracle : W -> (string + A) * W)
    (record : string + A -> event Req Resp Content) failure
    (s : env W (event Req Resp Content)) a w :
  oracle (world s) = (inr a, w) ->
  ask oracle record failure s = (Ok a, Env w (trace s ++ [record (inr a)])).
Proof. intros H. unfold ask. by rewrite H. Qed.

(** Without a tool request the loop of Variant A touches nothing outside. *)
Lemma for_content_no_tool_use (str_content : Content -> string) call_tool invoke_model
    tools its : forall l (s : env W (event Bedrock.request Bedrock.response Content)),
  BedrockSem.tool_uses its = [] ->
  Bedrock.for_content str_content call_tool invoke_model tools its l s
  = (Ok (Bedrock.Locals (Bedrock.messages l)
           (Bedrock.assistant_message_content l ++ map Bedrock.Text (BedrockSem.texts its))
           (Bedrock.final_text l ++ BedrockSem.texts its)), s).
Proof.
  induction its as [|[t | i n a | ty] its IH]; intros l s Hn; simpl in *.
  - rewrite !app_nil_r. by destruct l.
  - rewrite IH by exact Hn. simpl. by rewrite <- !app_assoc.
  - discriminate.
  - by apply IH.
Qed.

End FirstReply.

(** C4, amended.  In Variant B a reply without tool calls is the last
    event of a run; when the first reply is such a one, the query makes
    one backend call and no tool call, and it returns the text of the
    reply, or raises the [TypeError] of [join] when the reply has no
    text.  In Variant A a first reply without tool requests likewise gives
    one backend call, no tool call and the newline-join of its text items. *)
Theorem stops_without_tool_requests :
  (forall (W Content : Type) eval list_tools call_tool create fuel query
          (s : env W (event (OpenAI.request Content) OpenAI.chat_response Content))
          pre req m others post,
      trace (snd (OpenAI.process_query eval list_tools call_tool create fuel query s))
      = trace s ++ pre ++ EvBackend req (inr (m :: others)) :: post ->
      OpenAISem.requested m = [] ->
      post = [])
  /\ (forall (W Content : Type) eval list_tools call_tool create fuel query
             (s : env W (event (OpenAI.request Content) OpenAI.chat_response Content))
             tl w1 m others w2,
         list_tools (world s) = (inr tl, w1) ->
         create (OpenAISem.first_request tl query) w1 = (inr (m :: others), w2) ->
         OpenAISem.requested m = [] ->
         OpenAI.process_query eval list_tools call_tool create (S fuel) query s
         = (match OpenAI.content m with
            | Some text => Ok text
            | None =>
                Raise (TypeError "sequence item 0: expected str instance, NoneType found")
            end,
            Env w2 (trace s ++ [EvListTools (inr tl);
                                EvBackend (OpenAISem.first_request tl query)
                                          (inr (m :: others))])))
  /\ (forall (W Content : Type) (str_content : Content -> string)
             list_tools call_tool invoke_model query
             (s : env W (event Bedrock.request Bedrock.response Content))
             tl w1 reply w2,
         list_tools (world s) = (inr tl, w1) ->
         invoke_model (BedrockSem.first_request tl query) w1 = (inr reply, w2) ->
         BedrockSem.tool_uses (BedrockSem.items reply) = [] ->
         Bedrock.process_query str_content list_tools call_tool invoke_model query s
         = (Ok (Py.join Py.nl (BedrockSem.texts (BedrockSem.items reply))),
            Env w2 (trace s ++ [EvListTools (inr tl);
                                EvBackend (BedrockSem.first_request tl query)
                                          (inr reply)]))).
Proof.
  split_and!.
  - intros W Content eval list_tools call_tool create fuel query s
           pre req m others post H Hm.
    apply openai_query_log in H. by eapply query_run_stops.
  - intros W Content eval list_tools call_tool create fuel query s
           tl w1 m others w2 Hl Hc Hm.
    unfold OpenAI.process_query, OpenAI.run_query, bind, OpenAI.completions.
    cbv beta. rewrite (ask_ok _ _ _ _ _ _ Hl).
    cbn [OpenAI.messages OpenAI.tools].
    rewrite (ask_ok _ _ _ (Env w1 _) _ _ Hc). cbn [trace world].
    unfold OpenAISem.requested in Hm. simpl. unfold bind. simpl.
    destruct (OpenAI.tool_calls m) as [[|tc tcs]|]; try discriminate;
      simpl; unfold lift; rewrite join_one, <- app_assoc;
      by destruct (OpenAI.content m).
  - intros W Content str_content list_tools call_tool invoke_model query s
           tl w1 reply w2 Hl Hi Hn.
    unfold Bedrock.process_query, Bedrock.run_query, bind, Bedrock.invoke.
    cbv beta. rewrite (ask_ok _ _ _ _ _ _ Hl).
    rewrite (ask_ok _ _ _ (Env w1 _) _ _ Hi). cbn [trace world].
    fold (BedrockSem.items reply).
    rewrite for_content_no_tool_use by exact Hn. simpl.
    rewrite <- app_assoc. reflexivity.
Qed.

Lemma stops_without_tool_requests_witness :
  Scenario.process_query_plain 1 "hello" (Env tt [])
  = (Ok "Hello.",
     Env tt [EvListTools (inr [Scenario.add_tool]);
             EvBackend (OpenAISem.first_request [Scenario.add_tool] "hello")
                       (inr [OpenAI.ChatMessage (Some "Hello.") None])])
  /\ Scenario.bedrock Scenario.add_stub [[Bedrock.Text "Hello."; Bedrock.Text "Bye."]] "hello"
     = (Ok ("Hello." +:+ Py.nl +:+ "Bye."),
        Env [] [EvListTools (inr [Scenario.add_tool]);
                EvBackend (BedrockSem.first_request [Scenario.add_tool] "hello")
                          (inr (Bedrock.Response
                                  (Some [Bedrock.Text "Hello."; Bedrock.Text "Bye."])))])
  /\ drop 5 (trace (snd (Scenario.add_2_and_3_openai 5))) = []
  /\ fst (Scenario.openai Scenario.add_stub [OpenAI.ChatMessage None None] 5 "hello")
     = Raise (TypeError "sequence item 0: expected str instance, NoneType found").
Proof.
  destruct stops_without_tool_requests as (Hstop & HB & HA). split_and!.
  - unfold Scenario.process_query_plain.
    apply (HB unit Py.value _ _ _ _ 0 "hello" (Env tt []) [Scenario.add_tool] tt
              (OpenAI.ChatMessage (Some "Hello.") None) [] tt);
      reflexivity.
  - unfold Scenario.bedrock.
    eapply (HA _ Py.value Py.str _ _ _ "hello" (Scenario.start _) [Scenario.add_tool] _
              (Bedrock.Response (Some [Bedrock.Text "Hello."; Bedrock.Text "Bye."])) []);
      reflexivity.
  - scenario.
    match goal with
    | |- context [OpenAI.process_query ?ev ?lt ?ct ?cr ?f ?q ?s] =>
        eapply (Hstop _ _ ev lt ct cr f q s
                  (take 4 (trace (snd (OpenAI.process_query ev lt ct cr f q s)))))
    end; reflexivity.
  - unfold Scenario.openai.
    match goal with
    | |- context [OpenAI.process_query ?ev ?lt ?ct ?cr _ ?q ?s] =>
        rewrite (HB _ _ ev lt ct cr 4 q s [Scenario.add_tool] _
                   (OpenAI.ChatMessage None None) [] [] eq_refl eq_refl eq_refl)
    end.
    reflexivity.
Defined.

(** C4 as stated fails in Variant A: after a first reply with two tool
    requests, the second reply holds text only, and yet the run goes on
    with a tool call and a third backend call. *)
Lemma bedrock_continues_after_plain_reply :
  exists req reply,
    trace (snd Scenario.two_requests_bedrock) !! 3 = Some (EvBackend req (inr reply))
    /\ BedrockSem.tool_uses (BedrockSem.items reply) = []
    /\ tool_calls_made (drop 4 (trace (snd Scenario.two_requests_bedrock))) = 1
    /\ backend_calls (drop 4 (trace (snd Scenario.two_requests_bedrock))) = 1.
Proof. do 2 eexists. split_and!; reflexivity. Qed.

(** ** C5 *)

(** C5, amended.  In the scenario of the specification both variants make
    two backend calls and one tool call.  Variant B returns ["5"]; Variant
    A returns the marker line of the tool request, a newline and ["5"]. *)
Theorem add_scenario_calls_and_answers (fuel : nat) :
  (fst (Scenario.add_2_and_3_openai (2 + fuel)) = Ok "5"
   /\ backend_calls (trace (snd (Scenario.add_2_and_3_openai (2 + fuel)))) = 2
   /\ tool_calls_made (trace (snd (Scenario.add_2_and_3_openai (2 + fuel)))) = 1)
  /\ (fst Scenario.add_2_and_3_bedrock
      = Ok ("[Calling tool add with args {'a': 2, 'b': 3}]" +:+ Py.nl +:+ "5")
      /\ backend_calls (trace (snd Scenario.add_2_and_3_bedrock)) = 2
      /\ tool_calls_made (trace (snd Scenario.add_2_and_3_bedrock)) = 1).
Proof. split_and!; reflexivity. Qed.

(** C5 as stated fails in Variant A: the answer is not ["5"]. *)
Lemma bedrock_add_answer_has_marker :
  fst Scenario.add_2_and_3_bedrock <> Ok "5".
Proof. vm_compute. discriminate. Qed.

(** ** C6 *)

(** C6, amended.  In Variant B, when the arguments texts evaluated
    between a reply and the backend call that follows it leave the
    variables of the client alone, the log holds there, for each tool
    call of the reply, all of them and in the order of the reply, the
    evaluation of its arguments and the call of the tool with the value
    this gave, and nothing else; the conversation sent with that next
    call is the one sent before, then the reply, then one tool message
    per call in the same order.  This holds for every number of tool
    calls, two or more included.  A run that returns an answer cannot
    skip the round: a reply with tool calls is always followed by a
    further backend call. *)
Theorem simultaneous_tool_calls_dispatched_in_order :
  forall (W Content : Type) eval list_tools call_tool create fuel query
         (s : env W (event (OpenAI.request Content) OpenAI.chat_response Content))
         pre req m others,
    (forall mid req' res' post,
        trace (snd (OpenAI.process_query eval list_tools call_tool create fuel query s))
        = trace s ++ pre ++ EvBackend req (inr (m :: others))
                            :: mid ++ EvBackend req' res' :: post ->
        backend_calls mid = 0 ->
        Forall (OpenAISem.harmless eval) (Log.evaluated mid) ->
        exists outs,
          length outs = length (OpenAISem.requested m)
          /\ mid = concat (zip_with OpenAISem.tool_events (OpenAISem.requested m) outs)
          /\ OpenAI.req_messages req'
             = OpenAI.req_messages req
               ++ OpenAI.Assistant m
                  :: zip_with OpenAISem.tool_message (OpenAISem.requested m) outs)
    /\ (forall post text,
           trace (snd (OpenAI.process_query eval list_tools call_tool create fuel query s))
           = trace s ++ pre ++ EvBackend req (inr (m :: others)) :: post ->
           fst (OpenAI.process_query eval list_tools call_tool create fuel query s)
           = Ok text ->
           OpenAISem.requested m <> [] ->
           backend_calls post <> 0).
Proof.
  intros W Content eval list_tools call_tool create fuel query s pre req m others.
  split.
  - intros mid req' res' post H Hq Hh.
    apply openai_query_log in H. apply quiet_backend_calls in Hq.
    by eapply query_run_rounds.
  - intros post text H Ho Hm Hq.
    apply openai_query_log in H. apply quiet_backend_calls in Hq.
    rewrite process_query_run_queryB in Ho. cbn [fst] in Ho.
    destruct (fst (OpenAI.run_query _ _ _ _ _ _ _)) as [res | e |]; try discriminate.
    destruct (query_run_final_reply _ _ _ _ _ H)
      as (pre' & req' & m' & others' & Heq & Hm' & _).
    change (pre' ++ [EvBackend req' (inr (m' :: others'))])
      with (pre' ++ EvBackend req' (inr (m' :: others')) :: []) in Heq.
    symmetry in Heq. apply app_eq_inv in Heq as [(k & -> & Hk) | (k & -> & Hk)].
    + destruct k as [|e k]; simplify_eq/=.
      apply Forall_app in Hq as [_ Hq]. inversion Hq; discriminate.
    + destruct k as [|e [|e' k]]; simplify_eq/=.
Qed.

Lemma simultaneous_tool_calls_witness :
  exists outs req',
    Log.requests (trace (snd Scenario.two_calls_openai)) !! 1 = Some req'
    /\ length outs = 2
    /\ OpenAI.req_messages req'
       = [OpenAI.UserQuery "add twice";
          OpenAI.Assistant
            (OpenAI.ChatMessage None
               (Some [Scenario.call_add "call_1"; Scenario.call_add "call_2"]))]
         ++ zip_with OpenAISem.tool_message
              [Scenario.call_add "call_1"; Scenario.call_add "call_2"] outs.
Proof.
  pose (tr := trace (snd Scenario.two_calls_openai)).
  assert (Hsplit : exists req m mid req' res',
             tr = [] ++ take 1 tr ++ EvBackend req (inr [m]) :: mid
                                  ++ EvBackend req' res' :: []
             /\ backend_calls mid = 0
             /\ Log.evaluated mid = ["{'a': 2, 'b': 3}"; "{'a': 2, 'b': 3}"]
             /\ OpenAISem.requested m
                = [Scenario.call_add "call_1"; Scenario.call_add "call_2"]
             /\ OpenAI.req_messages req = [OpenAI.UserQuery "add twice"]
             /\ m = OpenAI.ChatMessage None
                      (Some [Scenario.call_add "call_1"; Scenario.call_add "call_2"])
             /\ Log.requests tr !! 1 = Some req').
  { eexists _, _, [_; _; _; _], _, _. split_and!; reflexivity. }
  destruct Hsplit as (req & m & mid & req' & res' & Htr & Hq & He & Hm & Hreq & Hmsg & Hr).
  subst tr. revert Htr. scenario. intros Htr.
  match type of Htr with
  | context [OpenAI.process_query ?ev ?lt ?ct ?cr ?f ?q ?s] =>
      destruct (simultaneous_tool_calls_dispatched_in_order
                  _ _ ev lt ct cr f q s
                  (take 1 (trace (snd (OpenAI.process_query ev lt ct cr f q s))))
                  req m []) as [Hrounds _]
  end.
  destruct (Hrounds _ _ _ _ Htr Hq) as (outs & Hlen & _ & Hsent).
  { rewrite He. repeat constructor; intros f w; reflexivity. }
  exists outs, req'. split_and!; [exact Hr | by rewrite Hlen, Hm |].
  rewrite Hsent, Hreq. subst m. reflexivity.
Defined.

(** C6 as stated fails: the arguments are evaluated by [eval] inside
    [process_query], and a text can change what the loop walks.  When the
    arguments of the first of two tool calls empty the list of tool calls
    of the reply, the second call is never dispatched: the next backend
    call follows at once, with one tool message, and the query returns. *)
Lemma cleared_tool_calls_skip_a_call :
  let tr := trace (snd Scenario.cleared_calls_openai) in
  exists req m req' res',
    tr !! 1 = Some (EvBackend req (inr [m]))
    /\ tr !! 4 = Some (EvBackend req' res')
    /\ length (OpenAISem.requested m) = 2
    /\ Log.dispatched (take 2 (drop 2 tr)) = [("add", Scenario.add_args)]
    /\ OpenAI.req_messages req'
       = [OpenAI.UserQuery "add twice";
          OpenAI.Assistant (OpenAI.ChatMessage None (Some []));
          OpenAI.ToolMessage "call_1" "add" (Py.VInt 5)]
    /\ fst Scenario.cleared_calls_openai = Ok "5".
Proof. do 4 eexists. split_and!; reflexivity. Qed.

(** ** C7 *)

(** C7, amended.  In both variants the list of messages only grows: every
    observation of the conversation (at the backend calls and at the end)
    extends the observation before it, the contents of the assistant
    messages of Variant A left aside; in Variant B this is so when the
    arguments texts the query evaluates leave the variables of the client
    alone, and then the messages, contents included, never change once
    appended.  In Variant A they never change in the runs where only
    inert items follow the first tool request of the first reply. *)
Theorem history_append_only :
  (forall (W Content : Type) eval list_tools call_tool create fuel query
          (s : env W (event (OpenAI.request Content) OpenAI.chat_response Content)) tr,
      trace (snd (OpenAI.run_query eval list_tools call_tool create fuel query s))
      = trace s ++ tr ->
      Forall (OpenAISem.harmless eval) (Log.evaluated tr) ->
      Log.growing
        (OpenAISem.observations tr
           (fst (OpenAI.run_query eval list_tools call_tool create fuel query s))))
  /\ (forall (W Content : Type) str_content list_tools call_tool invoke_model query
             (s : env W (event Bedrock.request Bedrock.response Content)) tr,
         trace (snd (Bedrock.run_query str_content list_tools call_tool
                       invoke_model query s))
         = trace s ++ tr ->
         let o := fst (Bedrock.run_query str_content list_tools call_tool
                         invoke_model query s) in
         Log.growing (map (map BedrockSem.envelope) (BedrockSem.observations tr o))
         /\ (BedrockSem.ends_at_first_tool_use (BedrockSem.first_items tr) = true ->
             Log.growing (BedrockSem.observations tr o))).
Proof.
  split.
  - intros W Content eval list_tools call_tool create fuel query s tr H Hh.
    eapply query_run_growingB; [eapply openai_run_query_log, H | exact Hh].
  - intros W Content str_content list_tools call_tool invoke_model query s tr H o.
    subst o. eapply query_run_growing, bedrock_run_query_log, H.
Qed.

Lemma history_append_only_witness :
  Log.growing
    (BedrockSem.observations
       (trace (snd (Scenario.bedrock_run Scenario.add_stub
                      [[Bedrock.Text "Adding."; Scenario.use_add "call_1"];
                       [Bedrock.Text "5"]] "add 2 and 3")))
       (fst (Scenario.bedrock_run Scenario.add_stub
               [[Bedrock.Text "Adding."; Scenario.use_add "call_1"];
                [Bedrock.Text "5"]] "add 2 and 3")))
  /\ Log.growing
       (OpenAISem.observations
          (trace (snd (Scenario.openai_run Scenario.add_stub
                         [OpenAI.ChatMessage None (Some [Scenario.call_add "call_1"]);
                          OpenAI.ChatMessage (Some "5") None] 5 "add 2 and 3")))
          (fst (Scenario.openai_run Scenario.add_stub
                  [OpenAI.ChatMessage None (Some [Scenario.call_add "call_1"]);
                   OpenAI.ChatMessage (Some "5") None] 5 "add 2 and 3"))).
Proof.
  destruct history_append_only as [HB HA]. split.
  - scenario. at_bedrock HA; reflexivity.
  - scenario. at_openai HB; [reflexivity | harmless_log].
Defined.

(** C7 as stated fails in Variant A: with two tool requests in the first
    reply, the assistant message sent with the second backend call holds
    one request and the same message holds two at the third call. *)
Lemma assistant_message_mutated :
  ~ Log.growing
      (BedrockSem.observations (trace (snd Scenario.two_requests_bedrock_run))
                               (fst Scenario.two_requests_bedrock_run)).
Proof.
  intros H. vm_compute in H.
  destruct H as (_ & [k Hk] & _). discriminate.
Qed.

(** ** C8 *)

(** C8.  The catalog adapters map descriptor by descriptor.  For [N]
    descriptors Variant A gives [N] dicts with the keys [name],
    [description], [input_schema], Variant B gives [N] dicts
    [{type: "function", function: {name, description, parameters}}], and
    reading the names and descriptions back gives those of the
    descriptors, in order. *)
Theorem catalog_round_trip (tools more : list tool) :
  length (Bedrock.available_tools tools) = length tools
  /\ length (OpenAI.available_tools tools) = length tools
  /\ Forall (fun e => Py.keys e = ["name"; "description"; "input_schema"])
            (Bedrock.available_tools tools)
  /\ Forall (fun e => Py.keys e = ["type"; "function"]
                      /\ Py.getitem "type" e = Some (Py.VStr "function")
                      /\ exists f, Py.getitem "function" e = Some f
                                   /\ Py.keys f = ["name"; "description"; "parameters"])
            (OpenAI.available_tools tools)
  /\ map Catalog.read_bedrock (Bedrock.available_tools tools)
     = map (fun t => Some (Catalog.descriptor t)) tools
  /\ map Catalog.read_openai (OpenAI.available_tools tools)
     = map (fun t => Some (Catalog.descriptor t)) tools
  /\ Bedrock.available_tools (tools ++ more)
     = Bedrock.available_tools tools ++ Bedrock.available_tools more
  /\ OpenAI.available_tools (tools ++ more)
     = OpenAI.available_tools tools ++ OpenAI.available_tools more.
Proof.
  unfold Bedrock.available_tools, OpenAI.available_tools.
  split_and!.
  - apply length_map.
  - apply length_map.
  - apply Forall_map, Forall_true. reflexivity.
  - apply Forall_map, Forall_true. intros t. simpl. split_and!; try reflexivity.
    eexists. split; reflexivity.
  - rewrite map_map. apply map_ext. intros [n [d|] sch]; reflexivity.
  - rewrite map_map. apply map_ext. intros [n [d|] sch]; reflexivity.
  - apply map_app.
  - apply map_app.
Qed.

(** ** C10 *)

Section ChatLoop.
Context {W Req Resp Content : Type}.
Implicit Types (tr : list (event Req Resp Content)) (s : env W (event Req Resp Content)).

Lemma queries_app tr1 tr2 :
  Chat.queries (tr1 ++ tr2) = Chat.queries tr1 ++ Chat.queries tr2.
Proof.
  induction tr1 as [|[] tr1 IH]; simpl; rewrite ?IH; reflexivity.
Qed.

Lemma catalog_fetches_app tr1 tr2 :
  Trail.catalog_fetches (tr1 ++ tr2)
  = Trail.catalog_fetches tr1 + Trail.catalog_fetches tr2.
Proof.
  unfold Trail.catalog_fetches. rewrite List.filter_app, length_app. reflexivity.
Qed.

Lemma is_quit_true q : Chat.is_quit q = true <-> Py.lower q = "quit".
Proof. apply String.eqb_eq. Qed.

Lemma is_quit_false q : Chat.is_quit q = false <-> Py.lower q <> "quit".
Proof. apply String.eqb_neq. Qed.

Variable process_query : string -> M (env W (event Req Resp Content)) string.

(** One turn of the loop, spelled out. *)
Lemma while_true_step line stdin s :
  Chat.while_true process_query (line :: stdin) s
  = if Chat.is_quit (Py.strip line)
    then (Ok tt, Env (world s) (trace s ++ [EvPrint (Py.nl +:+ "Query: ")]))
    else
      let r := process_query (Py.strip line) (Chat.asked line s) in
      match Chat.reported (fst r) with
      | Some text =>
          Chat.while_true process_query stdin
            (Env (world (snd r)) (trace (snd r) ++ [EvPrint text]))
      | None => (match fst r with Raise e => Raise e | _ => Timeout end, snd r)
      end.
Proof.
  cbn [Chat.while_true]. unfold bind, log, try_except, ret, Chat.asked.
  cbn [world trace].
  destruct (Chat.is_quit (Py.strip line)); [reflexivity |]. cbv beta zeta.
  cbn [world trace]. rewrite <- app_assoc. cbn [app].
  destruct (process_query _ _) as [[response | e |] s2]; cbn [fst snd Chat.reported];
    try reflexivity.
  destruct (is_exception e); reflexivity.
Qed.

Lemma chat_loop_started stdin s :
  Chat.chat_loop process_query stdin s
  = Chat.while_true process_query stdin (Chat.started s).
Proof.
  unfold Chat.chat_loop, Chat.started, bind, log. cbn [world trace].
  by rewrite <- app_assoc.
Qed.

(** When the queries of the lines before the sentinel end one after the
    other, the loop runs them, each once and in order, and ends at the
    sentinel. *)
Lemma turns_quit pre s s' line rest :
  Chat.turns process_query pre s s' ->
  Forall (fun l => Py.lower (Py.strip l) <> "quit") pre ->
  Py.lower (Py.strip line) = "quit" ->
  Chat.while_true process_query (pre ++ line :: rest) s
  = (Ok tt, Env (world s') (trace s' ++ [EvPrint (Py.nl +:+ "Query: ")])).
Proof.
  intros Ht Hpre Hline.
  induction Ht as [s | l lines s o s1 text s' Hq Hr _ IH]; cbn [app].
  - rewrite while_true_step. apply is_quit_true in Hline. by rewrite Hline.
  - inversion Hpre as [|? ? Hl Hpre']; subst.
    rewrite while_true_step. apply is_quit_false in Hl. rewrite Hl. cbn zeta.
    rewrite Hq. cbn [fst snd]. rewrite Hr. by apply IH.
Qed.

Lemma turns_exist pre :
  (forall q s, exists text, Chat.reported (fst (process_query q s)) = Some text) ->
  forall s, exists s', Chat.turns process_query pre s s'.
Proof.
  intros Hrep. induction pre as [|line pre IH]; intros s.
  - exists s. constructor.
  - destruct (Hrep (Py.strip line) (Chat.asked line s)) as [text Ht].
    destruct (process_query (Py.strip line) (Chat.asked line s)) as [o s1] eqn:Hq.
    destruct (IH (Env (world s1) (trace s1 ++ [EvPrint text]))) as [s' Hs'].
    exists s'. econstructor; eauto.
Qed.

Hypothesis process_query_log :
  forall q s, exists tr,
    trace (snd (process_query q s)) = trace s ++ tr
    /\ Chat.queries tr = [] /\ Trail.catalog_fetches tr = 1.

Lemma turns_log pre s s' :
  Chat.turns process_query pre s s' ->
  Chat.queries (trace s') = Chat.queries (trace s) ++ map Py.strip pre
  /\ Trail.catalog_fetches (trace s') = Trail.catalog_fetches (trace s) + length pre.
Proof.
  induction 1 as [s | l lines s o s1 text s' Hq Hr _ [IHq IHc]].
  - simpl. rewrite app_nil_r. split; [reflexivity | lia].
  - destruct (process_query_log (Py.strip l) (Chat.asked l s)) as (tr & Htr & Hnq & Hnc).
    rewrite Hq in Htr. cbn [snd] in Htr.
    rewrite IHq, IHc. cbn [trace]. rewrite Htr. unfold Chat.asked. cbn [trace].
    rewrite !queries_app, !catalog_fetches_app, Hnq, Hnc. simpl.
    rewrite !app_nil_r, <- app_assoc. split; [reflexivity |].
    unfold Trail.catalog_fetches. simpl. lia.
Qed.

Lemma chat_loop_quit pre line rest s s' :
  Chat.turns process_query pre (Chat.started s) s' ->
  Forall (fun l => Py.lower (Py.strip l) <> "quit") pre ->
  Py.lower (Py.strip line) = "quit" ->
  let r := Chat.chat_loop process_query (pre ++ line :: rest) s in
  r = (Ok tt, Env (world s') (trace s' ++ [EvPrint (Py.nl +:+ "Query: ")]))
  /\ Chat.queries (trace (snd r)) = Chat.queries (trace s) ++ map Py.strip pre
  /\ Trail.catalog_fetches (trace (snd r)) = Trail.catalog_fetches (trace s) + length pre.
Proof.
  intros Ht Hpre Hline r. subst r.
  rewrite chat_loop_started, (turns_quit _ _ _ _ _ Ht Hpre Hline).
  destruct (turns_log _ _ _ Ht) as [Hq Hc]. cbn [snd trace].
  rewrite queries_app, catalog_fetches_app, Hq, Hc. unfold Chat.started. cbn [trace].
  rewrite queries_app, catalog_fetches_app. simpl. rewrite !app_nil_r.
  split_and!; [reflexivity | reflexivity |]. unfold Trail.catalog_fetches. simpl. lia.
Qed.

End ChatLoop.

Section QuietQueries.
Context {W Content : Type}.

Lemma bedrock_run_quiet (str_content : Content -> string) tools its l tr o :
  BedrockSem.run str_content tools its l tr o ->
  Chat.queries tr = [] /\ Trail.catalog_fetches tr = 0.
Proof. induction 1; simpl; auto. Qed.

(** The exceptions a run of Variant A ends with are all [Exception]s. *)
Lemma bedrock_run_raises (str_content : Content -> string) tools its l tr o :
  BedrockSem.run str_content tools its l tr o ->
  forall e, o = Raise e -> is_exception e = true.
Proof.
  induction 1 as [| | | | | i n a rest l res reply e' Hf |]; intros e Ho;
    try discriminate; try (injection Ho as <-; reflexivity); auto.
  injection Ho as <-. unfold Bedrock.first_text in Hf.
  destruct (Bedrock.content reply) as [[|[] ?]|]; simplify_eq/=; reflexivity.
Qed.

Lemma bedrock_process_query_quiet (str_content : Content -> string)
    list_tools call_tool invoke_model query
    (s : env W (event Bedrock.request Bedrock.response Content)) :
  exists tr,
    trace (snd (Bedrock.process_query str_content list_tools call_tool
                  invoke_model query s)) = trace s ++ tr
    /\ Chat.queries tr = [] /\ Trail.catalog_fetches tr = 1.
Proof.
  rewrite process_query_run_query. cbn [snd].
  destruct (run_query_run str_content list_tools call_tool invoke_model query s)
    as (tr & Htr & Hrun).
  exists tr. split; [exact Htr |].
  destruct Hrun as [| | tl reply tr o Hrun]; simpl; auto.
  apply bedrock_run_quiet in Hrun as [-> Hc]. unfold Trail.catalog_fetches in *.
  simpl. by rewrite Hc.
Qed.

Lemma bedrock_process_query_ends (str_content : Content -> string)
    list_tools call_tool invoke_model query
    (s : env W (event Bedrock.request Bedrock.response Content)) :
  fst (Bedrock.process_query str_content list_tools call_tool invoke_model query s)
  <> Timeout.
Proof.
  rewrite process_query_run_query. cbn [fst].
  destruct (run_query_run str_content list_tools call_tool invoke_model query s)
    as (tr & _ & Hrun).
  apply query_run_ends in Hrun. cbn zeta in Hrun.
  destruct (fst (Bedrock.run_query _ _ _ _ _ _)); congruence.
Qed.

(** A query of Variant A ends with an answer or an [Exception]. *)
Lemma bedrock_process_query_reported (str_content : Content -> string)
    list_tools call_tool invoke_model query
    (s : env W (event Bedrock.request Bedrock.response Content)) :
  exists text,
    Chat.reported
      (fst (Bedrock.process_query str_content list_tools call_tool invoke_model query s))
    = Some text.
Proof.
  pose proof (bedrock_process_query_ends str_content list_tools call_tool
                invoke_model query s) as Hend.
  revert Hend. rewrite process_query_run_query. cbn [fst].
  destruct (run_query_run str_content list_tools call_tool invoke_model query s)
    as (tr & _ & Hrun). cbn zeta in Hrun.
  destruct (fst (Bedrock.run_query _ _ _ _ _ _)) as [l | e |]; intros Hend.
  - by eexists.
  - assert (He : is_exception e = true).
    { inversion Hrun as [| | tl reply tr' o Hrun']; subst; try reflexivity.
      by eapply bedrock_run_raises. }
    simpl. rewrite He. by eexists.
  - by destruct Hend.
Qed.

Lemma openai_dispatching_quiet eval n calls (l : OpenAI.locals Content) tr o :
  OpenAISem.dispatching (W:=W) eval n calls l tr o ->
  Chat.queries tr = [] /\ Trail.catalog_fetches tr = 0.
Proof. induction 1; simpl; auto. Qed.

Lemma openai_run_quiet eval bound n r (l : OpenAI.locals Content) tr o :
  OpenAISem.run (W:=W) eval bound n r l tr o ->
  Chat.queries tr = [] /\ Trail.catalog_fetches tr = 0.
Proof.
  induction 1; simpl; rewrite ?queries_app, ?catalog_fetches_app; simpl;
    repeat match goal with
           | H : OpenAISem.dispatching _ _ _ _ _ _ |- _ =>
               apply openai_dispatching_quiet in H as [-> ->]
           | H : _ /\ _ |- _ => destruct H as [-> ->]
           end; auto.
Qed.

Lemma openai_process_query_quiet eval list_tools call_tool create fuel query
    (s : env W (event (OpenAI.request Content) OpenAI.chat_response Content)) :
  exists tr,
    trace (snd (OpenAI.process_query eval list_tools call_tool create fuel query s))
    = trace s ++ tr
    /\ Chat.queries tr = [] /\ Trail.catalog_fetches tr = 1.
Proof.
  rewrite process_query_run_queryB. cbn [snd].
  destruct (run_query_runB eval list_tools call_tool create fuel query s)
    as (tr & Htr & Hrun).
  exists tr. split; [exact Htr |].
  destruct Hrun as [| | tl r tr o Hrun]; simpl; auto.
  apply openai_run_quiet in Hrun as [-> Hc]. unfold Trail.catalog_fetches in *.
  simpl. by rewrite Hc.
Qed.

End QuietQueries.




(** * Further properties of the two clients *)

(** ** A backend call that fails *)

Section BackendFailures.
Context {Content : Type}.

Lemma bedrock_run_backend_failure (str_content : Content -> string) tools its l tr o :
  BedrockSem.run str_content tools its l tr o ->
  forall pre req msg post,
    tr = pre ++ EvBackend req (inl msg) :: post ->
    post = [] /\ o = Raise (BackendError msg).
Proof.
  induction 1 as [l | t rest l tr o _ IH | ty rest l tr o _ IH
                  | i n a rest l msg | i n a rest l res msg
                  | i n a rest l res reply e Hf
                  | i n a rest l res reply t tr o Hf _ IH];
    intros pre req' msg' post Heq; eauto.
  - destruct pre; discriminate.
  - destruct pre as [|? [|? ?]]; simplify_eq/=.
  - destruct pre as [|? [|? [|? ?]]]; simplify_eq/=. auto.
  - destruct pre as [|? [|? [|? ?]]]; simplify_eq/=.
  - destruct pre as [|? [|? pre]]; simplify_eq/=. eauto.
Qed.

Lemma bedrock_query_backend_failure (str_content : Content -> string) query tr o
    pre req msg post :
  BedrockSem.query_run str_content query tr o ->
  tr = pre ++ EvBackend req (inl msg) :: post ->
  post = [] /\ o = Raise (BackendError msg).
Proof.
  destruct 1 as [msg' | tl msg' | tl reply tr o Hrun]; intros Heq.
  - destruct pre as [|? [|? ?]]; simplify_eq/=.
  - destruct pre as [|? [|? [|? ?]]]; simplify_eq/=. auto.
  - destruct pre as [|? [|? pre]]; simplify_eq/=.
    by eapply bedrock_run_backend_failure.
Qed.

Lemma openai_run_backend_failure {W : Type} eval bound n r
    (l : OpenAI.locals Content) tr o :
  OpenAISem.run (W:=W) eval bound n r l tr o ->
  forall pre req msg post,
    tr = pre ++ EvBackend req (inl msg) :: post ->
    post = [] /\ o = Raise (BackendError msg).
Proof.
  intros H. run_cases H; intros pre req msg' post Heq.
  - destruct pre; discriminate.
  - destruct pre; discriminate.
  - destruct pre; discriminate.
  - exfalso. apply dispatching_quiet in Hd.
    by eapply (quiet_has_no_backend_call _ _ _ _ _ Hd).
  - exfalso. apply dispatching_quiet in Hd.
    by eapply (quiet_has_no_backend_call _ _ _ _ _ Hd).
  - split_quiet p. destruct p as [|? [|? ?]]; simplify_eq/=. auto.
  - split_quiet p. destruct p as [|? p]; simplify_eq/=. eauto.
Qed.

Lemma openai_query_backend_failure {W : Type} eval fuel query
    (tr : list (event (OpenAI.request Content) OpenAI.chat_response Content)) o
    pre req msg post :
  OpenAISem.query_run (W:=W) eval fuel query tr o ->
  tr = pre ++ EvBackend req (inl msg) :: post ->
  post = [] /\ o = Raise (BackendError msg).
Proof.
  destruct 1 as [msg' | tl msg' | tl r tr o Hrun]; intros Heq.
  - destruct pre as [|? [|? ?]]; simplify_eq/=.
  - destruct pre as [|? [|? [|? ?]]]; simplify_eq/=. auto.
  - destruct pre as [|? [|? pre]]; simplify_eq/=.
    by eapply openai_run_backend_failure.
Qed.

End BackendFailures.

(** X1.  In both variants a backend call that fails ends [process_query]
    with that error: the failed call is the last event of the run, and
    nothing is retried. *)
Theorem backend_failure_aborts_query :
  (forall (W Content : Type) str_content list_tools call_tool invoke_model query
          (s : env W (event Bedrock.request Bedrock.response Content))
          pre req msg post,
      trace (snd (Bedrock.process_query str_content list_tools call_tool
                    invoke_model query s))
      = trace s ++ pre ++ EvBackend req (inl msg) :: post ->
      post = []
      /\ fst (Bedrock.process_query str_content list_tools call_tool invoke_model query s)
         = Raise (BackendError msg))
  /\ (forall (W Content : Type) eval list_tools call_tool create fuel query
             (s : env W (event (OpenAI.request Content) OpenAI.chat_response Content))
             pre req msg post,
         trace (snd (OpenAI.process_query eval list_tools call_tool create fuel query s))
         = trace s ++ pre ++ EvBackend req (inl msg) :: post ->
         post = []
         /\ fst (OpenAI.process_query eval list_tools call_tool create fuel query s)
            = Raise (BackendError msg)).
Proof.
  split.
  - intros W Content str_content list_tools call_tool invoke_model query s
           pre req msg post H.
    apply bedrock_query_log in H.
    destruct (bedrock_query_backend_failure _ _ _ _ _ _ _ _ H eq_refl) as [-> Ho].
    split; [reflexivity |]. rewrite process_query_run_query. cbn [fst].
    by rewrite Ho.
  - intros W Content eval list_tools call_tool create fuel query s pre req msg post H.
    apply openai_query_log in H.
    destruct (openai_query_backend_failure _ _ _ _ _ _ _ _ _ H eq_refl) as [-> Ho].
    split; [reflexivity |]. rewrite process_query_run_queryB. cbn [fst].
    by rewrite Ho.
Qed.

Lemma backend_failure_aborts_query_witness :
  fst (Scenario.bedrock Scenario.add_stub [[Scenario.use_add "call_1"]] "add 2 and 3")
  = Raise (BackendError "no reply left")
  /\ fst (Scenario.openai Scenario.add_stub
            [OpenAI.ChatMessage None (Some [Scenario.call_add "call_1"])] 5 "add 2 and 3")
     = Raise (BackendError "no reply left").
Proof.
  destruct backend_failure_aborts_query as [HA HB]. split.
  - unfold Scenario.bedrock.
    match goal with
    | |- context [Bedrock.process_query ?str ?lt ?ct ?im ?q ?s] =>
        apply (HA _ _ str lt ct im q s
                 (firstn 3 (trace (snd (Bedrock.process_query str lt ct im q s))))
                 (Bedrock.request_body
                    (Bedrock.available_tools [Scenario.add_tool])
                    (Bedrock.on_tool_result (BedrockSem.start q) "call_1" "add"
                       Scenario.add_args "5"))
                 "no reply left" [])
    end.
    reflexivity.
  - unfold Scenario.openai.
    match goal with
    | |- context [OpenAI.process_query ?ev ?lt ?ct ?cr ?f ?q ?s] =>
        apply (HB _ _ ev lt ct cr f q s
                 (firstn 4 (trace (snd (OpenAI.process_query ev lt ct cr f q s))))
                 (OpenAISem.ask_again
                    (OpenAI.Locals
                       [OpenAI.UserQuery q;
                        OpenAI.Assistant
                          (OpenAI.ChatMessage None (Some [Scenario.call_add "call_1"]));
                        OpenAI.ToolMessage "call_1" "add" (Py.VInt 5)]
                       (OpenAI.available_tools [Scenario.add_tool]) []))
                 "no reply left" [])
    end.
    reflexivity.
Defined.

(** ** One catalog and a fresh conversation for every query *)

Section Requests.
Context {Content : Type}.

Lemma bedrock_run_requests (str_content : Content -> string) tools its l tr o :
  BedrockSem.run str_content tools its l tr o ->
  Trail.catalog_fetches tr = 0
  /\ Forall (fun req => Bedrock.body_tools req = tools
                        /\ Bedrock.max_tokens req = 1000%Z
                        /\ Bedrock.anthropic_version req = "bedrock-2023-05-31")
            (Log.requests tr).
Proof.
  induction 1; simpl; try (split; [reflexivity | by repeat constructor]); auto.
  destruct IHrun as [Hc Hf]. split; [exact Hc | by repeat constructor].
Qed.

Lemma openai_run_requests {W : Type} eval bound n r (l : OpenAI.locals Content) tr o :
  OpenAISem.run (W:=W) eval bound n r l tr o ->
  Forall (fun req => OpenAI.model req = "gpt-4" /\ OpenAI.tool_choice req = "auto")
         (Log.requests tr)
  /\ (Forall (OpenAISem.harmless eval) (Log.evaluated tr) ->
      Forall (fun req => OpenAI.req_tools req = OpenAI.tools l) (Log.requests tr)).
Proof.
  intros H. run_cases H; simpl; try (split; [constructor | constructor]).
  - rewrite (quiet_requests tr); [| by eapply dispatching_quiet].
    split; constructor.
  - rewrite (quiet_requests tr); [| by eapply dispatching_quiet].
    split; constructor.
  - rewrite requests_app, (quiet_requests tr); [| by eapply dispatching_quiet].
    simpl. split; [by repeat constructor |].
    intros Hh. rewrite evaluated_app in Hh. apply Forall_app in Hh as [Hh _].
    apply dispatching_ok in Hd as (outs & _ & -> & _); [| exact Hh].
    by repeat constructor.
  - rewrite requests_app, (quiet_requests tr); [| by eapply dispatching_quiet].
    simpl. destruct IH as [IHs IHt]. split; [by repeat constructor |].
    intros Hh. rewrite evaluated_app in Hh. apply Forall_app in Hh as [Hh Hh'].
    apply dispatching_ok in Hd as (outs & _ & -> & _); [| exact Hh].
    constructor; [reflexivity |]. by apply IHt.
Qed.

End Requests.

(** X2.  In both variants a query fetches the tool catalog once, before
    anything else.  If that fails nothing more happens.  Otherwise the
    first backend call carries the query as its only message and the
    catalog shaped from that fetch, and every backend call of the query
    carries the same fixed settings.  In Variant A every backend call
    carries that catalog; in Variant B this is so when the arguments
    texts the query evaluates leave the variables of the client alone. *)
Theorem one_catalog_per_query :
  (forall (W Content : Type) str_content list_tools call_tool invoke_model query
          (s : env W (event Bedrock.request Bedrock.response Content)) tr,
      trace (snd (Bedrock.process_query str_content list_tools call_tool
                    invoke_model query s))
      = trace s ++ tr ->
      exists res rest,
        tr = EvListTools res :: rest
        /\ Trail.catalog_fetches rest = 0
        /\ (forall msg, res = inl msg -> rest = [])
        /\ (forall tl, res = inr tl ->
            (exists req later,
                Log.requests rest = req :: later
                /\ Bedrock.body_messages req = [Bedrock.WUser query])
            /\ Forall (fun req =>
                         Bedrock.body_tools req = Bedrock.available_tools tl
                         /\ Bedrock.max_tokens req = 1000%Z
                         /\ Bedrock.anthropic_version req = "bedrock-2023-05-31")
                      (Log.requests rest)))
  /\ (forall (W Content : Type) eval list_tools call_tool create fuel query
             (s : env W (event (OpenAI.request Content) OpenAI.chat_response Content)) tr,
         trace (snd (OpenAI.process_query eval list_tools call_tool create fuel query s))
         = trace s ++ tr ->
         exists res rest,
           tr = EvListTools res :: rest
           /\ Trail.catalog_fetches rest = 0
           /\ (forall msg, res = inl msg -> rest = [])
           /\ (forall tl, res = inr tl ->
               (exists req later,
                   Log.requests rest = req :: later
                   /\ OpenAI.req_messages req = [OpenAI.UserQuery query]
                   /\ OpenAI.req_tools req = OpenAI.available_tools tl)
               /\ Forall (fun req => OpenAI.model req = "gpt-4"
                                     /\ OpenAI.tool_choice req = "auto")
                         (Log.requests rest)
               /\ (Forall (OpenAISem.harmless eval) (Log.evaluated rest) ->
                   Forall (fun req => OpenAI.req_tools req = OpenAI.available_tools tl)
                          (Log.requests rest)))).
Proof.
  split.
  - intros W Content str_content list_tools call_tool invoke_model query s tr H.
    apply bedrock_query_log in H.
    destruct H as [msg | tl msg | tl reply tr o Hrun]; eexists _, _;
      (split; [reflexivity |]).
    + split_and!; [reflexivity | reflexivity | discriminate].
    + split_and!; [reflexivity | discriminate |].
      intros tl' [= <-]. split; [by eexists _, _ | by repeat constructor].
    + destruct (bedrock_run_requests _ _ _ _ _ _ Hrun) as [Hc Hf].
      split_and!; [exact Hc | discriminate |].
      intros tl' [= <-]. split; [by eexists _, _ |]. by repeat constructor.
  - intros W Content eval list_tools call_tool create fuel query s tr H.
    apply openai_query_log in H.
    destruct H as [msg | tl msg | tl r tr o Hrun]; eexists _, _;
      (split; [reflexivity |]).
    + split_and!; [reflexivity | reflexivity | discriminate].
    + split_and!; [reflexivity | discriminate |].
      intros tl' [= <-]. split_and!; [by eexists _, _ | by repeat constructor |].
      intros _. by repeat constructor.
    + destruct (openai_run_requests _ _ _ _ _ _ _ Hrun) as [Hs Ht].
      destruct (openai_run_quiet _ _ _ _ _ _ _ Hrun) as [_ Hc].
      split_and!; [exact Hc | discriminate |].
      intros tl' [= <-]. split_and!; [by eexists _, _ | by repeat constructor |].
      intros Hh. constructor; [reflexivity |]. by apply Ht.
Qed.

Lemma one_catalog_per_query_witness :
  Trail.catalog_fetches (trace (snd Scenario.two_requests_bedrock)) = 1
  /\ Trail.catalog_fetches (trace (snd Scenario.two_calls_openai)) = 1.
Proof.
  destruct one_catalog_per_query as [HA HB]. split.
  - scenario.
    match goal with
    | |- context [Bedrock.process_query ?str ?lt ?ct ?im ?q ?s] =>
        destruct (HA _ _ str lt ct im q s _ eq_refl) as (res & rest & Htr & Hc & _)
    end.
    cbn [app] in Htr. rewrite Htr.
    change (EvListTools res :: rest) with ([EvListTools res] ++ rest).
    rewrite catalog_fetches_app, Hc. reflexivity.
  - scenario.
    match goal with
    | |- context [OpenAI.process_query ?ev ?lt ?ct ?cr ?f ?q ?s] =>
        destruct (HB _ _ ev lt ct cr f q s _ eq_refl) as (res & rest & Htr & Hc & _)
    end.
    cbn [app] in Htr. rewrite Htr.
    change (EvListTools res :: rest) with ([EvListTools res] ++ rest).
    rewrite catalog_fetches_app, Hc. reflexivity.
Defined.

(** ** Variant A: replies without a leading text *)

Section FollowUps.
Context {Content : Type}.

Lemma bedrock_run_follow_up (str_content : Content -> string) tools its l tr o :
  BedrockSem.run str_content tools its l tr o ->
  forall pre req reply post e,
    tr = pre ++ EvBackend req (inr reply) :: post ->
    Bedrock.first_text reply = Raise e ->
    post = [] /\ o = Raise e.
Proof.
  induction 1 as [l | t rest l tr o _ IH | ty rest l tr o _ IH
                  | i n a rest l msg | i n a rest l res msg
                  | i n a rest l res reply e Hf
                  | i n a rest l res reply t tr o Hf _ IH];
    intros pre req' reply' post e' Heq He; eauto.
  - destruct pre; discriminate.
  - destruct pre as [|? [|? ?]]; simplify_eq/=.
  - destruct pre as [|? [|? [|? ?]]]; simplify_eq/=.
  - destruct pre as [|? [|? [|? ?]]]; simplify_eq/=. split; [reflexivity | congruence].
  - destruct pre as [|? [|? pre]]; simplify_eq/=; [congruence | eauto].
Qed.

Lemma bedrock_query_follow_up (str_content : Content -> string) query tr o
    pre req reply post e :
  BedrockSem.query_run str_content query tr o ->
  tr = pre ++ EvBackend req (inr reply) :: post ->
  1 <= backend_calls pre ->
  Bedrock.first_text reply = Raise e ->
  post = [] /\ o = Raise e.
Proof.
  destruct 1 as [msg' | tl msg' | tl reply0 tr o Hrun]; intros Heq Hpre He.
  - destruct pre as [|? [|? ?]]; simplify_eq/=.
  - destruct pre as [|? [|? [|? ?]]]; simplify_eq/=.
  - destruct pre as [|? [|? pre]]; simplify_eq/=.
    + unfold backend_calls in Hpre. simpl in Hpre. lia.
    + by eapply bedrock_run_follow_up.
Qed.

Lemma bedrock_query_first_reply (str_content : Content -> string) query tr o
    pre req reply post :
  BedrockSem.query_run str_content query tr o ->
  tr = pre ++ EvBackend req (inr reply) :: post ->
  backend_calls pre = 0 ->
  BedrockSem.run str_content (Bedrock.body_tools req) (BedrockSem.items reply)
                 (BedrockSem.start query) post o.
Proof.
  destruct 1 as [msg' | tl msg' | tl reply0 tr o Hrun]; intros Heq Hpre.
  - destruct pre as [|? [|? ?]]; simplify_eq/=.
  - destruct pre as [|? [|? [|? ?]]]; simplify_eq/=.
  - destruct pre as [|? [|? pre]]; simplify_eq/=.
    exact Hrun.
Qed.

End FollowUps.

(** X3.  Variant A reads the reply to a tool result with plain
    subscripts: a follow-up reply without a ["content"] key ends the query
    with [KeyError('content')], one with an empty content with
    [IndexError], one whose first item is not a text item with
    [KeyError('text')], and nothing more is done.  The first reply is read
    with [.get]: without a ["content"] key it is an empty reply and the
    answer is the empty string. *)
Theorem reply_without_leading_text :
  forall (W Content : Type) str_content list_tools call_tool invoke_model query
         (s : env W (event Bedrock.request Bedrock.response Content))
         pre req reply post,
    trace (snd (Bedrock.process_query str_content list_tools call_tool
                  invoke_model query s))
    = trace s ++ pre ++ EvBackend req (inr reply) :: post ->
    let r := Bedrock.process_query str_content list_tools call_tool invoke_model query s in
    (1 <= backend_calls pre ->
     match Bedrock.content reply with
     | None => post = [] /\ fst r = Raise (KeyError "content")
     | Some [] => post = [] /\ fst r = Raise IndexError
     | Some (Bedrock.Text _ :: _) => True
     | Some (_ :: _) => post = [] /\ fst r = Raise (KeyError "text")
     end)
    /\ (backend_calls pre = 0 -> Bedrock.content reply = None ->
        post = [] /\ fst r = Ok EmptyString).
Proof.
  intros W Content str_content list_tools call_tool invoke_model query s
         pre req reply post H r.
  subst r. apply bedrock_query_log in H.
  rewrite process_query_run_query. cbn [fst]. split.
  - intros Hpre.
    pose proof (fun e => bedrock_query_follow_up _ _ _ _ _ _ _ _ e H eq_refl Hpre) as Hf.
    unfold Bedrock.first_text in Hf.
    destruct (Bedrock.content reply) as [[|[t | i n a | ty] its]|]; try exact I;
      (destruct (Hf _ eq_refl) as [-> ->]; by split).
  - intros Hpre Hc.
    pose proof (bedrock_query_first_reply _ _ _ _ _ _ _ _ H eq_refl Hpre) as Hrun.
    unfold BedrockSem.items in Hrun. rewrite Hc in Hrun. simpl in Hrun.
    inversion Hrun; subst. split; reflexivity.
Qed.

Lemma reply_without_leading_text_witness :
  fst Scenario.always_requests_bedrock = Raise (KeyError "text").
Proof.
  scenario.
  match goal with
  | |- context [Bedrock.process_query ?str ?lt ?ct ?im ?q ?s] =>
      destruct (reply_without_leading_text _ _ str lt ct im q s
                  (firstn 3 (trace (snd (Bedrock.process_query str lt ct im q s))))
                  (Bedrock.request_body
                     (Bedrock.available_tools [Scenario.add_tool])
                     (Bedrock.on_tool_result (BedrockSem.start q) "call_1" "add"
                        Scenario.add_args "5"))
                  (Bedrock.Response
                     (Some [Scenario.use_add "call_1"; Scenario.use_add "call_2"]))
                  [] eq_refl) as [Hfollow _]
  end.
  exact (proj2 (Hfollow ltac:(vm_compute; lia))).
Defined.

(** ** Variant A: what is left of the first reply *)

Section BedrockKept.
Context {W Content : Type}.
Variable str_content : Content -> string.

Lemma tool_uses_kept its : BedrockSem.tool_uses (BedrockEnd.kept its) = BedrockSem.tool_uses its.
Proof. induction its as [|[] its IH]; simpl; rewrite ?IH; reflexivity. Qed.

Lemma run_leaves tools its l tr l' :
  BedrockSem.run str_content tools its l tr (Ok l') ->
  Bedrock.messages l'
  = Bedrock.messages l
    ++ concat (zip_with (fun u r => [Bedrock.AssistantShared;
                                     Bedrock.ToolResult (fst (fst u)) (str_content r)])
                        (BedrockSem.tool_uses its) (Trail.tool_results tr))
  /\ Bedrock.assistant_message_content l'
     = Bedrock.assistant_message_content l ++ BedrockEnd.kept its
  /\ length (Trail.tool_results tr) = length (BedrockSem.tool_uses its).
Proof.
  intros H. remember (Ok l') as o eqn:Ho.
  induction H as [l | t rest l tr o _ IH | ty rest l tr o _ IH
                  | | | | i n a rest l res reply t tr o Hf _ IH];
    simpl; try discriminate.
  - injection Ho as ->. by rewrite !app_nil_r.
  - destruct (IH Ho) as (Hm & Ha & Hl). rewrite Hm, Ha. simpl.
    rewrite <- app_assoc. auto.
  - exact (IH Ho).
  - destruct (IH Ho) as (Hm & Ha & Hl). rewrite Hm, Ha. simpl.
    rewrite <- !app_assoc. auto.
Qed.

Lemma dump_pairs kept_items uses (results : list Content) :
  map (Bedrock.dump_message kept_items)
      (concat (zip_with (fun u r => [Bedrock.AssistantShared;
                                     Bedrock.ToolResult (fst (fst u)) (str_content r)])
                        uses results))
  = concat (zip_with (fun (u : string * string * Py.value) r =>
                        [Bedrock.WAssistant kept_items;
                         Bedrock.WToolResult (fst (fst u)) r])
                     uses (map str_content results)).
Proof.
  revert results. induction uses as [|u uses IH]; intros [|r results]; simpl;
    try reflexivity.
  by rewrite IH.
Qed.

(** Items that are neither text nor tool requests leave no trace. *)
Lemma for_content_kept call_tool invoke_model tools its :
  forall l (s : env W (event Bedrock.request Bedrock.response Content)),
    Bedrock.for_content str_content call_tool invoke_model tools its l s
    = Bedrock.for_content str_content call_tool invoke_model tools (BedrockEnd.kept its) l s.
Proof.
  induction its as [|[t | i n a | ty] its IH]; intros l s; simpl; auto.
  unfold bind.
  destruct (Bedrock.dispatch call_tool n a s) as [[res | e |] s1]; try reflexivity.
  destruct (Bedrock.invoke invoke_model tools _ s1) as [[reply | e |] s2]; try reflexivity.
  destruct (lift (Bedrock.first_text reply) s2) as [[t | e |] s3]; try reflexivity.
  apply IH.
Qed.

End BedrockKept.

(** X4.  When a query of Variant A gets through its loop, the
    conversation it leaves is the query followed by one assistant message
    and one tool result per tool request of the first reply, in order,
    with the ids of the requests and the results of the calls.  Every one
    of these assistant messages reads as all the text items and tool
    requests of the first reply, whatever the request it stands before. *)
Theorem bedrock_final_conversation :
  forall (W Content : Type) (str_content : Content -> string)
         list_tools call_tool invoke_model query
         (s : env W (event Bedrock.request Bedrock.response Content)) tr l,
    fst (Bedrock.run_query str_content list_tools call_tool invoke_model query s)
    = Ok l ->
    trace (snd (Bedrock.run_query str_content list_tools call_tool invoke_model query s))
    = trace s ++ tr ->
    Bedrock.history l
    = BedrockEnd.final_conversation query (BedrockSem.first_items tr)
        (map str_content (Trail.tool_results tr))
    /\ length (Trail.tool_results tr)
       = length (BedrockSem.tool_uses (BedrockSem.first_items tr)).
Proof.
  intros W Content str_content list_tools call_tool invoke_model query s tr l H Htr.
  apply bedrock_run_query_log in Htr. rewrite H in Htr.
  inversion Htr as [| | tl reply tr' o Hrun]; subst.
  destruct (run_leaves _ _ _ _ _ _ Hrun) as (Hm & Ha & Hl).
  unfold BedrockSem.first_items. simpl. split; [| exact Hl].
  unfold Bedrock.history, BedrockEnd.final_conversation. rewrite Hm, Ha. simpl.
  f_equal. apply dump_pairs.
Qed.

Lemma bedrock_final_conversation_witness :
  exists l,
    fst Scenario.two_requests_bedrock_run = Ok l
    /\ Bedrock.history l
       = [Bedrock.WUser "add twice";
          Bedrock.WAssistant [Scenario.use_add "call_1"; Scenario.use_add "call_2"];
          Bedrock.WToolResult "call_1" "5";
          Bedrock.WAssistant [Scenario.use_add "call_1"; Scenario.use_add "call_2"];
          Bedrock.WToolResult "call_2" "5"].
Proof.
  destruct (fst Scenario.two_requests_bedrock_run) as [l | |] eqn:Hl;
    [| discriminate Hl | discriminate Hl].
  exists l. split; [reflexivity |].
  revert Hl. scenario. intros Hl.
  match type of Hl with
  | context [Bedrock.run_query ?str ?lt ?ct ?im ?q ?s] =>
      destruct (bedrock_final_conversation _ _ str lt ct im q s
                  (trace (snd (Bedrock.run_query str lt ct im q s))) l) as [Hh _]
  end.
  - exact Hl.
  - reflexivity.
  - rewrite Hh. reflexivity.
Defined.

(** X5.  In the loop of Variant A an item that is neither a text item nor
    a tool request changes nothing: with or without such items the loop
    makes the same calls and ends in the same state. *)
Theorem other_items_are_ignored :
  forall (W Content : Type) (str_content : Content -> string) call_tool invoke_model
         tools its l (s : env W (event Bedrock.request Bedrock.response Content)),
    Bedrock.for_content str_content call_tool invoke_model tools its l s
    = Bedrock.for_content str_content call_tool invoke_model tools
        (BedrockEnd.kept its) l s
    /\ Forall (fun c => match c with Bedrock.OtherItem _ => False | _ => True end)
              (BedrockEnd.kept its)
    /\ BedrockSem.tool_uses (BedrockEnd.kept its) = BedrockSem.tool_uses its
    /\ BedrockSem.texts (BedrockEnd.kept its) = BedrockSem.texts its.
Proof.
  intros W Content str_content call_tool invoke_model tools its l s.
  split_and!.
  - apply for_content_kept.
  - induction its as [|[] its IH]; simpl; auto.
  - apply tool_uses_kept.
  - induction its as [|[] its IH]; simpl; rewrite ?IH; reflexivity.
Qed.

(** ** Variant B: arguments whose evaluation raises, replies at the edges *)

Section OpenAIEdges.
Context {W Content : Type}.
Variable eval : string -> OpenAI.frame Content -> W
                -> outcome Py.value * OpenAI.frame Content * W.
Variable bound : nat.
Import OpenAI OpenAISem.

Implicit Types (calls : list tool_call) (l : locals Content)
  (tr pre post : list (event (request Content) chat_response Content)).

(** An evaluation that raises is the last thing a [for] loop does. *)
Lemma dispatching_eval_failure n calls l tr o :
  dispatching eval n calls l tr o ->
  forall pre text e post,
    tr = pre ++ EvEval text (Raise e) :: post ->
    post = [] /\ o = Raise e.
Proof.
  induction 1 as [n l | tc rest l | n tc rest l e f Hev | n tc rest l f Hev
                  | n tc rest l v f msg Hev
                  | n tc rest l v f res tr o Hev _ IH];
    intros pre text e' post Heq.
  - destruct pre; discriminate.
  - destruct pre; discriminate.
  - destruct pre as [|? [|? ?]]; simplify_eq/=. auto.
  - destruct pre as [|? [|? ?]]; simplify_eq/=.
  - destruct pre as [|? [|? [|? ?]]]; simplify_eq/=.
  - destruct pre as [|? [|? pre]]; simplify_eq/=. eauto.
Qed.

Lemma run_eval_failure n r l tr o :
  run eval bound n r l tr o ->
  forall pre text e post,
    tr = pre ++ EvEval text (Raise e) :: post ->
    post = [] /\ o = Raise e.
Proof.
  assert (Hok : forall n calls l tr o pre text e post,
             dispatching eval n calls l tr o ->
             tr = pre ++ EvEval text (Raise e) :: post -> o = Raise e).
  { intros k calls l0 tr0 o0 pre text e post Hd Heq.
    by destruct (dispatching_eval_failure _ _ _ _ _ Hd _ _ _ _ Heq). }
  intros H. run_cases H; intros pre text e' post Heq.
  - destruct pre; discriminate.
  - destruct pre; discriminate.
  - destruct pre; discriminate.
  - by eapply dispatching_eval_failure.
  - by eapply dispatching_eval_failure.
  - exfalso. apply app_eq_inv in Heq as [(k & -> & Hk) | (k & -> & Hk)].
    + destruct k as [|? k]; simplify_eq/=.
      by pose proof (Hok _ _ _ _ _ _ _ _ _ Hd eq_refl).
    + destruct k as [|? [|? ?]]; simplify_eq/=.
  - apply app_eq_inv in Heq as [(k & -> & Hk) | (k & -> & Hk)].
    + exfalso. destruct k as [|? k]; simplify_eq/=.
      by pose proof (Hok _ _ _ _ _ _ _ _ _ Hd eq_refl).
    + destruct k as [|? k]; simplify_eq/=. eauto.
Qed.

(** A reply without choices, and a reply without tool calls, when the
    model has a round left for it. *)
Lemma run_edges n r l tr o :
  run eval bound n r l tr o ->
  forall req0 pre req r1 post,
    EvBackend req0 (inr r) :: tr = pre ++ EvBackend req (inr r1) :: post ->
    length (Log.replies pre) < n ->
    match r1 with
    | [] => post = [] /\ o = Raise IndexError
    | m :: _ =>
        requested m = [] ->
        post = []
        /\ exists l', o = Ok l'
                      /\ (Forall (harmless eval) (Log.evaluated pre) ->
                          final_text l' = final_text l ++ [content m])
    end.
Proof.
  intros H. run_cases H; intros req0 pre req r1 post Heq Hn.
  - lia.
  - destruct pre as [|? [|? ?]]; simplify_eq/=. auto.
  - destruct pre as [|? [|? ?]]; simplify_eq/=. intros _. split; [reflexivity |].
    eexists. split; [reflexivity |]. reflexivity.
  - destruct pre as [|? pre]; simplify_eq/=.
    + intros Hm'. congruence.
    + exfalso. apply dispatching_quiet in Hd.
      by eapply (quiet_has_no_backend_call _ _ _ _ _ Hd).
  - destruct pre as [|? pre]; simplify_eq/=.
    + intros Hm'. congruence.
    + exfalso. apply dispatching_quiet in Hd.
      by eapply (quiet_has_no_backend_call _ _ _ _ _ Hd).
  - destruct pre as [|? pre]; simplify_eq/=.
    + intros Hm'. congruence.
    + split_quiet p. destruct p as [|? [|? ?]]; simplify_eq/=.
  - destruct pre as [|? pre]; simplify_eq/=.
    + intros Hm'. congruence.
    + pose proof (dispatching_quiet _ _ _ _ _ _ Hd) as Hquiet.
      split_quiet p.
      rewrite replies_app, (quiet_replies _ Hquiet) in Hn. simpl in Hn.
      assert (Hn' : length (Log.replies p) < n) by lia.
      assert (He := fun Hx => IH (ask_again l1) p req r1 post Hx Hn').
      match goal with Hx : _ :: _ = p ++ _ |- _ => specialize (He Hx) end.
      destruct r1 as [|m1 others1]; [exact He |].
      intros Hm1. destruct (He Hm1) as (-> & l' & -> & Hft).
      split; [reflexivity |]. exists l'. split; [reflexivity |].
      intros Hh. rewrite evaluated_app in Hh. apply Forall_app in Hh as [Hh Hh'].
      rewrite (Hft Hh').
      apply dispatching_ok in Hd as (outs & _ & -> & _); [| exact Hh]. reflexivity.
Qed.

Lemma names_of_events calls : forall (outs : list (Py.value * Content)),
  length outs = length calls ->
  map fst (Log.dispatched (concat (zip_with (tool_events (Content:=Content)) calls outs)))
  = map (fun tc => fn_name (function tc)) calls.
Proof.
  induction calls as [|tc calls IH]; intros [|out outs] Hlen; simpl in *;
    try discriminate; [reflexivity |].
  f_equal. apply IH. lia.
Qed.

(** A run that ends well, over texts that change nothing, has dispatched
    every tool call of every reply. *)
Lemma run_dispatches_all n r l tr l' :
  run eval bound n r l tr (Ok l') ->
  Forall (harmless eval) (Log.evaluated tr) ->
  map fst (Log.dispatched tr) = concat (map OpenAIEnd.called_names (r :: Log.replies tr))
  /\ backend_calls tr = length (Log.replies tr).
Proof.
  intros H. remember (Ok l') as o eqn:Ho.
  run_cases H; try discriminate; intros Hh.
  - simpl. rewrite Hm. simpl. auto.
  - rewrite evaluated_app in Hh. apply Forall_app in Hh as [Hh Hh'].
    destruct (IH Ho Hh') as [Hn Hb].
    pose proof (dispatching_quiet _ _ _ _ _ _ Hd) as Hq.
    apply dispatching_ok in Hd as (outs & Hlen & _ & ->); [| exact Hh].
    rewrite dispatched_app, replies_app, backend_calls_app, (quiet_replies _ Hq).
    rewrite (proj2 (quiet_backend_calls _) Hq).
    simpl. rewrite map_app, (names_of_events _ _ Hlen), Hn. simpl.
    split; [reflexivity |]. unfold backend_calls in *. simpl. lia.
Qed.

End OpenAIEdges.

Section OpenAIEdgeQueries.
Context {W Content : Type}.
Variable eval : string -> OpenAI.frame Content -> W
                -> outcome Py.value * OpenAI.frame Content * W.
Import OpenAI OpenAISem.

Lemma query_run_eval_failure fuel query
    (tr : list (event (request Content) chat_response Content)) o pre text e post :
  query_run eval fuel query tr o ->
  tr = pre ++ EvEval text (Raise e) :: post ->
  post = [] /\ o = Raise e.
Proof.
  destruct 1 as [msg' | tl msg' | tl r tr o Hrun]; intros Heq.
  - destruct pre as [|? [|? ?]]; simplify_eq/=.
  - destruct pre as [|? [|? [|? ?]]]; simplify_eq/=.
  - destruct pre as [|? [|? pre]]; simplify_eq/=.
    by eapply run_eval_failure.
Qed.

End OpenAIEdgeQueries.

(** X6.  In Variant B, when the evaluation of the arguments of a tool
    call raises, whatever the exception, the query ends with that
    exception at once: the evaluation is the last event of the query, so
    the tool is not called, no later tool call of the reply is
    dispatched and the backend is not called again. *)
Theorem unreadable_arguments_stop_the_query :
  forall (W Content : Type) eval list_tools call_tool create fuel query
         (s : env W (event (OpenAI.request Content) OpenAI.chat_response Content))
         pre text e post,
    trace (snd (OpenAI.process_query eval list_tools call_tool create fuel query s))
    = trace s ++ pre ++ EvEval text (Raise e) :: post ->
    post = []
    /\ fst (OpenAI.process_query eval list_tools call_tool create fuel query s)
       = Raise e.
Proof.
  intros W Content eval list_tools call_tool create fuel query s pre text e post H.
  apply openai_query_log in H.
  destruct (query_run_eval_failure _ _ _ _ _ _ _ _ _ H eq_refl) as [-> Ho].
  split; [reflexivity |]. rewrite process_query_run_queryB. cbn [fst].
  by rewrite Ho.
Qed.

Lemma unreadable_arguments_witness :
  fst Scenario.unknown_name_openai = Raise (NameError "name 'a' is not defined")
  /\ tool_calls_made (trace (snd Scenario.unknown_name_openai)) = 1
  /\ backend_calls (trace (snd Scenario.unknown_name_openai)) = 1.
Proof.
  split; [| split; reflexivity].
  scenario.
  match goal with
  | |- context [OpenAI.process_query ?ev ?lt ?ct ?cr ?f ?q ?s] =>
      apply (unreadable_arguments_stop_the_query _ _ ev lt ct cr f q s
               (firstn 4 (trace (snd (OpenAI.process_query ev lt ct cr f q s))))
               "{a: 2}" (NameError "name 'a' is not defined") [])
  end.
  reflexivity.
Defined.

(** X7.  In Variant B a reply without choices ends the query with
    [IndexError], and a reply without tool calls ends it: nothing more is
    done, and when the arguments texts evaluated before it have left the
    variables of the client alone, the answer is the text of that reply,
    or the [TypeError] of [join] when the reply has no text.  (The
    hypothesis on the bound says that the model has a round left for the
    reply.) *)
Theorem replies_at_the_edges :
  forall (W Content : Type) eval list_tools call_tool create fuel query
         (s : env W (event (OpenAI.request Content) OpenAI.chat_response Content))
         pre req r1 post,
    trace (snd (OpenAI.process_query eval list_tools call_tool create fuel query s))
    = trace s ++ pre ++ EvBackend req (inr r1) :: post ->
    length (Log.replies pre) < fuel ->
    let o := fst (OpenAI.process_query eval list_tools call_tool create fuel query s) in
    match r1 with
    | [] => post = [] /\ o = Raise IndexError
    | m :: _ =>
        OpenAISem.requested m = [] ->
        post = []
        /\ (Forall (OpenAISem.harmless eval) (Log.evaluated pre) ->
            o = match OpenAI.content m with
                | Some text => Ok text
                | None =>
                    Raise (TypeError
                             "sequence item 0: expected str instance, NoneType found")
                end)
    end.
Proof.
  intros W Content eval list_tools call_tool create fuel query s pre req r1 post H
    Hn o.
  subst o. apply openai_query_log in H.
  rewrite process_query_run_queryB. cbn [fst].
  remember (fst (OpenAI.run_query eval list_tools call_tool create fuel query s)) as o
    eqn:Ho. clear Ho.
  remember (pre ++ EvBackend req (inr r1) :: post) as tr eqn:Heq.
  destruct H as [msg | tl msg | tl r tr o Hrun].
  - destruct pre as [|? [|? ?]]; simplify_eq/=.
  - destruct pre as [|? [|? [|? ?]]]; simplify_eq/=.
  - destruct pre as [|? pre]; [discriminate |]. injection Heq as <- Heq.
    simpl in Hn.
    pose proof (run_edges _ _ _ _ _ _ _ Hrun _ _ _ _ _ Heq Hn) as He.
    destruct r1 as [|m others].
    + by destruct He as [-> ->].
    + intros Hm. destruct (He Hm) as (-> & l' & -> & Hft). split; [reflexivity |].
      intros Hh. simpl in Hh. rewrite (Hft Hh). simpl. apply join_one.
Qed.

Lemma replies_at_the_edges_witness :
  fst Scenario.silent_reply_openai
  = Raise (TypeError "sequence item 0: expected str instance, NoneType found").
Proof.
  scenario.
  match goal with
  | |- context [OpenAI.process_query ?ev ?lt ?ct ?cr ?f ?q ?s] =>
      pose proof (replies_at_the_edges _ _ ev lt ct cr f q s
                    (firstn 4 (trace (snd (OpenAI.process_query ev lt ct cr f q s))))
                    (OpenAISem.ask_again
                       (OpenAI.Locals
                          [OpenAI.UserQuery q;
                           OpenAI.Assistant
                             (OpenAI.ChatMessage None (Some [Scenario.call_add "call_1"]));
                           OpenAI.ToolMessage "call_1" "add" (Py.VInt 5)]
                          (OpenAI.available_tools [Scenario.add_tool]) []))
                    [OpenAI.ChatMessage None None] [] eq_refl
                    ltac:(vm_compute; lia)) as H
  end.
  apply (H eq_refl). harmless_log.
Defined.

(** X8.  When a query of Variant B returns an answer and the arguments
    texts it has evaluated have left the variables of the client alone,
    the tools it has called are, name by name and in order, the tool
    calls of all the replies it received: none is skipped, none is called
    twice, and no backend call has failed. *)
Theorem every_tool_call_dispatched_once :
  forall (W Content : Type) eval list_tools call_tool create fuel query
         (s : env W (event (OpenAI.request Content) OpenAI.chat_response Content))
         tr text,
    fst (OpenAI.process_query eval list_tools call_tool create fuel query s) = Ok text ->
    trace (snd (OpenAI.process_query eval list_tools call_tool create fuel query s))
    = trace s ++ tr ->
    Forall (OpenAISem.harmless eval) (Log.evaluated tr) ->
    map fst (Log.dispatched tr) = concat (map OpenAIEnd.called_names (Log.replies tr))
    /\ backend_calls tr = length (Log.replies tr).
Proof.
  intros W Content eval list_tools call_tool create fuel query s tr text Ho H Hh.
  apply openai_query_log in H.
  rewrite process_query_run_queryB in Ho. cbn [fst] in Ho.
  destruct (fst (OpenAI.run_query _ _ _ _ _ _ _)) as [res | e |]; try discriminate.
  inversion H as [| | tl r tr' o Hrun]; subst.
  destruct (run_dispatches_all _ _ _ _ _ _ _ Hrun Hh) as [Hn Hb].
  simpl. split; [exact Hn |]. unfold backend_calls in *. simpl. lia.
Qed.

Lemma every_tool_call_dispatched_once_witness :
  map fst (Log.dispatched (trace (snd Scenario.two_calls_openai))) = ["add"; "add"]
  /\ backend_calls (trace (snd Scenario.two_calls_openai)) = 2.
Proof.
  scenario.
  match goal with
  | |- context [OpenAI.process_query ?ev ?lt ?ct ?cr ?f ?q ?s] =>
      apply (every_tool_call_dispatched_once _ _ ev lt ct cr f q s _ "5 and 5"
               eq_refl eq_refl)
  end.
  harmless_log.
Defined.

(** ** The chat loop and the errors of a query *)

Section ChatOutputs.
Context {W Req Resp Content : Type}.
Implicit Types (tr : list (event Req Resp Content)) (s : env W (event Req Resp Content)).

Lemma printed_app tr1 tr2 :
  Trail.printed (tr1 ++ tr2) = Trail.printed tr1 ++ Trail.printed tr2.
Proof.
  induction tr1 as [|[] tr1 IH]; simpl; rewrite ?IH; reflexivity.
Qed.

Variable process_query : string -> M (env W (event Req Resp Content)) string.

(** What is not an [Exception] is all the loop can end with, beside its
    normal end. *)
Lemma while_true_raises stdin : forall s e,
  fst (Chat.while_true process_query stdin s) = Raise e -> is_exception e = false.
Proof.
  induction stdin as [|line stdin IH]; intros s e.
  - discriminate.
  - rewrite while_true_step.
    destruct (Chat.is_quit (Py.strip line)); [discriminate |]. cbn zeta.
    destruct (process_query _ _) as [[response | e' |] s2]; cbn [fst snd Chat.reported].
    + apply IH.
    + destruct (is_exception e') eqn:He; [apply IH |].
      cbn [fst]. by intros [= <-].
    + discriminate.
Qed.

Hypothesis process_query_silent :
  forall q s, exists tr,
    trace (snd (process_query q s)) = trace s ++ tr
    /\ Chat.queries tr = [] /\ Trail.printed tr = [].

Lemma while_true_outputs stdin : forall s,
  exists tr,
    trace (snd (Chat.while_true process_query stdin s)) = trace s ++ tr
    /\ (fst (Chat.while_true process_query stdin s) = Ok tt ->
        length (Trail.printed tr) = 1 + 2 * length (Chat.queries tr)).
Proof.
  induction stdin as [|line stdin IH]; intros s.
  - simpl. exists []. rewrite app_nil_r. split; [reflexivity | discriminate].
  - rewrite while_true_step.
    destruct (Chat.is_quit (Py.strip line)) eqn:Hq.
    + cbn [fst snd trace]. eexists. split; [reflexivity |]. intros _. reflexivity.
    + cbn zeta.
      destruct (process_query_silent (Py.strip line) (Chat.asked line s))
        as (trq & Htrq & Hnq & Hnp).
      destruct (process_query (Py.strip line) (Chat.asked line s)) as [o s2] eqn:Hp.
      cbn [fst snd trace world] in *. unfold Chat.asked in Htrq. cbn [trace] in Htrq.
      destruct (Chat.reported o) as [text |] eqn:Hr.
      * match goal with |- context [Chat.while_true _ _ ?s4] =>
          destruct (IH s4) as (tr' & Htr' & Hc) end.
        eexists. split.
        -- rewrite Htr'. cbn [trace]. rewrite Htrq, <- !app_assoc. reflexivity.
        -- intros Ho. specialize (Hc Ho). simpl.
           rewrite !printed_app, !queries_app, Hnq, Hnp. simpl. lia.
      * eexists. split; [cbn [snd]; rewrite Htrq, <- !app_assoc; reflexivity |].
        cbn [fst]. destruct o as [r | e |]; discriminate.
Qed.

Lemma chat_loop_outputs stdin s :
  (forall e, fst (Chat.chat_loop process_query stdin s) = Raise e ->
             is_exception e = false)
  /\ forall tr,
      trace (snd (Chat.chat_loop process_query stdin s)) = trace s ++ tr ->
      fst (Chat.chat_loop process_query stdin s) = Ok tt ->
      length (Trail.printed tr) = 3 + 2 * length (Chat.queries tr).
Proof.
  rewrite chat_loop_started. split; [apply while_true_raises |].
  destruct (while_true_outputs stdin (Chat.started s)) as (tr' & Htr' & Hc).
  intros tr Htr Ho.
  rewrite Htr' in Htr. unfold Chat.started in Htr. cbn [trace] in Htr.
  rewrite <- !app_assoc in Htr.
  apply app_inv_head in Htr. subst tr. specialize (Hc Ho). simpl. lia.
Qed.

End ChatOutputs.

Section SilentQueries.
Context {W Content : Type}.

Lemma bedrock_run_prints_nothing (str_content : Content -> string) tools its l tr o :
  BedrockSem.run str_content tools its l tr o -> Trail.printed tr = [].
Proof. induction 1; simpl; auto. Qed.

Lemma bedrock_process_query_silent (str_content : Content -> string)
    list_tools call_tool invoke_model query
    (s : env W (event Bedrock.request Bedrock.response Content)) :
  exists tr,
    trace (snd (Bedrock.process_query str_content list_tools call_tool
                  invoke_model query s)) = trace s ++ tr
    /\ Chat.queries tr = [] /\ Trail.printed tr = [].
Proof.
  rewrite process_query_run_query. cbn [snd].
  destruct (run_query_run str_content list_tools call_tool invoke_model query s)
    as (tr & Htr & Hrun).
  exists tr. split; [exact Htr |].
  destruct Hrun as [| | tl reply tr o Hrun]; simpl; auto.
  split; [by eapply bedrock_run_quiet | by eapply bedrock_run_prints_nothing].
Qed.

Lemma openai_dispatching_prints_nothing eval n calls (l : OpenAI.locals Content) tr o :
  OpenAISem.dispatching (W:=W) eval n calls l tr o -> Trail.printed tr = [].
Proof. induction 1; simpl; auto. Qed.

Lemma openai_run_prints_nothing eval bound n r (l : OpenAI.locals Content) tr o :
  OpenAISem.run (W:=W) eval bound n r l tr o -> Trail.printed tr = [].
Proof.
  induction 1; simpl; rewrite ?printed_app; simpl;
    repeat match goal with
           | H : OpenAISem.dispatching _ _ _ _ _ _ |- _ =>
               apply openai_dispatching_prints_nothing in H; rewrite H; clear H
           end; auto.
Qed.

Lemma openai_process_query_silent eval list_tools call_tool create fuel query
    (s : env W (event (OpenAI.request Content) OpenAI.chat_response Content)) :
  exists tr,
    trace (snd (OpenAI.process_query eval list_tools call_tool create fuel query s))
    = trace s ++ tr
    /\ Chat.queries tr = [] /\ Trail.printed tr = [].
Proof.
  rewrite process_query_run_queryB. cbn [snd].
  destruct (run_query_runB eval list_tools call_tool create fuel query s)
    as (tr & Htr & Hrun).
  exists tr. split; [exact Htr |].
  destruct Hrun as [| | tl r tr o Hrun]; simpl; auto.
  split; [by eapply openai_run_quiet | by eapply openai_run_prints_nothing].
Qed.

End SilentQueries.



(** ** Starting and stopping *)

Section Suffixes.
Import Startup.

Lemma endswith_unfold s suffix :
  endswith s suffix
  = String.eqb s suffix
    || match s with EmptyString => false | String _ s' => endswith s' suffix end.
Proof. destruct s; reflexivity. Qed.

Lemma endswith_stem stem suffix : endswith (stem +:+ suffix) suffix = true.
Proof.
  induction stem as [|c stem IH]; rewrite endswith_unfold.
  - simpl. by rewrite String.eqb_refl.
  - simpl. rewrite IH. apply orb_true_r.
Qed.

Lemma endswith_spec s suffix :
  endswith s suffix = true <-> exists stem, s = stem +:+ suffix.
Proof.
  split.
  - induction s as [|c s IH]; rewrite endswith_unfold; intros H.
    + rewrite orb_false_r in H. apply String.eqb_eq in H. by exists EmptyString.
    + apply orb_true_iff in H as [H | H].
      * apply String.eqb_eq in H. by exists EmptyString.
      * destruct (IH H) as [stem ->]. by exists (String c stem).
  - intros [stem ->]. apply endswith_stem.
Qed.

Lemma endswith_no_stem s suffix :
  (forall stem, s <> stem +:+ suffix) -> endswith s suffix = false.
Proof.
  intros H. destruct (endswith s suffix) eqn:E; [| reflexivity].
  apply endswith_spec in E as [stem ->]. by destruct (H stem).
Qed.

Lemma js_is_not_python stem : endswith (stem +:+ ".js") ".py" = false.
Proof.
  induction stem as [|c stem IH]; [reflexivity |].
  change (String c stem +:+ ".js") with (String c (stem +:+ ".js")).
  rewrite endswith_unfold, IH, orb_false_r.
  apply String.eqb_neq. intros [= _ H].
  destruct stem as [|? [|? [|? ?]]]; discriminate.
Qed.

End Suffixes.

Section ChatEnds.
Context {W Req Resp Content : Type}.
Variable process_query : string -> M (env W (event Req Resp Content)) string.

Lemma while_true_ends stdin : forall s : env W (event Req Resp Content),
  fst (Chat.while_true process_query stdin s) = Ok tt ->
  exists line, In line stdin /\ Py.lower (Py.strip line) = "quit".
Proof.
  induction stdin as [|line stdin IH]; intros s.
  - discriminate.
  - rewrite while_true_step.
    destruct (Chat.is_quit (Py.strip line)) eqn:Hq.
    + intros _. exists line. split; [by left |]. by apply String.eqb_eq.
    + cbn zeta. destruct (Chat.reported _) as [text |].
      * intros Ho. destruct (IH _ Ho) as (l & Hin & Hl).
        exists l. split; [by right | exact Hl].
      * cbn [fst]. by destruct (fst (process_query _ _)).
Qed.

Lemma chat_loop_ends stdin (s : env W (event Req Resp Content)) :
  fst (Chat.chat_loop process_query stdin s) = Ok tt ->
  exists line, In line stdin /\ Py.lower (Py.strip line) = "quit".
Proof. rewrite chat_loop_started. apply while_true_ends. Qed.

End ChatEnds.

Section Lifecycle.
Context {W Req Resp Content : Type}.
Import Startup.

Implicit Types (p : proc W (event Req Resp Content))
  (log : list (boot_event (event Req Resp Content))).

Variable boto3_client : option (W -> (string + unit) * W).
Variable stdio_client : server_params -> W -> (string + unit) * W.
Variable client_session : W -> (string + unit) * W.
Variable initialize : W -> (string + unit) * W.
Variable aexit : context -> W -> (string + bool) * W.
Variable list_tools : W -> (string + list tool) * W.
Variable process_query : string -> M (env W (event Req Resp Content)) string.

Lemma opened_app log1 log2 : opened (log1 ++ log2) = opened log1 ++ opened log2.
Proof.
  induction log1 as [|[| ? [] | [] | | |] log1 IH]; simpl; rewrite ?IH; reflexivity.
Qed.

Lemma closed_app log1 log2 : closed (log1 ++ log2) = closed log1 ++ closed log2.
Proof.
  induction log1 as [|[] log1 IH]; simpl; rewrite ?IH; reflexivity.
Qed.

Lemma call_discipline {A : Type} (oracle : W -> (string + A) * W)
    (record : string + A -> boot_event (event Req Resp Content)) p :
  plog (snd (call oracle record p)) = plog p ++ [record (fst (call oracle record p))]
  /\ pstack (snd (call oracle record p)) = pstack p.
Proof. unfold call. by destruct (oracle (pworld p)). Qed.

Lemma opened_in_session (tr : list (event Req Resp Content)) :
  opened (map InSession tr) = [] /\ closed (map InSession tr) = [].
Proof. induction tr as [|ev tr [IH1 IH2]]; simpl; auto. Qed.

(** [connect_to_server] exits nothing, and leaves on the exit stack the
    contexts it has entered, the most recent first. *)
Lemma connect_discipline path p :
  exists evs,
    plog (snd (connect_to_server stdio_client client_session initialize list_tools path p))
    = plog p ++ evs
    /\ closed evs = []
    /\ pstack (snd (connect_to_server stdio_client client_session initialize
                      list_tools path p))
       = rev (opened evs) ++ pstack p
    /\ (fst (connect_to_server stdio_client client_session initialize list_tools path p)
        = Done tt -> opened evs = [Transport; Session]).
Proof.
  unfold connect_to_server.
  destruct (negb _).
  { exists []. rewrite app_nil_r. split_and!; try reflexivity. discriminate. }
  unfold call, push, say. cbn [pworld plog pstack].
  destruct (stdio_client _ (pworld p)) as [[msg | []] w1]; cbn [pworld plog pstack fst snd].
  { eexists. split_and!; [reflexivity | reflexivity | reflexivity | discriminate]. }
  destruct (client_session w1) as [[msg | []] w2]; cbn [pworld plog pstack fst snd].
  { eexists. rewrite <- app_assoc.
    split_and!; [reflexivity | reflexivity | reflexivity | discriminate]. }
  destruct (initialize w2) as [[msg | []] w3]; cbn [pworld plog pstack fst snd].
  { eexists. rewrite <- !app_assoc.
    split_and!; [reflexivity | reflexivity | reflexivity | discriminate]. }
  destruct (list_tools w3) as [[msg | tl] w4]; cbn [pworld plog pstack fst snd].
  { eexists. rewrite <- !app_assoc.
    split_and!; [reflexivity | reflexivity | reflexivity | discriminate]. }
  eexists. rewrite <- !app_assoc.
  split_and!; reflexivity.
Qed.

Lemma in_session_discipline {A : Type} (m : M (env W (event Req Resp Content)) A) p :
  exists evs,
    plog (snd (in_session m p)) = plog p ++ evs
    /\ closed evs = [] /\ opened evs = []
    /\ pstack (snd (in_session m p)) = pstack p.
Proof.
  unfold in_session. destruct (m _) as [[a | e |] s]; cbn [plog pstack snd];
    eexists; (split; [reflexivity |]);
    destruct (opened_in_session (trace s)) as [-> ->]; auto.
Qed.

Lemma in_session_done {A : Type} (m : M (env W (event Req Resp Content)) A) p a :
  fst (in_session m p) = Done a -> fst (m (Env (pworld p) [])) = Ok a.
Proof.
  unfold in_session. destruct (m _) as [[a' | e |] s]; cbn [fst]; congruence.
Qed.

Lemma serve_discipline path stdin p :
  exists evs,
    plog (snd (serve stdio_client client_session initialize list_tools process_query
                 path stdin p))
    = plog p ++ evs
    /\ closed evs = []
    /\ pstack (snd (serve stdio_client client_session initialize list_tools
                      process_query path stdin p))
       = rev (opened evs) ++ pstack p
    /\ (fst (serve stdio_client client_session initialize list_tools process_query
               path stdin p) = Done tt ->
        opened evs = [Transport; Session]
        /\ exists line, In line stdin /\ Py.lower (Py.strip line) = "quit").
Proof.
  unfold serve.
  destruct (connect_discipline path p) as (evs & Hlog & Hc & Hs & Hd).
  destruct (connect_to_server _ _ _ _ path p) as [[[] | c |] p1]; cbn [fst snd] in *;
    try (exists evs; split_and!; [assumption | assumption | assumption | discriminate]).
  destruct (in_session_discipline (Chat.chat_loop process_query stdin) p1)
    as (evs' & Hlog' & Hc' & Ho' & Hs').
  exists (evs ++ evs').
  rewrite Hlog', Hlog, Hs', Hs, <- app_assoc, closed_app, opened_app, Hc, Hc', Ho'.
  rewrite !app_nil_r. split_and!; auto.
  intros Hdone. split; [by apply Hd |].
  apply in_session_done in Hdone. by apply chat_loop_ends in Hdone.
Qed.

Lemma pending_after_last (results : list (string + bool)) pending msg :
  last results = Some (inl msg) ->
  foldl (fun pe res => match res with
                       | inl m => Some m
                       | inr true => None
                       | inr false => pe
                       end) pending results = Some msg.
Proof.
  intros Hl. apply last_Some in Hl as [init ->]. by rewrite foldl_app.
Qed.

(** [aclose] exits every context of the stack, top first, whatever the
    exits give. *)
Lemma aclose_discipline stack : forall pending p,
  exists results,
    length results = length stack
    /\ plog (snd (aclose aexit stack pending p)) = plog p ++ zip_with Close stack results
    /\ pstack (snd (aclose aexit stack pending p)) = []
    /\ fst (aclose aexit stack pending p)
       = foldl (fun pe res => match res with
                              | inl m => Some m
                              | inr true => None
                              | inr false => pe
                              end) pending results.
Proof.
  induction stack as [|c stack IH]; intros pending p.
  - exists []. simpl. rewrite app_nil_r. auto.
  - cbn [aclose]. unfold call. cbn [pworld plog pstack].
    destruct (aexit c (pworld p)) as [res w] eqn:Hx. cbn [pworld plog pstack].
    match goal with |- context [aclose _ _ ?pe ?p'] =>
      destruct (IH pe p') as (results & Hl & Hlog & Hs & Hf) end.
    exists (res :: results). rewrite Hlog, Hs, Hf. cbn [plog].
    rewrite <- app_assoc. split_and!; [simpl; lia | reflexivity | reflexivity | reflexivity].
Qed.

(** The [try] and the [finally] of [main]. *)
Lemma try_finally_discipline path stdin p :
  pstack p = [] ->
  let r := match serve stdio_client client_session initialize list_tools process_query
                   path stdin p with
           | (Hang, p1) => (Hang, p1)
           | (r, p1) =>
               match cleanup aexit p1 with
               | (Some msg, p2) => (Crash (Failure msg), p2)
               | (None, p2) => (r, p2)
               end
           end in
  exists body results,
    plog (snd r) = plog p ++ body ++ zip_with Close (rev (opened body)) results
    /\ closed body = []
    /\ (fst r <> Hang -> length results = length (opened body))
    /\ (forall msg, last results = Some (inl msg) -> fst r = Crash (Failure msg))
    /\ (fst r = Done tt ->
        opened body = [Transport; Session]
        /\ exists line, In line stdin /\ Py.lower (Py.strip line) = "quit").
Proof.
  intros Hp.
  destruct (serve_discipline path stdin p) as (evs & Hlog & Hc & Hs & Hd).
  destruct (serve _ _ _ _ _ path stdin p) as [r1 p1]. cbn [fst snd] in *.
  rewrite Hp, app_nil_r in Hs.
  destruct (aclose_discipline (pstack p1) None p1) as (results & Hl & Hlog' & Hs' & Hf).
  unfold cleanup.
  assert (Hend : forall r1' : ending unit,
             let r := match aclose aexit (pstack p1) None p1 with
                      | (Some msg, p2) => (Crash (Failure msg), p2)
                      | (None, p2) => (r1', p2)
                      end in
             plog (snd r) = plog p ++ evs ++ zip_with Close (rev (opened evs)) results
             /\ length results = length (opened evs)
             /\ (forall msg, last results = Some (inl msg) -> fst r = Crash (Failure msg))
             /\ (fst r = Done tt -> r1' = Done tt)).
  { intros r1'. destruct (aclose aexit (pstack p1) None p1) as [failed p2].
    cbn [fst snd] in *.
    assert (Hlog2 : plog p2 = plog p ++ evs ++ zip_with Close (rev (opened evs)) results).
    { rewrite Hlog', Hlog, Hs, <- app_assoc. reflexivity. }
    assert (Hlen : length results = length (opened evs)).
    { by rewrite Hl, Hs, length_rev. }
    assert (Hlast : forall msg, last results = Some (inl msg) -> failed = Some msg).
    { intros msg Hm. rewrite Hf. by apply pending_after_last. }
    destruct failed as [m |]; cbn [fst snd]; split_and!; auto; try discriminate;
      intros msg Hm; apply Hlast in Hm; congruence. }
  destruct r1 as [[] | c |].
  - destruct (Hend (Done tt)) as (H1 & H2 & H3 & H4).
    exists evs, results. split_and!; auto.
  - destruct (Hend (Crash c)) as (H1 & H2 & H3 & H4).
    exists evs, results. split_and!; auto.
  - exists evs, []. cbn [fst snd]. rewrite zip_with_nil_r, app_nil_r.
    split_and!; auto; try discriminate. intros Hh. by destruct Hh.
Qed.

(** The facts about [main] from which the theorems below follow. *)
Lemma main_discipline argv stdin p :
  let r := main boto3_client stdio_client client_session initialize aexit list_tools
             process_query argv stdin p in
  exists body results,
    plog (snd r) = plog p ++ body ++ zip_with Close (rev (opened body)) results
    /\ closed body = []
    /\ (fst r <> Hang -> length results = length (opened body))
    /\ (forall msg, last results = Some (inl msg) -> fst r = Crash (Failure msg))
    /\ (fst r = Done tt ->
        opened body = [Transport; Session]
        /\ exists line, In line stdin /\ Py.lower (Py.strip line) = "quit").
Proof.
  intros r. subst r. unfold main.
  destruct (length argv <? 2)%nat.
  { exists [InSession (EvPrint usage)], []. cbn [fst snd say plog].
    split_and!; try reflexivity; try discriminate; intros; discriminate. }
  unfold new_client.
  destruct boto3_client as [make |].
  - destruct (call_discipline make NewClient (Proc (pworld p) (plog p) []))
      as [Hlog0 Hst0].
    destruct (call make NewClient _) as [[msg | []] p0]; cbn [fst snd plog pstack] in *.
    + exists [NewClient (inl msg)], []. rewrite Hlog0.
      split_and!; try reflexivity; try discriminate; intros; discriminate.
    + match goal with |- context [serve _ _ _ _ _ ?path _ _] =>
        destruct (try_finally_discipline path stdin p0 Hst0)
          as (body & results & H1 & H2 & H3 & H4 & H5)
      end.
      exists (NewClient (inr tt) :: body), results. cbn [opened closed].
      rewrite H1, Hlog0, <- app_assoc. split_and!; auto.
  - match goal with |- context [serve _ _ _ _ _ ?path _ ?p0] =>
      destruct (try_finally_discipline path stdin p0 eq_refl)
        as (body & results & H1 & H2 & H3 & H4 & H5)
    end.
    exists body, results. split_and!; auto.
Qed.

End Lifecycle.

Section Connecting.
Context {W Req Resp Content : Type}.
Import Startup.

Variable stdio_client : server_params -> W -> (string + unit) * W.
Variable client_session : W -> (string + unit) * W.
Variable initialize : W -> (string + unit) * W.
Variable list_tools : W -> (string + list tool) * W.

Lemma connect_rejects path (p : proc W (event Req Resp Content)) :
  endswith path ".py" = false ->
  endswith path ".js" = false ->
  connect_to_server stdio_client client_session initialize list_tools path p
  = (Crash (ValueError failure_message), p).
Proof. intros Hpy Hjs. unfold connect_to_server. by rewrite Hpy, Hjs. Qed.

Lemma connect_spawns path (p : proc W (event Req Resp Content)) :
  endswith path ".py" || endswith path ".js" = true ->
  let params :=
    ServerParams (if endswith path ".py" then "python" else "node") [path] in
  exists evs,
    plog (snd (connect_to_server stdio_client client_session initialize list_tools path p))
    = plog p ++ Spawn params (fst (stdio_client params (pworld p))) :: evs.
Proof.
  intros Hsuffix params. unfold connect_to_server. rewrite Hsuffix. cbn [negb].
  fold params. unfold call, push, say. cbn [pworld plog pstack].
  destruct (stdio_client params (pworld p)) as [[msg | []] w1];
    cbn [pworld plog pstack fst snd]; [by eexists |].
  destruct (client_session w1) as [[msg | []] w2]; cbn [pworld plog pstack fst snd];
    [eexists; by rewrite <- app_assoc |].
  destruct (initialize w2) as [[msg | []] w3]; cbn [pworld plog pstack fst snd];
    [eexists; by rewrite <- !app_assoc |].
  destruct (list_tools w3) as [[msg | tl] w4]; cbn [pworld plog pstack fst snd];
    eexists; by rewrite <- !app_assoc.
Qed.

End Connecting.

(** X10.  [connect_to_server] starts a script whose path ends in [.py]
    with the command [python], and one whose path ends in [.js] with
    [node], the path being the only argument: starting the server is the
    first thing it does.  For a path with neither ending it raises the
    [ValueError] and has done nothing. *)
Theorem connect_to_server_interpreter :
  forall (W Req Resp Content : Type) stdio_client client_session initialize list_tools
         path (p : Startup.proc W (event Req Resp Content)),
    let r := Startup.connect_to_server stdio_client client_session initialize
               list_tools path p in
    let spawned command :=
      exists evs,
        Startup.plog (snd r)
        = Startup.plog p
          ++ Startup.Spawn (Startup.ServerParams command [path])
               (fst (stdio_client (Startup.ServerParams command [path])
                       (Startup.pworld p)))
             :: evs in
    (forall stem, path = stem +:+ ".py" -> spawned "python")
    /\ (forall stem, path = stem +:+ ".js" -> spawned "node")
    /\ ((forall stem, path <> stem +:+ ".py") ->
        (forall stem, path <> stem +:+ ".js") ->
        r = (Startup.Crash (Startup.ValueError Startup.failure_message), p)).
Proof.
  intros W Req Resp Content stdio_client client_session initialize list_tools path p
    r spawned.
  subst r spawned. split_and!.
  - intros stem ->.
    pose proof (connect_spawns stdio_client client_session initialize list_tools
                  (stem +:+ ".py") p) as H.
    rewrite endswith_stem in H. exact (H eq_refl).
  - intros stem ->.
    pose proof (connect_spawns stdio_client client_session initialize list_tools
                  (stem +:+ ".js") p) as H.
    rewrite endswith_stem, js_is_not_python in H. exact (H eq_refl).
  - intros Hpy Hjs. apply connect_rejects; by apply endswith_no_stem.
Qed.

Lemma connect_to_server_interpreter_witness :
  exists evs,
    Startup.plog
      (snd (Startup.connect_to_server (fun _ => Boot.fine tt) (Boot.fine tt)
              (Boot.broken "no handshake") (Stub.catalog [Scenario.add_tool])
              "tools/server.js"
              (Boot.fresh (Ev:=event Bedrock.request Bedrock.response Py.value) tt)))
    = Startup.Spawn (Startup.ServerParams "node" ["tools/server.js"]) (inr tt) :: evs.
Proof.
  match goal with
  | |- context [Startup.connect_to_server ?sc ?cs ?ini ?lt ?path ?p] =>
      exact (proj1 (proj2 (connect_to_server_interpreter _ _ _ _ sc cs ini lt path p))
               "tools/server" eq_refl)
  end.
Defined.





(** X13.  Started on a script path with neither ending, [main] ends with
    the [ValueError] of [connect_to_server]: no server is started, and
    the clean-up finds nothing to exit. *)
Theorem wrong_script_starts_nothing :
  forall (W Req Resp Content : Type) boto3_client stdio_client client_session
         initialize aexit list_tools process_query argv path stdin
         (p : Startup.proc W (event Req Resp Content)),
    argv !! 1%nat = Some path ->
    (forall stem, path <> stem +:+ ".py") ->
    (forall stem, path <> stem +:+ ".js") ->
    fst (Startup.new_client boto3_client p) = Startup.Done tt ->
    Startup.main boto3_client stdio_client client_session initialize aexit
      list_tools process_query argv stdin p
    = (Startup.Crash (Startup.ValueError Startup.failure_message),
       snd (Startup.new_client boto3_client p)).
Proof.
  intros W Req Resp Content boto3_client stdio_client client_session initialize aexit
    list_tools process_query argv path stdin p Hargv Hpy Hjs Hclient.
  assert (Hlen : (length argv <? 2)%nat = false).
  { apply Nat.ltb_ge. apply lookup_lt_Some in Hargv. lia. }
  assert (Hst : Startup.pstack (snd (Startup.new_client boto3_client p)) = []).
  { unfold Startup.new_client. destruct boto3_client as [make |]; [| reflexivity].
    pose proof (call_discipline make Startup.NewClient
                  (Startup.Proc (Startup.pworld p) (Startup.plog p) [])) as [_ Hs].
    by destruct (Startup.call make Startup.NewClient _) as [[msg | []] p0]. }
  unfold Startup.main. rewrite Hlen, Hargv. cbn [default].
  destruct (Startup.new_client boto3_client p) as [[[] | c |] p0];
    cbn [fst snd] in *; try discriminate.
  unfold Startup.serve.
  rewrite connect_rejects by (by apply endswith_no_stem).
  unfold Startup.cleanup. rewrite Hst. cbn [Startup.aclose].
  destruct p0 as [w log st]. cbn [Startup.pstack] in Hst. by subst st.
Qed.

Lemma wrong_script_starts_nothing_witness :
  Startup.plog (snd (Boot.bedrock_main ["client.py"; "server.PY"] ["quit"]))
  = [Startup.NewClient (inr tt)].
Proof.
  unfold Boot.bedrock_main, Boot.bedrock_boot.
  match goal with
  | |- context [Startup.main ?bc ?sc ?cs ?ini ?ae ?lt ?pq ?argv ?stdin ?p] =>
      rewrite (wrong_script_starts_nothing _ _ _ _ bc sc cs ini ae lt pq argv
                 "server.PY" stdin p eq_refl)
  end.
  - reflexivity.
  - intros stem H.
    assert (E : Startup.endswith "server.PY" ".py" = true)
      by (apply endswith_spec; by exists stem).
    discriminate.
  - intros stem H.
    assert (E : Startup.endswith "server.PY" ".js" = true)
      by (apply endswith_spec; by exists stem).
    discriminate.
  - reflexivity.
Defined.
